(** * skill-deskbird: the resolution-and-workflow layer, embedded and verified

    A shallow embedding of [src/cli.ts], [src/api.ts], [src/config.ts] and
    [src/types.ts], together with the parts of the JavaScript runtime and of
    date-fns that these files call, followed by the theorems that settle the
    claims C1..C10 of the specification and by further properties of the
    code, X1 onwards.

    Conventions of the embedding:
    - a JavaScript string is a [string] holding its UTF-8 bytes.  Every
      character the program tests for is ASCII, and a byte of a multi-byte
      sequence is never ASCII, so equality, splitting, searching and the
      regular expressions below agree with their UTF-16 originals on
      well-formed text;
    - a JavaScript number that the program only ever uses as an integer is
      an [option Z], [None] standing for NaN;
    - a [Date] is its time value in milliseconds since the epoch (UTC), or
      [None] for an Invalid Date;
    - a function that may throw returns a [Result]; code that talks to the
      service or may end the process runs in the monad [M]. *)

From Stdlib Require Import ZArith QArith List String Ascii Bool Lia Sorted
  Permutation.
Import ListNotations.
Open Scope string_scope.
Open Scope Z_scope.

(* ================================================================= *)
(** * Part I.  The JavaScript runtime, as far as the program uses it *)
(* ================================================================= *)

Module JS.

(** ** Characters and strings *)

Definition code (c : ascii) : N := N_of_ascii c.

Definition is_digit (c : ascii) : bool :=
  (48 <=? code c)%N && (code c <=? 57)%N.

Definition digit_val (c : ascii) : Z := Z.of_N (code c) - 48.

Definition digit_char (n : Z) : ascii := ascii_of_N (Z.to_N (n + 48)).

(** [s.length > 0], the truthiness of a string. *)
Definition nonempty (s : string) : bool :=
  match s with EmptyString => false | String _ _ => true end.

(** Truthiness of a value of type [string | undefined]. *)
Definition truthy (o : option string) : bool :=
  match o with Some s => nonempty s | None => false end.

(** [a || b] on [string | undefined]. *)
Definition or_else (a b : option string) : option string :=
  if truthy a then a else b.

(** [String.prototype.includes]. *)
Fixpoint includes (s sub : string) : bool :=
  prefix sub s ||
  match s with
  | EmptyString => false
  | String _ s' => includes s' sub
  end.

(** [s.split(sep)] for a one-character separator; the result is never
    empty: a string without the separator is returned whole. *)
Fixpoint split_acc (sep : ascii) (cur : string) (s : string) : list string :=
  match s with
  | EmptyString => [cur]
  | String c r =>
      if Ascii.eqb c sep then cur :: split_acc sep EmptyString r
      else split_acc sep (cur ++ String c EmptyString) r
  end.

Definition split (sep : ascii) (s : string) : list string :=
  split_acc sep EmptyString s.

(** [s.split(re)] for a regular expression that is one character class. *)
Fixpoint split_class_acc (p : ascii -> bool) (cur : string) (s : string)
  : list string :=
  match s with
  | EmptyString => [cur]
  | String c r =>
      if p c then cur :: split_class_acc p EmptyString r
      else split_class_acc p (cur ++ String c EmptyString) r
  end.

Definition split_class (p : ascii -> bool) (s : string) : list string :=
  split_class_acc p EmptyString s.

(** [re.test(s)] for a regular expression that is one character class. *)
Fixpoint test_class (p : ascii -> bool) (s : string) : bool :=
  match s with
  | EmptyString => false
  | String c r => p c || test_class p r
  end.

Fixpoint repeat_char (c : ascii) (n : nat) : string :=
  match n with O => EmptyString | S k => String c (repeat_char c k) end.

(** [s.padStart(n, c)] for a one-character filler. *)
Definition padStart (n : nat) (c : ascii) (s : string) : string :=
  repeat_char c (n - String.length s) ++ s.

(** [s.slice(n)] and [s.slice(0, n)] for [0 <= n]. *)
Fixpoint drop (n : nat) (s : string) : string :=
  match n, s with
  | S k, String _ r => drop k r
  | _, _ => s
  end.

Fixpoint take (n : nat) (s : string) : string :=
  match n, s with
  | S k, String c r => String c (take k r)
  | _, _ => EmptyString
  end.

(** [s.replace(sub, EmptyString)]: the first occurrence of [sub] is removed. *)
Fixpoint remove_first (sub s : string) : string :=
  if prefix sub s then drop (String.length sub) s
  else match s with
       | EmptyString => EmptyString
       | String c r => String c (remove_first sub r)
       end.

(** ** Numbers *)

(** A number, when only integers and NaN can occur. *)
Definition Number := option Z.

(** Comparisons; any comparison with NaN is false. *)
Definition num_le (a b : Number) : bool :=
  match a, b with Some x, Some y => x <=? y | _, _ => false end.

Definition num_ge (a b : Number) : bool := num_le b a.

Definition num_sub (a : Number) (k : Z) : Number := option_map (fun x => x - k) a.

(** White space and line terminators that [parseInt] skips (ECMAScript
    StrWhiteSpaceChar): TAB, LF, VT, FF, CR, SP, and in UTF-8 the two- and
    three-byte sequences of U+00A0, U+1680, U+2000..U+200A, U+2028, U+2029,
    U+202F, U+205F, U+3000 and U+FEFF. *)
Definition ascii_ws (c : ascii) : bool :=
  ((9 <=? code c)%N && (code c <=? 13)%N) || (code c =? 32)%N.

Definition ws2 (c1 c2 : ascii) : bool :=
  (code c1 =? 194)%N && (code c2 =? 160)%N.

Definition ws3 (c1 c2 c3 : ascii) : bool :=
  let a := code c1 in let b := code c2 in let c := code c3 in
  ((a =? 225) && (b =? 154) && (c =? 128))%N
  || ((a =? 226) && (b =? 128) && ((128 <=? c) && (c <=? 138)))%N
  || ((a =? 226) && (b =? 128) && ((c =? 168) || (c =? 169) || (c =? 175)))%N
  || ((a =? 226) && (b =? 129) && (c =? 159))%N
  || ((a =? 227) && (b =? 128) && (c =? 128))%N
  || ((a =? 239) && (b =? 187) && (c =? 191))%N.

Fixpoint trimStart (s : string) : string :=
  match s with
  | String c1 r1 =>
      if ascii_ws c1 then trimStart r1
      else match r1 with
           | String c2 r2 =>
               if ws2 c1 c2 then trimStart r2
               else match r2 with
                    | String c3 r3 => if ws3 c1 c2 c3 then trimStart r3 else s
                    | EmptyString => s
                    end
           | EmptyString => s
           end
  | EmptyString => s
  end.

(** Value of the longest prefix of decimal digits, with the number of
    digits read. *)
Fixpoint digits_acc (acc : Z) (n : nat) (s : string) : Z * nat :=
  match s with
  | String c r =>
      if is_digit c then digits_acc (10 * acc + digit_val c) (S n) r
      else (acc, n)
  | EmptyString => (acc, n)
  end.

Definition unsigned_digits (s : string) : Number :=
  match digits_acc 0 O s with
  | (_, O) => None
  | (v, S _) => Some v
  end.

(** [parseInt(s, 10)]: leading white space, an optional sign, then the
    longest run of decimal digits; NaN when there is no digit.  The value
    is exact here; JavaScript rounds it to a double beyond 2^53.  The
    one-argument [parseInt(s)] that date-fns uses differs only on a [0x]
    prefix, which the texts it is applied to never have. *)
Definition parseInt (s : string) : Number :=
  match trimStart s with
  | String "-" r => option_map Z.opp (unsigned_digits r)
  | String "+" r => unsigned_digits r
  | t => unsigned_digits t
  end.

(** [n.toString()] for an integer. *)
Fixpoint digits_of (fuel : nat) (n : Z) (acc : string) : string :=
  match fuel with
  | O => acc
  | S f =>
      let acc' := String (digit_char (n mod 10)) acc in
      if n <? 10 then acc' else digits_of f (n / 10) acc'
  end.

Definition toString (n : Z) : string :=
  let m := Z.abs n in
  let ds := digits_of (S (Z.to_nat (Z.log2 m))) m EmptyString in
  if n <? 0 then String "-" ds else ds.

(** ** Regular expressions

    A backtracking matcher with the semantics of ECMAScript for the
    constructs that occur in the program and in date-fns: greedy optional
    parts, ordered alternatives, numbered capture groups and the end
    anchor.  [rx r s cs k] matches [r] at the start of [s] and hands the
    rest of the text and the captures to the continuation [k]; a [None]
    from [k] makes the matcher try the next possibility. *)

Inductive regex : Type :=
| Eps                                   (* the empty pattern *)
| Cls (p : ascii -> bool)               (* one character of a class *)
| Cat (a b : regex)                     (* ab *)
| Alt (a b : regex)                     (* a|b *)
| Opt (a : regex)                       (* a? *)
| StarCls (p : ascii -> bool)           (* any run of a class *)
| DotStar                               (* any run of [.] *)
| Cap (i : nat) (a : regex)             (* (a), group number i *)
| Eos.                                  (* $ without the m flag *)

Definition captures := list (nat * string).

Fixpoint group (i : nat) (cs : captures) : option string :=
  match cs with
  | [] => None
  | (j, s) :: r => if Nat.eqb i j then Some s else group i r
  end.

Definition consumed (before after : string) : string :=
  take (String.length before - String.length after) before.

Fixpoint star_cls (p : ascii -> bool) (s : string) (cs : captures)
  (k : string -> captures -> option captures) : option captures :=
  match s with
  | String c r =>
      if p c then
        match star_cls p r cs k with
        | Some out => Some out
        | None => k s cs
        end
      else k s cs
  | EmptyString => k s cs
  end.

(** [.] matches any character but a line terminator: LF, CR, U+2028 and
    U+2029 (in UTF-8 the bytes 226 128 168 and 226 128 169). *)
Definition at_line_terminator (s : string) : bool :=
  match s with
  | String c1 r1 =>
      (code c1 =? 10)%N || (code c1 =? 13)%N ||
      match r1 with
      | String c2 (String c3 _) =>
          (code c1 =? 226)%N && (code c2 =? 128)%N &&
          ((code c3 =? 168)%N || (code c3 =? 169)%N)
      | _ => false
      end
  | EmptyString => false
  end.

Fixpoint star_dot (s : string) (cs : captures)
  (k : string -> captures -> option captures) : option captures :=
  match s with
  | String c r =>
      if at_line_terminator s then k s cs
      else match star_dot r cs k with
           | Some out => Some out
           | None => k s cs
           end
  | EmptyString => k s cs
  end.

Fixpoint rx (r : regex) (s : string) (cs : captures)
  (k : string -> captures -> option captures) : option captures :=
  match r with
  | Eps => k s cs
  | Cls p =>
      match s with
      | String c s' => if p c then k s' cs else None
      | EmptyString => None
      end
  | Cat a b => rx a s cs (fun s1 c1 => rx b s1 c1 k)
  | Alt a b =>
      match rx a s cs k with
      | Some out => Some out
      | None => rx b s cs k
      end
  | Opt a =>
      match rx a s cs k with
      | Some out => Some out
      | None => k s cs
      end
  | StarCls p => star_cls p s cs k
  | DotStar => star_dot s cs k
  | Cap i a => rx a s cs (fun s1 c1 => k s1 ((i, consumed s s1) :: c1))
  | Eos =>
      match s with
      | EmptyString => k s cs
      | String _ _ => None
      end
  end.

(** [s.match(re)] for a pattern that starts with [^]. *)
Definition match_start (r : regex) (s : string) : option captures :=
  rx r s [] (fun _ cs => Some cs).

(** [re.exec(s)] for a pattern without [^]: the leftmost match. *)
Fixpoint exec (r : regex) (s : string) : option captures :=
  match match_start r s with
  | Some cs => Some cs
  | None =>
      match s with
      | EmptyString => None
      | String _ s' => exec r s'
      end
  end.

(** Character classes. *)
Definition chr (c : ascii) : regex := Cls (Ascii.eqb c).
Definition digit : regex := Cls is_digit.            (* \d *)
(** A letter under the [i] flag: both cases of an ASCII letter, and no
    other character (without the [u] flag a character above U+007F never
    folds to an ASCII one). *)
Definition chr_i (lower upper : ascii) : regex :=
  Cls (fun c => Ascii.eqb c lower || Ascii.eqb c upper).
Definition one_of (cs : list ascii) : regex :=
  Cls (fun c => existsb (Ascii.eqb c) cs).

Fixpoint times (n : nat) (r : regex) : regex :=       (* r{n} *)
  match n with O => Eps | S k => Cat r (times k r) end.

(** ** Time values and the Date object (ECMAScript, Date Objects)

    The local time zone is taken to have a fixed offset [tz] from UTC, in
    milliseconds, during one run of the program. *)

Definition msPerDay : Z := 86400000.
Definition msPerHour : Z := 3600000.
Definition msPerMinute : Z := 60000.
Definition msPerSecond : Z := 1000.
Definition maxTime : Z := 8640000000000000.

Definition Day (t : Z) : Z := t / msPerDay.
Definition TimeWithinDay (t : Z) : Z := t mod msPerDay.

Definition DaysInYear (y : Z) : Z :=
  if negb (y mod 4 =? 0) then 365
  else if negb (y mod 100 =? 0) then 366
  else if negb (y mod 400 =? 0) then 365
  else 366.

Definition DayFromYear (y : Z) : Z :=
  365 * (y - 1970) + (y - 1969) / 4 - (y - 1901) / 100 + (y - 1601) / 400.

(** The largest [y] with [DayFromYear y <= d] (see [YearFromDay_spec]):
    the average year has 146097/400 days, and the year lies within one of
    the estimate. *)
Definition YearFromDay (d : Z) : Z :=
  let y0 := 1970 + (400 * d) / 146097 in
  if DayFromYear (y0 + 1) <=? d then y0 + 1
  else if DayFromYear y0 <=? d then y0
  else y0 - 1.

Definition YearFromTime (t : Z) : Z := YearFromDay (Day t).

Definition InLeapYear (y : Z) : Z := if DaysInYear y =? 366 then 1 else 0.

(** Day number within the year at which month [m] (0..11) begins. *)
Definition month_start (leap m : Z) : Z :=
  if m <=? 0 then 0
  else if m =? 1 then 31
  else if m =? 2 then 59 + leap
  else if m =? 3 then 90 + leap
  else if m =? 4 then 120 + leap
  else if m =? 5 then 151 + leap
  else if m =? 6 then 181 + leap
  else if m =? 7 then 212 + leap
  else if m =? 8 then 243 + leap
  else if m =? 9 then 273 + leap
  else if m =? 10 then 304 + leap
  else 334 + leap.

Definition DayWithinYear (t : Z) : Z := Day t - DayFromYear (YearFromTime t).

Definition MonthFromTime (t : Z) : Z :=
  let d := DayWithinYear t in
  let leap := InLeapYear (YearFromTime t) in
  if d <? 31 then 0
  else if d <? 59 + leap then 1
  else if d <? 90 + leap then 2
  else if d <? 120 + leap then 3
  else if d <? 151 + leap then 4
  else if d <? 181 + leap then 5
  else if d <? 212 + leap then 6
  else if d <? 243 + leap then 7
  else if d <? 273 + leap then 8
  else if d <? 304 + leap then 9
  else if d <? 334 + leap then 10
  else 11.

Definition DateFromTime (t : Z) : Z :=
  DayWithinYear t - month_start (InLeapYear (YearFromTime t)) (MonthFromTime t) + 1.

Definition WeekDay (t : Z) : Z := (Day t + 4) mod 7.

Definition MakeTime (h m s ms : Z) : Z :=
  h * msPerHour + m * msPerMinute + s * msPerSecond + ms.

(** [MakeDay]: NaN when the first day of the month is not a time value. *)
Definition MakeDay (year month date : Z) : Number :=
  let ym := year + month / 12 in
  let mn := month mod 12 in
  let first := DayFromYear ym + month_start (InLeapYear ym) mn in
  if Z.abs (first * msPerDay) <=? maxTime then Some (first + date - 1) else None.

Definition MakeDate (day time : Z) : Z := day * msPerDay + time.

Definition TimeClip (t : Z) : Number :=
  if Z.abs t <=? maxTime then Some t else None.

Definition LocalTime (tz t : Z) : Z := t + tz.
Definition UTC (tz t : Z) : Z := t - tz.

(** A Date object: its time value, [None] for an Invalid Date. *)
Definition Date := option Z.

Definition bindN {A} (n : option A) (f : A -> Number) : Number :=
  match n with Some x => f x | None => None end.

(** [new Date(year, month, day)]: local midnight; a year from 0 to 99 means
    1900 + year. *)
Definition Date_of_ymd (tz : Z) (year month day : Number) : Date :=
  bindN year (fun y => bindN month (fun m => bindN day (fun dt =>
    let yr := if (0 <=? y) && (y <=? 99) then 1900 + y else y in
    bindN (MakeDay yr m dt) (fun d =>
      TimeClip (UTC tz (MakeDate d (MakeTime 0 0 0 0))))))).

(** [new Date(value)] for a numeric value given as an exact rational: the
    value is truncated to an integer by [TimeClip]. *)
Definition truncate (q : Q) : Z := Z.quot (Qnum q) (Z.pos (Qden q)).
Definition Date_of_value (v : Q) : Date := TimeClip (truncate v).

Definition getTime (d : Date) : Number := d.
Definition getFullYear (tz : Z) (d : Date) : Number :=
  option_map (fun t => YearFromTime (LocalTime tz t)) d.
Definition getMonth (tz : Z) (d : Date) : Number :=
  option_map (fun t => MonthFromTime (LocalTime tz t)) d.
Definition getDate (tz : Z) (d : Date) : Number :=
  option_map (fun t => DateFromTime (LocalTime tz t)) d.
Definition getUTCFullYear (d : Date) : Number := option_map YearFromTime d.
Definition getUTCMonth (d : Date) : Number := option_map MonthFromTime d.
Definition getUTCDate (d : Date) : Number := option_map DateFromTime d.
Definition getUTCDay (d : Date) : Number := option_map WeekDay d.
Definition getUTCHours (d : Date) : Number :=
  option_map (fun t => (t / msPerHour) mod 24) d.
Definition getUTCMinutes (d : Date) : Number :=
  option_map (fun t => (t / msPerMinute) mod 60) d.
Definition getUTCSeconds (d : Date) : Number :=
  option_map (fun t => (t / msPerSecond) mod 60) d.
Definition getUTCMilliseconds (d : Date) : Number :=
  option_map (fun t => t mod msPerSecond) d.

(** [d.setDate(dt)]. *)
Definition setDate (tz : Z) (d : Date) (dt : Number) : Date :=
  bindN d (fun tv => bindN dt (fun n =>
    let t := LocalTime tz tv in
    bindN (MakeDay (YearFromTime t) (MonthFromTime t) n) (fun day =>
      TimeClip (UTC tz (MakeDate day (TimeWithinDay t)))))).

(** [d.setFullYear(y, m, dt)]: an Invalid Date counts as time value 0. *)
Definition setFullYear (tz : Z) (d : Date) (y m dt : Number) : Date :=
  let t := match d with Some tv => LocalTime tz tv | None => 0 end in
  bindN y (fun y' => bindN m (fun m' => bindN dt (fun dt' =>
    bindN (MakeDay y' m' dt') (fun day =>
      TimeClip (UTC tz (MakeDate day (TimeWithinDay t))))))).

(** [d.setHours(h, m, s, ms)]. *)
Definition setHours (tz : Z) (d : Date) (h m s ms : Number) : Date :=
  bindN d (fun tv => bindN h (fun h' => bindN m (fun m' =>
    bindN s (fun s' => bindN ms (fun ms' =>
      let t := LocalTime tz tv in
      TimeClip (UTC tz (MakeDate (Day t) (MakeTime h' m' s' ms')))))))).

(** [d.setUTCFullYear(y, m, dt)]. *)
Definition setUTCFullYear (d : Date) (y m dt : Number) : Date :=
  let t := match d with Some tv => tv | None => 0 end in
  bindN y (fun y' => bindN m (fun m' => bindN dt (fun dt' =>
    bindN (MakeDay y' m' dt') (fun day =>
      TimeClip (MakeDate day (TimeWithinDay t)))))).

(** [d.setUTCDate(dt)]. *)
Definition setUTCDate (d : Date) (dt : Number) : Date :=
  bindN d (fun t => bindN dt (fun n =>
    bindN (MakeDay (YearFromTime t) (MonthFromTime t) n) (fun day =>
      TimeClip (MakeDate day (TimeWithinDay t))))).

End JS.

(** ** Exceptions of the language, and results of code that may throw *)

Inductive NativeError : Type :=
| JsError (message : string)            (* new Error(message) *)
| RangeError (message : string)
| TypeError (message : string)
| SyntaxError (message : string).

Inductive Result (A : Type) : Type :=
| Ok (a : A)
| Throw (e : NativeError).
Arguments Ok {A} a.
Arguments Throw {A} e.

(* ================================================================= *)
(** * Part II.  date-fns: [isValid], [format], [addDays], [parseISO] *)
(* ================================================================= *)

Module DateFns.
Import JS.

Definition isValid (d : Date) : bool :=
  match d with Some _ => true | None => false end.

(** [addLeadingZeros(number, targetLength)]. *)
Definition addLeadingZeros (number : Z) (targetLength : nat) : string :=
  let output := padStart targetLength "0" (toString (Z.abs number)) in
  if number <? 0 then String "-" output else output.

(** [format(date, 'yyyy-MM-dd')]: throws on an Invalid Date; the token
    [yyyy] is the year of the era, so a year [y <= 0] is written [1 - y]. *)
Definition format_yyyy_MM_dd (tz : Z) (date : Date) : Result string :=
  match date with
  | None => Throw (RangeError "Invalid time value")
  | Some tv =>
      let t := LocalTime tz tv in
      let signedYear := YearFromTime t in
      let year := if signedYear >? 0 then signedYear else 1 - signedYear in
      Ok (addLeadingZeros year 4 ++ "-"
          ++ addLeadingZeros (MonthFromTime t + 1) 2 ++ "-"
          ++ addLeadingZeros (DateFromTime t) 2)
  end.

(** [addDays(date, amount)]. *)
Definition addDays (tz : Z) (date : Date) (amount : Number) : Date :=
  match amount with
  | None => None
  | Some n =>
      if n =? 0 then date
      else setDate tz date (option_map (fun d => d + n) (getDate tz date))
  end.

(** *** [parseISO] *)

Record DateStrings : Type := {
  ds_date : option string;
  ds_time : option string;
  ds_timezone : option string
}.

Definition dateTimeDelimiter (c : ascii) : bool :=       (* /[T ]/ *)
  Ascii.eqb c "T" || Ascii.eqb c " ".

Definition timeZoneDelimiter (c : ascii) : bool :=       (* /[Z ]/i *)
  Ascii.eqb c "Z" || Ascii.eqb c "z" || Ascii.eqb c " ".

Definition sign : regex := one_of ["+"; "-"]%char.

(** The pattern [/( [Z+-] .* ) $/] (patterns are written here with blanks
    between their parts). *)
Definition re_timezone_tail : regex :=
  Cap 1 (Cat (one_of ["Z"; "+"; "-"]%char) (Cat DotStar Eos)).

(** The year pattern [/^ (?: ( \d{4} | [+-]\d{6} ) | ( \d{2} | [+-]\d{4} ) $ )/],
    built for the default of two additional digits. *)
Definition re_year : regex :=
  Alt (Cap 1 (Alt (times 4 digit) (Cat sign (times 6 digit))))
      (Cat (Cap 2 (Alt (times 2 digit) (Cat sign (times 4 digit)))) Eos).

(** The pattern
    [/^ -? (?: (\d{3}) | (\d{2}) (?: -? (\d{2}) )? | W (\d{2}) (?: -? (\d{1}) )? | ) $/]. *)
Definition re_date : regex :=
  Cat (Opt (chr "-"))
    (Cat (Alt (Cap 1 (times 3 digit))
         (Alt (Cat (Cap 2 (times 2 digit))
                   (Opt (Cat (Opt (chr "-")) (Cap 3 (times 2 digit)))))
         (Alt (Cat (chr "W")
                   (Cat (Cap 4 (times 2 digit))
                        (Opt (Cat (Opt (chr "-")) (Cap 5 digit)))))
              Eps)))
         Eos).

(** The part [U = \d{2} (?: [.,] \d* )?] of the time pattern. *)
Definition re_unit : regex :=
  Cat (times 2 digit) (Opt (Cat (one_of ["."; ","]%char) (StarCls is_digit))).

(** The pattern [/^ (U) (?: :? (U) )? (?: :? (U) )? $/]. *)
Definition re_time : regex :=
  Cat (Cap 1 re_unit)
    (Cat (Opt (Cat (Opt (chr ":")) (Cap 2 re_unit)))
    (Cat (Opt (Cat (Opt (chr ":")) (Cap 3 re_unit)))
         Eos)).

(** The pattern [/^ ([+-]) (\d{2}) (?: :? (\d{2}) )? $/]. *)
Definition re_tz : regex :=
  Cat (Cap 1 sign)
    (Cat (Cap 2 (times 2 digit))
    (Cat (Opt (Cat (Opt (chr ":")) (Cap 3 (times 2 digit))))
         Eos)).

Definition splitDateString (dateString : string) : DateStrings :=
  let array := split_class dateTimeDelimiter dateString in
  if (2 <? List.length array)%nat then
    {| ds_date := None; ds_time := None; ds_timezone := None |}
  else
    let first := nth 0 array EmptyString in
    let '(date, timeString) :=
      if test_class (Ascii.eqb ":") first then (None, Some first)
      else if test_class timeZoneDelimiter first then
        let d := nth 0 (split_class timeZoneDelimiter dateString) EmptyString in
        (Some d, Some (drop (String.length d) dateString))
      else (Some first, nth_error array 1) in
    if truthy timeString then
      let ts := match timeString with Some t => t | None => EmptyString end in
      match exec re_timezone_tail ts with
      | Some cs =>
          let token := match group 1 cs with Some t => t | None => EmptyString end in
          {| ds_date := date; ds_time := Some (remove_first token ts);
             ds_timezone := Some token |}
      | None =>
          {| ds_date := date; ds_time := Some ts; ds_timezone := None |}
      end
    else {| ds_date := date; ds_time := None; ds_timezone := None |}.

(** [parseYear]: the year or the century, and the rest of the date text. *)
Definition parseYear (dateString : string) : Number * string :=
  match match_start re_year dateString with
  | None => (None, EmptyString)
  | Some cs =>
      match group 2 cs, group 1 cs with
      | Some c, _ =>
          (option_map (fun n => n * 100) (parseInt c),
           drop (String.length c) dateString)
      | None, Some y => (parseInt y, drop (String.length y) dateString)
      | None, None => (None, EmptyString)
      end
  end.

(** [value ? parseInt(value) : 1]; the captured text is made of digits,
    so [parseInt] never gives NaN here. *)
Definition parseDateUnit (value : option string) : Z :=
  match value with
  | Some v => match parseInt v with Some n => n | None => 1 end
  | None => 1
  end.

Definition isLeapYearIndex (year : Number) : bool :=
  match year with
  | Some y => (Z.rem y 400 =? 0) || ((Z.rem y 4 =? 0) && negb (Z.rem y 100 =? 0))
  | None => false
  end.

Definition daysInMonths (month : Z) : option Z :=
  nth (Z.to_nat month)
    [Some 31; None; Some 31; Some 30; Some 31; Some 30;
     Some 31; Some 31; Some 30; Some 31; Some 30; Some 31] None.

Definition validateDate (year : Number) (month date : Z) : bool :=
  (0 <=? month) && (month <=? 11) && (1 <=? date) &&
  (date <=? match daysInMonths month with
            | Some n => n
            | None => if isLeapYearIndex year then 29 else 28
            end).

Definition validateDayOfYearDate (year : Number) (dayOfYear : Z) : bool :=
  (1 <=? dayOfYear) && (dayOfYear <=? (if isLeapYearIndex year then 366 else 365)).

Definition validateWeekDate (week day : Z) : bool :=
  (1 <=? week) && (week <=? 53) && (0 <=? day) && (day <=? 6).

Definition dayOfISOWeekYear (isoWeekYear : Number) (week day : Z) : Date :=
  let date := setUTCFullYear (Some 0) isoWeekYear (Some 0) (Some 4) in
  let fourthOfJanuaryDay :=
    match getUTCDay date with
    | Some w => if w =? 0 then 7 else w
    | None => 7
    end in
  let diff := (week - 1) * 7 + day + 1 - fourthOfJanuaryDay in
  setUTCDate date (option_map (fun d => d + diff) (getUTCDate date)).

(** date-fns' own [parseDate]: the date after the year, at UTC midnight. *)
Definition parseDate (dateString : string) (year : Number) : Date :=
  match match_start re_date dateString with
  | None => None
  | Some cs =>
      let isWeekDate := truthy (group 4 cs) in
      let dayOfYear := parseDateUnit (group 1 cs) in
      let month := parseDateUnit (group 2 cs) - 1 in
      let day := parseDateUnit (group 3 cs) in
      let week := parseDateUnit (group 4 cs) in
      let dayOfWeek := parseDateUnit (group 5 cs) - 1 in
      if isWeekDate then
        if negb (validateWeekDate week dayOfWeek) then None
        else dayOfISOWeekYear year week dayOfWeek
      else
        if negb (validateDate year month day)
           || negb (validateDayOfYearDate year dayOfYear) then None
        else setUTCFullYear (Some 0) year (Some month)
               (Some (Z.max dayOfYear day))
  end.

(** [parseFloat] of a text matched by [re_unit], as an exact rational
    (date-fns computes in binary floating point). *)
Definition parseTimeUnit (value : option string) : Q :=
  match value with
  | None => 0%Q
  | Some v =>
      let whole := fst (digits_acc 0 O (take 2 v)) in
      let '(frac, n) := digits_acc 0 O (drop 3 v) in
      (inject_Z whole + inject_Z frac / inject_Z (10 ^ Z.of_nat n))%Q
  end.

Definition validateTime (hours minutes seconds : Q) : bool :=
  if Qeq_bool hours 24%Q then
    Qeq_bool minutes 0%Q && Qeq_bool seconds 0%Q
  else
    Qle_bool 0%Q seconds && negb (Qle_bool 60%Q seconds) &&
    Qle_bool 0%Q minutes && negb (Qle_bool 60%Q minutes) &&
    Qle_bool 0%Q hours && negb (Qle_bool 25%Q hours).

(** date-fns' own [parseTime]: milliseconds into the day, [None] for NaN. *)
Definition parseTime (timeString : string) : option Q :=
  match match_start re_time timeString with
  | None => None
  | Some cs =>
      let hours := parseTimeUnit (group 1 cs) in
      let minutes := parseTimeUnit (group 2 cs) in
      let seconds := parseTimeUnit (group 3 cs) in
      if negb (validateTime hours minutes seconds) then None
      else Some (hours * inject_Z msPerHour + minutes * inject_Z msPerMinute
                 + seconds * 1000)%Q
  end.

Definition validateTimezone (minutes : Z) : bool :=
  (0 <=? minutes) && (minutes <=? 59).

(** [parseTimezone]: the offset to add, in milliseconds, [None] for NaN;
    a text that is not an offset counts as offset 0. *)
Definition parseTimezone (timezoneString : string) : Number :=
  if String.eqb timezoneString "Z" then Some 0
  else match match_start re_tz timezoneString with
       | None => Some 0
       | Some cs =>
           let sgn := match group 1 cs with
                      | Some s => if String.eqb s "+" then -1 else 1
                      | None => 1
                      end in
           let hours := parseDateUnit (group 2 cs) in
           let minutes := match group 3 cs with
                          | Some m => match parseInt m with Some n => n | None => 0 end
                          | None => 0
                          end in
           if negb (validateTimezone minutes) then None
           else Some (sgn * (hours * msPerHour + minutes * msPerMinute))
       end.

Definition parseISO (tz : Z) (argument : string) : Date :=
  let dateStrings := splitDateString argument in
  let date :=
    if truthy (ds_date dateStrings) then
      let d := match ds_date dateStrings with Some d => d | None => EmptyString end in
      let '(year, restDateString) := parseYear d in
      parseDate restDateString year
    else None in
  match date with
  | None => None
  | Some timestamp =>
      let time :=
        if truthy (ds_time dateStrings) then
          match ds_time dateStrings with Some t => parseTime t | None => None end
        else Some 0%Q in
      match time with
      | None => None
      | Some time =>
          if truthy (ds_timezone dateStrings) then
            match ds_timezone dateStrings with
            | Some z =>
                match parseTimezone z with
                | None => None
                | Some offset =>
                    Date_of_value (inject_Z timestamp + time + inject_Z offset)%Q
                end
            | None => None
            end
          else
            let dirtyDate := Date_of_value (inject_Z timestamp + time)%Q in
            let result := setFullYear tz (Some 0) (getUTCFullYear dirtyDate)
                            (getUTCMonth dirtyDate) (getUTCDate dirtyDate) in
            setHours tz result (getUTCHours dirtyDate) (getUTCMinutes dirtyDate)
              (getUTCSeconds dirtyDate) (getUTCMilliseconds dirtyDate)
      end
  end.

End DateFns.

(* ================================================================= *)
(** * Part III.  [src/types.ts] *)
(* ================================================================= *)

Inductive ResourceType : Type := flexDesk | meetingRoom | parking | other.

Inductive BookingStatus : Type := pending | accepted | declined | cancelled.

Inductive CheckInStatus : Type :=
| checkInPending | checkedIn | checkedOut | noShow.

Record Office : Type := {
  office_id : string;
  office_name : string;
  office_timezone : option string
}.

Record Resource : Type := {
  resource_id : string;
  resource_name : string;
  resource_type : ResourceType;
  resource_officeId : string;
  resource_zoneId : option string;
  resource_floorId : option string
}.

Record User : Type := {
  user_id : string;
  user_firstName : string;
  user_lastName : string;
  user_email : string;
  user_role : option string;
  user_primaryOfficeId : option string;
  user_status : option string;
  user_profileImage : option string
}.

Record UserEmbedded : Type := {
  ue_id : string;
  ue_firstName : string;
  ue_lastName : string;
  ue_email : string
}.

Record ResourceEmbedded : Type := {
  re_id : string;
  re_name : string;
  re_type : ResourceType
}.

Record Booking : Type := {
  booking_id : string;
  booking_userId : string;
  booking_resourceId : string;
  booking_officeId : string;
  booking_zoneId : option string;
  booking_floorId : option string;
  booking_startTime : string;
  booking_endTime : string;
  booking_status : BookingStatus;
  booking_checkInStatus : CheckInStatus;
  booking_isAnonymousBooking : bool;
  booking_anonymized : bool;
  booking_createdAt : string;
  booking_updatedAt : string;
  booking_cancelledBy : option string;
  booking_cancelledByUserId : option string;
  booking_user : option UserEmbedded;
  booking_resource : option ResourceEmbedded
}.

Record CreateBookingRequest : Type := {
  create_userId : string;
  create_resourceId : string;
  create_startTime : string;
  create_endTime : string;
  create_isAnonymousBooking : option bool
}.

Record UpdateBookingRequest : Type := {
  update_userId : option string;
  update_resourceId : option string;
  update_startTime : option string;
  update_endTime : option string;
  update_isAnonymousBooking : option bool
}.

Record PaginatedResponse (T : Type) : Type := {
  data : list T;
  total : Z;
  limit : Z;
  offset : Z
}.
Arguments data {T} _.
Arguments total {T} _.
Arguments limit {T} _.
Arguments offset {T} _.

Record ListBookingsParams : Type := {
  lb_startDate : string;
  lb_endDate : string;
  lb_userId : option string;
  lb_officeId : option string;
  lb_resourceId : option string;
  lb_zoneId : option string;
  lb_status : option BookingStatus;
  lb_limit : option Z;
  lb_offset : option Z
}.

Record ListResourcesParams : Type := {
  lr_officeId : option string;
  lr_zoneId : option string;
  lr_type : option ResourceType;
  lr_limit : option Z;
  lr_offset : option Z
}.

Record Config : Type := {
  apiKey : string;
  baseUrl : string;
  defaultOfficeId : option string;
  timezone : string
}.

Definition ResourceType_text (t : ResourceType) : string :=
  match t with
  | flexDesk => "flexDesk"
  | meetingRoom => "meetingRoom"
  | parking => "parking"
  | other => "other"
  end.

Definition BookingStatus_text (s : BookingStatus) : string :=
  match s with
  | pending => "pending"
  | accepted => "accepted"
  | declined => "declined"
  | cancelled => "cancelled"
  end.

(* ================================================================= *)
(** * Part IV.  The world outside the program *)
(* ================================================================= *)

(** ** The wire

    A request as [fetch] receives it.  The URL is kept in two parts: the
    text [baseUrl + path] and the query parameters in the order in which
    [searchParams.set] added them. *)

Inductive RequestBody : Type :=
| CreateBody (b : CreateBookingRequest)
| UpdateBody (b : UpdateBookingRequest).

Record HttpRequest : Type := {
  req_method : string;
  req_url : string;
  req_query : list (string * string);
  req_headers : list (string * string);
  req_body : option RequestBody
}.

(** A JSON document, identified with what it denotes under the wire
    contract; [JOther] is any other document, an error object for example. *)
Inductive Json : Type :=
| JOffices (p : PaginatedResponse Office)
| JResources (p : PaginatedResponse Resource)
| JUsers (p : PaginatedResponse User)
| JBookings (p : PaginatedResponse Booking)
| JUser (u : User)
| JBooking (b : Booking)
| JOther (text : string).

(** The bytes of a body, and the document they parse to when they are
    JSON. *)
Record BodyBytes : Type := {
  raw : string;
  parsed : option Json
}.

(** A response as [fetch] delivers it.  [body] is [None] for a null body
    (status 204, 205 or 304). *)
Record HttpResponse : Type := {
  status : Z;
  statusText : string;
  body : option BodyBytes
}.

(** What becomes of a request.  [InvalidURL]: the text [baseUrl + path]
    is not a URL, so [new URL] throws and nothing is sent (which texts
    are URLs is for the URL parser of the runtime to say; the program
    only passes the text on).  [NetworkFailure]: [fetch] rejects.
    [Responded]: the service answers. *)
Inductive FetchOutcome : Type :=
| NetworkFailure
| Responded (r : HttpResponse)
| InvalidURL.

(** ** The process environment *)

Record ProcessEnv : Type := {
  DESKBIRD_API_KEY : option string;
  DESKBIRD_BASE_URL : option string;
  DESKBIRD_OFFICE_ID : option string;
  TZ : option string;
  OPENCLAW_USER_ID : option string;
  DESKBIRD_USER_ID : option string;
  USER : option string;
  OPENCLAW_USER_NAME : option string;
  DESKBIRD_USER_NAME : option string
}.

Record ConfigFile : Type := {
  file_apiKey : option string;
  file_baseUrl : option string;
  file_defaultOfficeId : option string;
  file_timezone : option string
}.

(** What probing one of the configuration paths finds.  [Missing]: no
    file.  [Malformed]: reading or parsing the file throws.  [ParsedNull]:
    the file holds the JSON value [null].  [WellFormed c]: the file holds
    any other JSON value, read through the interface [ConfigFile] that the
    code asserts for it: an object whose properties [baseUrl],
    [defaultOfficeId] and [timezone] are strings where it has them, or a
    value without these properties (a number, a string, a boolean, an
    array), for which every field of [c] is [None].  An object with one of
    these properties of another type is outside that interface. *)
Inductive ConfigProbe : Type :=
| Missing
| Malformed
| WellFormed (c : ConfigFile)
| ParsedNull.

(** The value of the variable [fileConfig]. *)
Inductive FileConfig : Type :=
| NullConfig
| ObjectConfig (c : ConfigFile).

(** Everything the program reads from outside: the clock ([now], a time
    value, and [tz], the offset of local time, both in milliseconds and
    read as one instant per run), the environment, the three configuration
    paths, [String.prototype.toLowerCase], and what becomes of a request:
    whether its URL parses and, when it does, what the network and the
    remote service make of it, knowing the requests made before it. *)
Record Host : Type := {
  now : Z;
  tz : Z;
  env : ProcessEnv;
  configPaths : list ConfigProbe;
  toLowerCase : string -> string;
  service : list HttpRequest -> HttpRequest -> FetchOutcome
}.

(* ================================================================= *)
(** * Part V.  [src/config.ts] *)
(* ================================================================= *)

(** The loop over [CONFIG_PATHS]: [fileConfig] is the value of the first
    file that exists and parses, and the empty object when there is none. *)
Fixpoint first_config (probes : list ConfigProbe) : FileConfig :=
  match probes with
  | [] => ObjectConfig {| file_apiKey := None; file_baseUrl := None;
                          file_defaultOfficeId := None; file_timezone := None |}
  | WellFormed c :: _ => ObjectConfig c
  | ParsedNull :: _ => NullConfig
  | _ :: rest => first_config rest
  end.

(** [fileConfig.name]: reading a property of [null] throws. *)
Definition file_property (fileConfig : FileConfig)
  (get : ConfigFile -> option string) (name : string) : Result (option string) :=
  match fileConfig with
  | NullConfig =>
      Throw (TypeError ("Cannot read properties of null (reading '" ++ name ++ "')"))
  | ObjectConfig c => Ok (get c)
  end.

(** [process.env.X || fileConfig.name]: the property of the file is only
    read when the variable is unset or empty. *)
Definition env_or_file (value : option string) (fileConfig : FileConfig)
  (get : ConfigFile -> option string) (name : string) : Result (option string) :=
  if JS.truthy value then Ok value else file_property fileConfig get name.

(** The properties of the result are evaluated in the order of the object
    literal: [apiKey], [baseUrl], [defaultOfficeId], [timezone]. *)
Definition loadConfig (h : Host) : Result Config :=
  if negb (JS.truthy (DESKBIRD_API_KEY (env h))) then
    Throw (JsError ("DESKBIRD_API_KEY environment variable is required."
                    ++ String "010" "Get your API key from the Deskbird app: Settings > Integrations > API"))
  else
    let fileConfig := first_config (configPaths h) in
    let text (o : option string) (dflt : string) :=
      match o with Some s => s | None => dflt end in
    match env_or_file (DESKBIRD_BASE_URL (env h)) fileConfig file_baseUrl "baseUrl" with
    | Throw e => Throw e
    | Ok base =>
        match env_or_file (DESKBIRD_OFFICE_ID (env h)) fileConfig
                file_defaultOfficeId "defaultOfficeId" with
        | Throw e => Throw e
        | Ok office =>
            match env_or_file (TZ (env h)) fileConfig file_timezone "timezone" with
            | Throw e => Throw e
            | Ok zone =>
                Ok {| apiKey := text (DESKBIRD_API_KEY (env h)) EmptyString;
                      baseUrl := text (JS.or_else base
                                         (Some "https://connect.deskbird.com"))
                                      EmptyString;
                      defaultOfficeId := office;
                      timezone := text (JS.or_else zone (Some "Europe/Madrid"))
                                       EmptyString |}
            end
        end
    end.

(* ================================================================= *)
(** * Part VI.  [src/api.ts] *)
(* ================================================================= *)

(** The third argument of [DeskbirdAPIError]: the body of the response. *)
Inductive ErrorBody : Type :=
| JsonBody (j : Json)
| TextBody (text : string).

Inductive Exn : Type :=
| Native (e : NativeError)
| DeskbirdAPIError (statusCode : Z) (message : string) (response : ErrorBody).

(** A line on the console, by the call that prints it; the colours and the
    layout of the text are left out. *)
Inductive Line : Type :=
| ResourceNotFoundLine (resourceArg : string)
| AvailableResourcesLine (names : list string)
| BookingLine (name date startTime endTime : string)
| BookingConfirmedLine (name date startTime endTime : string)
| BookingIdLine (id : string)
| NoBookingFoundLine (name date : string)
| CancellingLine (name date : string)
| BookingCancelledLine (name date : string)
| MyBookingsLine
| NoUpcomingBookingsLine
| DateLine (date : string)
| EntryLine (b : Booking)
| BlankLine
| NoBookingTodayLine
| CheckingInLine (name : string)
| CheckedInLine
| ErrorLine (e : Exn).

Record DeskbirdClient : Type := {
  client_baseUrl : string;
  client_apiKey : string
}.

(** The state of one run: the requests sent so far (oldest first), the
    console, and the two module variables of [cli.ts]. *)
Record World : Type := {
  requests : list HttpRequest;
  console : list Line;
  config : option Config;
  client : option DeskbirdClient
}.

Definition initial : World :=
  {| requests := []; console := []; config := None; client := None |}.

(** How a computation ends: with a value, with an exception in flight,
    with [process.exit], or outside the wire contract, when a response was
    not of the type the code asserts for it. *)
Inductive Outcome (A : Type) : Type :=
| Ret (a : A)
| Thrown (e : Exn)
| Exited (exitCode : Z)
| OutsideContract.
Arguments Ret {A} a.
Arguments Thrown {A} e.
Arguments Exited {A} exitCode.
Arguments OutsideContract {A}.

Definition M (A : Type) : Type := World -> Outcome A * World.

Definition ret {A} (a : A) : M A := fun w => (Ret a, w).

Definition bind {A B} (m : M A) (f : A -> M B) : M B :=
  fun w =>
    match m w with
    | (Ret a, w') => f a w'
    | (Thrown e, w') => (Thrown e, w')
    | (Exited c, w') => (Exited c, w')
    | (OutsideContract, w') => (OutsideContract, w')
    end.

Declare Scope M_scope.
Delimit Scope M_scope with M.
Notation "x <- m ;; k" := (bind m (fun x => k))
  (at level 100, m at next level, right associativity) : M_scope.
Notation "m ;;; k" := (bind m (fun _ => k))
  (at level 100, right associativity) : M_scope.
Open Scope M_scope.

Definition throw {A} (e : Exn) : M A := fun w => (Thrown e, w).

Definition exit {A} (exitCode : Z) : M A := fun w => (Exited exitCode, w).

Definition outside_contract {A} : M A := fun w => (OutsideContract, w).

Definition lift {A} (r : Result A) : M A :=
  match r with Ok a => ret a | Throw e => throw (Native e) end.

Definition print (l : Line) : M unit :=
  fun w => (Ret tt, {| requests := requests w; console := (console w ++ [l])%list;
                       config := config w; client := client w |}).

(** [try { m } catch (err) { handler(err) }]. *)
Definition try_catch {A} (m : M A) (handler : Exn -> M A) : M A :=
  fun w =>
    match m w with
    | (Thrown e, w') => handler e w'
    | (o, w') => (o, w')
    end.

(** [new URL(text)]: a [TypeError] when the text is not a URL. *)
Definition new_URL (h : Host) (r : HttpRequest) : M unit :=
  fun w =>
    match service h (requests w) r with
    | InvalidURL => (Thrown (Native (TypeError "Invalid URL")), w)
    | _ => (Ret tt, w)
    end.

(** [fetch]: the request goes on record and the service answers.  [fetch]
    is only called with the text of a URL that parsed. *)
Definition fetch (h : Host) (r : HttpRequest) : M HttpResponse :=
  fun w =>
    let w' := {| requests := (requests w ++ [r])%list; console := console w;
                 config := config w; client := client w |} in
    match service h (requests w) r with
    | NetworkFailure => (Thrown (Native (TypeError "fetch failed")), w')
    | Responded resp => (Ret resp, w')
    | InvalidURL => (Thrown (Native (TypeError "Invalid URL")), w)
    end.

(** The body of a response can be read once: [json()] and [text()] both
    consume it, and a second read is rejected with a [TypeError] (Fetch
    Standard, "consume body").  A null body reads as no bytes and is never
    marked as used. *)
Definition Response_json (r : HttpResponse) (bodyUsed : bool)
  : Result Json * bool :=
  match body r with
  | None => (Throw (SyntaxError "Unexpected end of JSON input"), bodyUsed)
  | Some b =>
      if bodyUsed then
        (Throw (TypeError "Body is unusable: Body has already been read"), true)
      else match parsed b with
           | Some j => (Ok j, true)
           | None => (Throw (SyntaxError "Unexpected token"), true)
           end
  end.

Definition Response_text (r : HttpResponse) (bodyUsed : bool)
  : Result string * bool :=
  match body r with
  | None => (Ok EmptyString, bodyUsed)
  | Some b =>
      if bodyUsed then
        (Throw (TypeError "Body is unusable: Body has already been read"), true)
      else (Ok (raw b), true)
  end.

Definition Response_ok (r : HttpResponse) : bool :=
  (200 <=? status r) && (status r <=? 299).

(** [baseUrl.replace(/\/$/, EmptyString)]: one trailing slash is removed. *)
Fixpoint strip_trailing_slash (s : string) : string :=
  match s with
  | EmptyString => EmptyString
  | String c EmptyString => if Ascii.eqb c "/" then EmptyString else s
  | String c r => String c (strip_trailing_slash r)
  end.

Definition new_DeskbirdClient (cfg : Config) : DeskbirdClient :=
  {| client_baseUrl := strip_trailing_slash (baseUrl cfg);
     client_apiKey := apiKey cfg |}.

(** The parameters that are not [undefined], each as [String(value)]. *)
Fixpoint searchParams (params : list (string * option string))
  : list (string * string) :=
  match params with
  | [] => []
  | (k, Some v) :: rest => (k, v) :: searchParams rest
  | (_, None) :: rest => searchParams rest
  end.

(** [DeskbirdClient.request]. *)
Definition request (h : Host) (this : DeskbirdClient) (method path : string)
  (params : list (string * option string)) (reqBody : option RequestBody)
  : M Json :=
  let r := {| req_method := method;
              req_url := client_baseUrl this ++ path;
              req_query := searchParams params;
              req_headers := [("Authorization", "Bearer " ++ client_apiKey this);
                              ("Content-Type", "application/json")];
              req_body := reqBody |} in
  new_URL h r ;;;
  response <- fetch h r ;;
  if negb (Response_ok response) then
    let '(j, used) := Response_json response false in
    errorBody <- match j with
                 | Ok v => ret (JsonBody v)
                 | Throw _ =>
                     match fst (Response_text response used) with
                     | Ok t => ret (TextBody t)
                     | Throw e => throw (Native e)
                     end
                 end ;;
    if status response =? 401 then
      throw (DeskbirdAPIError 401 "Invalid API key. Check your DESKBIRD_API_KEY." errorBody)
    else if status response =? 403 then
      throw (DeskbirdAPIError 403 "Not authorized to access this resource." errorBody)
    else if status response =? 429 then
      throw (DeskbirdAPIError 429 "Rate limit exceeded. Please wait before retrying." errorBody)
    else
      throw (DeskbirdAPIError (status response)
               ("API request failed: " ++ statusText response) errorBody)
  else
    lift (fst (Response_json response false)).

(** [limit || 100] and [offset || 0]: the default also replaces 0. *)
Definition or_number (n : option Z) (dflt : Z) : Z :=
  match n with
  | Some v => if v =? 0 then dflt else v
  | None => dflt
  end.

Definition number_param (n : Z) : option string := Some (JS.toString n).

(** The type assertions [request<PaginatedResponse<T>>] and
    [request<Booking>]: the document is taken to have the asserted type;
    when it has not, the run leaves the wire contract. *)
Definition listOffices (h : Host) (this : DeskbirdClient) : M (list Office) :=
  response <- request h this "GET" "/offices"
                [("limit", number_param 100)] None ;;
  match response with
  | JOffices p => ret (data p)
  | _ => outside_contract
  end.

Definition listResources (h : Host) (this : DeskbirdClient)
  (params : ListResourcesParams) : M (list Resource) :=
  response <- request h this "GET" "/resources"
                [("officeId", lr_officeId params);
                 ("zoneId", lr_zoneId params);
                 ("type", option_map ResourceType_text (lr_type params));
                 ("limit", number_param (or_number (lr_limit params) 100));
                 ("offset", number_param (or_number (lr_offset params) 0))]
                None ;;
  match response with
  | JResources p => ret (data p)
  | _ => outside_contract
  end.

(** [listUsers(limit = 100, offset = 0)]: a default parameter replaces
    [undefined] only. *)
Definition listUsers (h : Host) (this : DeskbirdClient)
  (limit offset : option Z) : M (list User) :=
  let limit := match limit with Some n => n | None => 100 end in
  let offset := match offset with Some n => n | None => 0 end in
  response <- request h this "GET" "/users"
                [("limit", number_param limit);
                 ("offset", number_param offset)] None ;;
  match response with
  | JUsers p => ret (data p)
  | _ => outside_contract
  end.

Definition listBookings (h : Host) (this : DeskbirdClient)
  (params : ListBookingsParams) : M (list Booking) :=
  response <- request h this "GET" "/bookings"
                [("startDate", Some (lb_startDate params));
                 ("endDate", Some (lb_endDate params));
                 ("userId", lb_userId params);
                 ("officeId", lb_officeId params);
                 ("resourceId", lb_resourceId params);
                 ("zoneId", lb_zoneId params);
                 ("status", option_map BookingStatus_text (lb_status params));
                 ("limit", number_param (or_number (lb_limit params) 100));
                 ("offset", number_param (or_number (lb_offset params) 0))]
                None ;;
  match response with
  | JBookings p => ret (data p)
  | _ => outside_contract
  end.

Definition createBooking (h : Host) (this : DeskbirdClient)
  (data : CreateBookingRequest) : M Booking :=
  response <- request h this "POST" "/bookings" [] (Some (CreateBody data)) ;;
  match response with
  | JBooking b => ret b
  | _ => outside_contract
  end.

Definition cancelBooking (h : Host) (this : DeskbirdClient)
  (bookingId : string) : M unit :=
  _ <- request h this "DELETE" ("/bookings/" ++ bookingId) [] None ;;
  ret tt.

Definition checkIn (h : Host) (this : DeskbirdClient)
  (bookingId : string) : M Booking :=
  response <- request h this "PATCH" ("/bookings/" ++ bookingId ++ "/check-in")
                [] None ;;
  match response with
  | JBooking b => ret b
  | _ => outside_contract
  end.

(* ================================================================= *)
(** * Part VII.  [src/cli.ts] *)
(* ================================================================= *)

Import JS.

Definition getClient (h : Host) : M DeskbirdClient :=
  fun w =>
    match client w with
    | Some c => (Ret c, w)
    | None =>
        match loadConfig h with
        | Throw e => (Thrown (Native e), w)
        | Ok cfg =>
            let c := new_DeskbirdClient cfg in
            (Ret c, {| requests := requests w; console := console w;
                       config := Some cfg; client := Some c |})
        end
    end.

Definition getConfig (h : Host) : M Config :=
  fun w =>
    match config w with
    | Some cfg => (Ret cfg, w)
    | None =>
        match loadConfig h with
        | Throw e => (Thrown (Native e), w)
        | Ok cfg =>
            (Ret cfg, {| requests := requests w; console := console w;
                         config := Some cfg;
                         client := Some (new_DeskbirdClient cfg) |})
        end
    end.

(** ** Helpers *)

Definition text_of (o : option string) : string :=
  match o with Some s => s | None => EmptyString end.

Definition is_text (o : option string) (s : string) : bool :=
  match o with Some t => String.eqb t s | None => false end.

(** The Spanish word for tomorrow, with its n-tilde as the two bytes of
    U+00F1. *)
Definition manana_tilde : string :=
  "ma" ++ String "195" (String "177" "ana").

Definition invalid_date_message (dateStr : string) : string :=
  "Invalid date: " ++ dateStr ++ ". Use YYYY-MM-DD, DD/MM or DD/MM/YYYY".

Definition parseDate (h : Host) (dateStr : option string) : Result string :=
  if negb (truthy dateStr) || is_text dateStr "hoy" || is_text dateStr "today"
  then DateFns.format_yyyy_MM_dd (tz h) (Some (now h))
  else if is_text dateStr manana_tilde || is_text dateStr "manana"
          || is_text dateStr "tomorrow"
  then DateFns.format_yyyy_MM_dd (tz h)
         (DateFns.addDays (tz h) (Some (now h)) (Some 1))
  else
    let dateStr := text_of dateStr in
    let parsed := DateFns.parseISO (tz h) dateStr in
    if DateFns.isValid parsed then DateFns.format_yyyy_MM_dd (tz h) parsed
    else
      let parts := split "/" dateStr in
      let invalid := Throw (JsError (invalid_date_message dateStr)) in
      if (2 <=? List.length parts)%nat then
        let day := parseInt (nth 0 parts EmptyString) in
        let month := num_sub (parseInt (nth 1 parts EmptyString)) 1 in
        let year := if truthy (nth_error parts 2)
                    then parseInt (text_of (nth_error parts 2))
                    else getFullYear (tz h) (Some (now h)) in
        let date := Date_of_ymd (tz h) year month day in
        if DateFns.isValid date then DateFns.format_yyyy_MM_dd (tz h) date
        else invalid
      else invalid.

(** The pattern [/^ (\d{1,2}) (?: h s? )? $/i]. *)
Definition re_hour : regex :=
  Cat (Cap 1 (Cat digit (Opt digit)))
    (Cat (Opt (Cat (chr_i "h" "H") (Opt (chr_i "s" "S")))) Eos).

(** The pattern [/^ (\d{1,2}) : (\d{2}) $/]. *)
Definition re_hour_minute : regex :=
  Cat (Cap 1 (Cat digit (Opt digit)))
    (Cat (chr ":") (Cat (Cap 2 (times 2 digit)) Eos)).

Definition pad2 (n : Number) : string :=
  match n with Some v => padStart 2 "0" (toString v) | None => "NaN" end.

Definition invalid_time_message (timeStr : string) : string :=
  "Invalid time: " ++ timeStr ++ ". Use HH:MM, HH or HHhs".

(** The block [if (numMatch) { ... }]: the value it returns, or [None] when
    control falls through it. *)
Definition parseTime_hour (timeStr : string) : option string :=
  match match_start re_hour timeStr with
  | Some numMatch =>
      let hour := parseInt (text_of (group 1 numMatch)) in
      if num_ge hour (Some 0) && num_le hour (Some 23)
      then Some (pad2 hour ++ ":00") else None
  | None => None
  end.

(** The block [if (timeMatch) { ... }]. *)
Definition parseTime_hour_minute (timeStr : string) : option string :=
  match match_start re_hour_minute timeStr with
  | Some timeMatch =>
      let hour := parseInt (text_of (group 1 timeMatch)) in
      let min := parseInt (text_of (group 2 timeMatch)) in
      if num_ge hour (Some 0) && num_le hour (Some 23)
         && num_ge min (Some 0) && num_le min (Some 59)
      then Some (pad2 hour ++ ":" ++ pad2 min) else None
  | None => None
  end.

Definition parseTime (timeStr : option string) : Result (option string) :=
  if negb (truthy timeStr) then Ok None
  else
    let timeStr := text_of timeStr in
    match parseTime_hour timeStr with
    | Some t => Ok (Some t)
    | None =>
        match parseTime_hour_minute timeStr with
        | Some t => Ok (Some t)
        | None => Throw (JsError (invalid_time_message timeStr))
        end
    end.

(** [formatDate]: the Spanish text is left out; what remains is that
    [format] throws on a date that [parseISO] rejects. *)
Definition formatDate (h : Host) (date : string) : Result string :=
  match DateFns.parseISO (tz h) date with
  | None => Throw (RangeError "Invalid time value")
  | Some _ => Ok date
  end.

Record CurrentUser : Type := {
  current_id : string;
  current_name : string
}.

Definition getCurrentUser (h : Host) : CurrentUser :=
  {| current_id :=
       text_of (or_else (OPENCLAW_USER_ID (env h))
                 (or_else (DESKBIRD_USER_ID (env h))
                   (or_else (USER (env h)) (Some "unknown"))));
     current_name :=
       text_of (or_else (OPENCLAW_USER_NAME (env h))
                 (or_else (DESKBIRD_USER_NAME (env h))
                   (or_else (USER (env h)) (Some "User")))) |}.

Definition handleError {A} (err : Exn) : M A :=
  print (ErrorLine err) ;;; exit 1.

(** [options.office || getConfig().defaultOfficeId]: the configuration is
    only consulted when no office is given. *)
Definition office_or_default (h : Host) (office : option string)
  : M (option string) :=
  if truthy office then ret office
  else (cfg <- getConfig h ;; ret (defaultOfficeId cfg)).

(** ** Finding the resource

    The predicate that the book, cancel and check-in actions each pass to
    [resources.find]; the three copies in the source are the same text. *)
Definition resource_matches (h : Host) (resourceArg : string) (r : Resource)
  : bool :=
  String.eqb (resource_id r) resourceArg
  || String.eqb (toLowerCase h (resource_name r)) (toLowerCase h resourceArg)
  || includes (toLowerCase h (resource_name r)) (toLowerCase h resourceArg).

Definition find_resource (h : Host) (resourceArg : string)
  (resources : list Resource) : option Resource :=
  List.find (resource_matches h resourceArg) resources.

Definition office_resources (officeId : option string) : ListResourcesParams :=
  {| lr_officeId := officeId; lr_zoneId := None; lr_type := None;
     lr_limit := None; lr_offset := None |}.

(** ** [book <resource>] *)

Record BookOptions : Type := {
  book_date : option string;
  book_start : option string;
  book_end : option string;
  book_office : option string
}.

Definition book (h : Host) (resourceArg : string) (options : BookOptions)
  : M unit :=
  try_catch
    (date <- lift (parseDate h (book_date options)) ;;
     officeId <- office_or_default h (book_office options) ;;
     start <- lift (parseTime (book_start options)) ;;
     let startTime := text_of (or_else start (Some "09:00")) in
     finish <- lift (parseTime (book_end options)) ;;
     let endTime := text_of (or_else finish (Some "18:00")) in
     let currentUser := getCurrentUser h in
     api <- getClient h ;;
     resources <- listResources h api (office_resources officeId) ;;
     match find_resource h resourceArg resources with
     | None =>
         print (ResourceNotFoundLine resourceArg) ;;;
         print (AvailableResourcesLine (map resource_name resources)) ;;;
         exit 1
     | Some resource =>
         print (BookingLine (resource_name resource) date startTime endTime) ;;;
         let startDateTime := date ++ "T" ++ startTime ++ ":00.000Z" in
         let endDateTime := date ++ "T" ++ endTime ++ ":00.000Z" in
         api <- getClient h ;;
         booking <- createBooking h api
                      {| create_userId := current_id currentUser;
                         create_resourceId := resource_id resource;
                         create_startTime := startDateTime;
                         create_endTime := endDateTime;
                         create_isAnonymousBooking := None |} ;;
         print (BookingConfirmedLine (resource_name resource) date
                  startTime endTime) ;;;
         print (BookingIdLine (booking_id booking))
     end)
    handleError.

(** ** [cancel <resource>] *)

Record CancelOptions : Type := {
  cancel_date : option string;
  cancel_office : option string
}.

Definition day_bookings (date : string) (userId officeId resourceId : option string)
  : ListBookingsParams :=
  {| lb_startDate := date; lb_endDate := date; lb_userId := userId;
     lb_officeId := officeId; lb_resourceId := resourceId; lb_zoneId := None;
     lb_status := None; lb_limit := None; lb_offset := None |}.

Definition cancel (h : Host) (resourceArg : string) (options : CancelOptions)
  : M unit :=
  try_catch
    (date <- lift (parseDate h (cancel_date options)) ;;
     officeId <- office_or_default h (cancel_office options) ;;
     let currentUser := getCurrentUser h in
     api <- getClient h ;;
     resources <- listResources h api (office_resources officeId) ;;
     match find_resource h resourceArg resources with
     | None => print (ResourceNotFoundLine resourceArg) ;;; exit 1
     | Some resource =>
         api <- getClient h ;;
         bookings <- listBookings h api
                       (day_bookings date (Some (current_id currentUser)) None
                          (Some (resource_id resource))) ;;
         match bookings with
         | [] => print (NoBookingFoundLine (resource_name resource) date) ;;; exit 1
         | booking :: _ =>
             print (CancellingLine (resource_name resource) date) ;;;
             api <- getClient h ;;
             cancelBooking h api (booking_id booking) ;;;
             print (BookingCancelledLine (resource_name resource) date)
         end
     end)
    handleError.

(** ** [my] *)

(** The [Map] that groups by date: keys stay in the order of their first
    insertion, and setting a key that is present keeps its place. *)
Fixpoint map_get {V} (k : string) (m : list (string * V)) : option V :=
  match m with
  | [] => None
  | (k', v) :: rest => if String.eqb k' k then Some v else map_get k rest
  end.

Fixpoint map_set {V} (k : string) (v : V) (m : list (string * V))
  : list (string * V) :=
  match m with
  | [] => [(k, v)]
  | (k', v') :: rest =>
      if String.eqb k' k then (k, v) :: rest else (k', v') :: map_set k v rest
  end.

(** [booking.startTime.split('T')[0]]. *)
Definition booking_date (b : Booking) : string :=
  nth 0 (split "T" (booking_startTime b)) EmptyString.

(** One turn of the grouping loop: [list.push(booking)] on the list that
    the map holds for the date, or on a new one. *)
Definition group_step (byDate : list (string * list Booking)) (booking : Booking)
  : list (string * list Booking) :=
  let date := booking_date booking in
  let list := match map_get date byDate with Some l => l | None => [] end in
  map_set date (list ++ [booking])%list byDate.

Definition group_by_date (bookings : list Booking) : list (string * list Booking) :=
  fold_left group_step bookings [].

Fixpoint print_all (ls : list Line) : M unit :=
  match ls with
  | [] => ret tt
  | l :: rest => print l ;;; print_all rest
  end.

Fixpoint print_groups (h : Host) (groups : list (string * list Booking)) : M unit :=
  match groups with
  | [] => ret tt
  | (date, dateBookings) :: rest =>
      _ <- lift (formatDate h date) ;;
      print (DateLine date) ;;;
      print_all (map EntryLine dateBookings) ;;;
      print_groups h rest
  end.

(** [options.days] comes with the default ['14'] of the option. *)
Definition my (h : Host) (days : option string) : M unit :=
  let days := match days with Some d => d | None => "14" end in
  try_catch
    (let currentUser := getCurrentUser h in
     today <- lift (DateFns.format_yyyy_MM_dd (tz h) (Some (now h))) ;;
     endDate <- lift (DateFns.format_yyyy_MM_dd (tz h)
                        (DateFns.addDays (tz h) (Some (now h)) (parseInt days))) ;;
     api <- getClient h ;;
     bookings <- listBookings h api
                   {| lb_startDate := today; lb_endDate := endDate;
                      lb_userId := Some (current_id currentUser);
                      lb_officeId := None; lb_resourceId := None;
                      lb_zoneId := None; lb_status := None;
                      lb_limit := None; lb_offset := None |} ;;
     print MyBookingsLine ;;;
     match bookings with
     | [] => print NoUpcomingBookingsLine
     | _ :: _ =>
         print_groups h (group_by_date bookings) ;;;
         print BlankLine
     end)
    handleError.

(** ** [checkin [resource]] *)

Record CheckinOptions : Type := {
  checkin_date : option string;
  checkin_office : option string
}.

Definition checkin_name (b : Booking) : string :=
  match booking_resource b with
  | Some r => if nonempty (re_name r) then re_name r else booking_resourceId b
  | None => booking_resourceId b
  end.

Definition checkin (h : Host) (resourceArg : option string)
  (options : CheckinOptions) : M unit :=
  try_catch
    (date <- lift (parseDate h (checkin_date options)) ;;
     officeId <- office_or_default h (checkin_office options) ;;
     let currentUser := getCurrentUser h in
     api <- getClient h ;;
     mine <- listBookings h api
               (day_bookings date (Some (current_id currentUser)) officeId None) ;;
     bookings <-
       (if truthy resourceArg then
          api <- getClient h ;;
          resources <- listResources h api (office_resources officeId) ;;
          match find_resource h (text_of resourceArg) resources with
          | Some resource =>
              ret (filter (fun b => String.eqb (booking_resourceId b)
                                      (resource_id resource)) mine)
          | None => ret mine
          end
        else ret mine) ;;
     match bookings with
     | [] => print NoBookingTodayLine ;;; exit 1
     | booking :: _ =>
         print (CheckingInLine (checkin_name booking)) ;;;
         api <- getClient h ;;
         checkIn h api (booking_id booking) ;;;
         print CheckedInLine
     end)
    handleError.

(* ================================================================= *)
(** * Part VIII.  Vocabulary of the specification *)
(* ================================================================= *)

(** ** A host to run examples on

    Lower case for ASCII letters, which is what [toLowerCase] does on ASCII
    text; the clock stands at 2024-03-15 10:30 UTC, one hour east of
    Greenwich. *)

Definition lower_char (c : ascii) : ascii :=
  if (65 <=? code c)%N && (code c <=? 90)%N then ascii_of_N (code c + 32) else c.

Fixpoint ascii_lower (s : string) : string :=
  match s with
  | EmptyString => EmptyString
  | String c r => String (lower_char c) (ascii_lower r)
  end.

Definition example_env : ProcessEnv :=
  {| DESKBIRD_API_KEY := Some "secret"; DESKBIRD_BASE_URL := None;
     DESKBIRD_OFFICE_ID := Some "office-1"; TZ := None;
     OPENCLAW_USER_ID := Some "user-1"; DESKBIRD_USER_ID := None;
     USER := None; OPENCLAW_USER_NAME := None; DESKBIRD_USER_NAME := None |}.

Definition example_host (srv : list HttpRequest -> HttpRequest -> FetchOutcome)
  : Host :=
  {| now := 1710498600000; tz := 3600000; env := example_env;
     configPaths := []; toLowerCase := ascii_lower; service := srv |}.

Definition offline : list HttpRequest -> HttpRequest -> FetchOutcome :=
  fun _ _ => NetworkFailure.

Definition desk (id name : string) : Resource :=
  {| resource_id := id; resource_name := name; resource_type := flexDesk;
     resource_officeId := "office-1"; resource_zoneId := None;
     resource_floorId := None |}.

(** ** Resource resolution as the specification words it (section 4.2)

    Three tiers, evaluated in order, the first tier with a match giving the
    result. *)

Definition tier1 (h : Host) (token : string) (r : Resource) : bool :=
  String.eqb (resource_id r) token.

Definition tier2 (h : Host) (token : string) (r : Resource) : bool :=
  String.eqb (toLowerCase h (resource_name r)) (toLowerCase h token).

Definition tier3 (h : Host) (token : string) (r : Resource) : bool :=
  includes (toLowerCase h (resource_name r)) (toLowerCase h token).

Definition resolve_tiered (h : Host) (token : string) (candidates : list Resource)
  : option Resource :=
  match find (tier1 h token) candidates with
  | Some r => Some r
  | None =>
      match find (tier2 h token) candidates with
      | Some r => Some r
      | None => find (tier3 h token) candidates
      end
  end.

(** ** Requests and answers, for stating what goes over the wire *)

(** The request that [DeskbirdClient.request] builds. *)
Definition api_request (this : DeskbirdClient) (method path : string)
  (query : list (string * string)) (reqBody : option RequestBody) : HttpRequest :=
  {| req_method := method;
     req_url := client_baseUrl this ++ path;
     req_query := query;
     req_headers := [("Authorization", "Bearer " ++ client_apiKey this);
                     ("Content-Type", "application/json")];
     req_body := reqBody |}.

(** The world after one more request. *)
Definition sent (w : World) (r : HttpRequest) : World :=
  {| requests := (requests w ++ [r])%list; console := console w;
     config := config w; client := client w |}.

(** After [history], the service answers [r] with a success status and a
    body that is the JSON document [j]. *)
Definition answers (h : Host) (history : list HttpRequest) (r : HttpRequest)
  (j : Json) : Prop :=
  exists resp b,
    service h history r = Responded resp /\ Response_ok resp = true /\
    body resp = Some b /\ parsed b = Some j.

(** The URL of [r] parses, so that [r] is sent. *)
Definition url_parses (h : Host) (history : list HttpRequest) (r : HttpRequest)
  : Prop :=
  service h history r <> InvalidURL.

(** A query parameter that is only sent when it has a value. *)
Definition opt_param (k : string) (v : option string) : list (string * string) :=
  match v with Some s => [(k, s)] | None => [] end.

(** The error kinds of the specification (sections 4.3 and 7), as the
    [DeskbirdAPIError] that stands for each. *)
Definition Unauthorized (b : ErrorBody) : Exn :=
  DeskbirdAPIError 401 "Invalid API key. Check your DESKBIRD_API_KEY." b.
Definition Forbidden (b : ErrorBody) : Exn :=
  DeskbirdAPIError 403 "Not authorized to access this resource." b.
Definition RateLimited (b : ErrorBody) : Exn :=
  DeskbirdAPIError 429 "Rate limit exceeded. Please wait before retrying." b.
Definition RequestFailed (code : Z) (reason : string) (b : ErrorBody) : Exn :=
  DeskbirdAPIError code ("API request failed: " ++ reason) b.

(** The error that the specification assigns to a status that is not a
    success. *)
Definition classify (resp : HttpResponse) (b : ErrorBody) : Exn :=
  if status resp =? 401 then Unauthorized b
  else if status resp =? 403 then Forbidden b
  else if status resp =? 429 then RateLimited b
  else RequestFailed (status resp) (statusText resp) b.

Definition example_config : Config :=
  {| apiKey := "secret"; baseUrl := "https://connect.deskbird.com";
     defaultOfficeId := Some "office-1"; timezone := "Europe/Madrid" |}.

(** A service that answers every request with 401 and the plain text
    "Unauthorized". *)
Definition rejects_all : list HttpRequest -> HttpRequest -> FetchOutcome :=
  fun _ _ =>
    Responded {| status := 401; statusText := "Unauthorized";
                 body := Some {| raw := "Unauthorized"; parsed := None |} |}.

(** The requests of the list operations when no page size and no offset
    are given. *)
Definition resources_request (this : DeskbirdClient) (params : ListResourcesParams)
  : HttpRequest :=
  api_request this "GET" "/resources"
    (opt_param "officeId" (lr_officeId params)
     ++ opt_param "zoneId" (lr_zoneId params)
     ++ opt_param "type" (option_map ResourceType_text (lr_type params))
     ++ [("limit", "100"); ("offset", "0")])%list None.

Definition bookings_request (this : DeskbirdClient) (params : ListBookingsParams)
  : HttpRequest :=
  api_request this "GET" "/bookings"
    ([("startDate", lb_startDate params); ("endDate", lb_endDate params)]
     ++ opt_param "userId" (lb_userId params)
     ++ opt_param "officeId" (lb_officeId params)
     ++ opt_param "resourceId" (lb_resourceId params)
     ++ opt_param "zoneId" (lb_zoneId params)
     ++ opt_param "status" (option_map BookingStatus_text (lb_status params))
     ++ [("limit", "100"); ("offset", "0")])%list None.

(** The world once the configuration is loaded, and after a line is
    printed. *)
Definition loaded (cfg : Config) (w : World) : World :=
  {| requests := requests w; console := console w;
     config := Some cfg; client := Some (new_DeskbirdClient cfg) |}.

Definition printed (w : World) (l : Line) : World :=
  {| requests := requests w; console := (console w ++ [l])%list;
     config := config w; client := client w |}.

(** ** An example service

    It lists [resources] at [/resources] and [bookings] at [/bookings], and
    answers any other request with the first booking it holds. *)

Definition page {T} (items : list T) : PaginatedResponse T :=
  {| data := items; total := Z.of_nat (List.length items); limit := 100; offset := 0 |}.

Definition ok_json (j : Json) : FetchOutcome :=
  Responded {| status := 200; statusText := "OK";
               body := Some {| raw := EmptyString; parsed := Some j |} |}.

Definition a_booking (id resourceId startTime endTime : string) : Booking :=
  {| booking_id := id; booking_userId := "user-1";
     booking_resourceId := resourceId; booking_officeId := "office-1";
     booking_zoneId := None; booking_floorId := None;
     booking_startTime := startTime; booking_endTime := endTime;
     booking_status := accepted; booking_checkInStatus := checkInPending;
     booking_isAnonymousBooking := false; booking_anonymized := false;
     booking_createdAt := "2024-03-01T08:00:00.000Z";
     booking_updatedAt := "2024-03-01T08:00:00.000Z";
     booking_cancelledBy := None; booking_cancelledByUserId := None;
     booking_user := None; booking_resource := None |}.

Definition example_service (resources : list Resource) (bookings : list Booking)
  : list HttpRequest -> HttpRequest -> FetchOutcome :=
  fun _ r =>
    if String.eqb (req_url r) "https://connect.deskbird.com/resources"
    then ok_json (JResources (page resources))
    else if String.eqb (req_url r) "https://connect.deskbird.com/bookings"
            && String.eqb (req_method r) "GET"
    then ok_json (JBookings (page bookings))
    else ok_json (JBooking (nth 0 bookings
                              (a_booking "b0" "a1" "2024-03-15T09:00:00.000Z"
                                 "2024-03-15T18:00:00.000Z"))).

Definition two_desks : list Resource :=
  [desk "a1" "Desk 1"; desk "a2" "Desk 12"].

Definition two_bookings : list Booking :=
  [a_booking "b1" "a1" "2024-03-15T09:00:00.000Z" "2024-03-15T12:00:00.000Z";
   a_booking "b2" "a1" "2024-03-15T14:00:00.000Z" "2024-03-15T18:00:00.000Z"].

(** ** Time texts (section 4.1)

    A bare hour is one or two digits followed by nothing or by one of the
    suffixes h and hs in either case of each letter; an hour with minutes
    is one or two digits, a colon and two digits. *)

Definition hour_suffix (s : string) : Prop :=
  s = EmptyString \/ s = "h" \/ s = "H" \/ s = "hs" \/ s = "hS" \/ s = "Hs" \/ s = "HS".

Inductive BareHour : string -> Z -> Prop :=
| BareHour1 a suf :
    is_digit a = true -> hour_suffix suf ->
    BareHour (String a suf) (digit_val a)
| BareHour2 a b suf :
    is_digit a = true -> is_digit b = true -> hour_suffix suf ->
    BareHour (String a (String b suf)) (10 * digit_val a + digit_val b).

Inductive HourMinute : string -> Z -> Z -> Prop :=
| HourMinute1 a c d :
    is_digit a = true -> is_digit c = true -> is_digit d = true ->
    HourMinute (String a (String ":" (String c (String d EmptyString))))
      (digit_val a) (10 * digit_val c + digit_val d)
| HourMinute2 a b c d :
    is_digit a = true -> is_digit b = true ->
    is_digit c = true -> is_digit d = true ->
    HourMinute (String a (String b (String ":" (String c (String d EmptyString)))))
      (10 * digit_val a + digit_val b) (10 * digit_val c + digit_val d).

Definition two_digits (n : Z) : string :=
  String (digit_char (n / 10)) (String (digit_char (n mod 10)) EmptyString).

(** The integers from 0 up to n - 1, for checking a property of small
    numbers by computation. *)
Fixpoint range_from (start : Z) (n : nat) : list Z :=
  match n with
  | O => []
  | S k => start :: range_from (start + 1) k
  end.

Definition upto (n : Z) : list Z := range_from 0 (Z.to_nat n).

(** ** Calendar dates (section 4.1)

    [day_number y m d] is the number of the day y-m-d, counted from
    1970-01-01, in the proleptic Gregorian calendar; [iso_text y m d] is
    its zero-padded text YYYY-MM-DD, and [date_text n] the text of day
    number [n]. *)

Definition days_in_month (y m : Z) : Z :=
  if m =? 2 then 28 + InLeapYear y
  else if (m =? 4) || (m =? 6) || (m =? 9) || (m =? 11) then 30
  else 31.

Definition valid_date (y m d : Z) : Prop :=
  1 <= m <= 12 /\ 1 <= d <= days_in_month y m.

Definition day_number (y m d : Z) : Z :=
  DayFromYear y + month_start (InLeapYear y) (m - 1) + (d - 1).

Definition iso_text (y m d : Z) : string :=
  padStart 4 "0" (toString y) ++ "-" ++ padStart 2 "0" (toString m) ++ "-"
  ++ padStart 2 "0" (toString d).

Definition date_text (n : Z) : string :=
  iso_text (YearFromDay n) (MonthFromTime (n * msPerDay) + 1)
    (DateFromTime (n * msPerDay)).

(** The day number of the current date, on the local clock. *)
Definition local_day (h : Host) : Z := Day (LocalTime (tz h) (now h)).

(** ** Texts of digits, and the day/month forms (section 4.1)

    [OneOrTwoDigits s n] and [FourDigits s n]: the text [s] is made of that
    many decimal digits and [n] is its value.  [DayMonth s d m y]: the text
    is D/M, with [y = None], or D/M/Y, day first, the day and the month of
    one or two digits and the year of four. *)

Definition value2 (a b : ascii) : Z := 10 * digit_val a + digit_val b.
Definition value4 (a b c d : ascii) : Z :=
  1000 * digit_val a + 100 * digit_val b + 10 * digit_val c + digit_val d.

Definition ten_digits : list ascii :=
  ["0"; "1"; "2"; "3"; "4"; "5"; "6"; "7"; "8"; "9"]%char.

Inductive OneOrTwoDigits : string -> Z -> Prop :=
| OneDigit a :
    is_digit a = true -> OneOrTwoDigits (String a EmptyString) (digit_val a)
| TwoDigits a b :
    is_digit a = true -> is_digit b = true ->
    OneOrTwoDigits (String a (String b EmptyString)) (value2 a b).

Inductive FourDigits : string -> Z -> Prop :=
| FourDigits_intro a b c d :
    is_digit a = true -> is_digit b = true -> is_digit c = true ->
    is_digit d = true ->
    FourDigits (String a (String b (String c (String d EmptyString))))
      (value4 a b c d).

Inductive DayMonth : string -> Z -> Z -> option Z -> Prop :=
| DayMonth_only D M d m :
    OneOrTwoDigits D d -> OneOrTwoDigits M m ->
    DayMonth (D ++ "/" ++ M) d m None
| DayMonth_year D M Y d m y :
    OneOrTwoDigits D d -> OneOrTwoDigits M m -> FourDigits Y y ->
    DayMonth (D ++ "/" ++ M ++ "/" ++ Y) d m (Some y).

(** The shape YYYY-MM-DD: four digits, two digits and two digits, with
    dashes between them. *)
Definition is_yyyy_mm_dd (s : string) : bool :=
  match s with
  | String a (String b (String c (String d (String "-" (String e (String f
      (String "-" (String g (String i EmptyString))))))))) =>
      is_digit a && is_digit b && is_digit c && is_digit d
      && is_digit e && is_digit f && is_digit g && is_digit i
  | _ => false
  end.

(** A clock of the common era: the local year is from 1 to 9998, so that
    tomorrow is no later than the year 9999, and local time is within a day
    of UTC. *)
Definition clock_in_common_era (h : Host) : Prop :=
  1 <= YearFromDay (local_day h) <= 9998 /\ - msPerDay <= tz h <= msPerDay.

(** A text without any decimal digit. *)
Fixpoint no_digit (s : string) : bool :=
  match s with
  | EmptyString => true
  | String c r => negb (is_digit c) && no_digit r
  end.

(** The words of the first two rules of [parseDate]. *)
Definition date_words : list string :=
  ["hoy"; "today"; manana_tilde; "manana"; "tomorrow"].

(** ** Grouping (section 5, my bookings) *)

(** The distinct texts of a list, each at the place of its first
    occurrence; [seen] holds the texts met so far. *)
Fixpoint first_occurrences_from (seen l : list string) : list string :=
  match l with
  | [] => []
  | k :: rest =>
      if existsb (String.eqb k) seen then first_occurrences_from seen rest
      else k :: first_occurrences_from (seen ++ [k])%list rest
  end.

Definition first_occurrences (l : list string) : list string :=
  first_occurrences_from [] l.

(** The bookings that start on the date [d]. *)
Definition on_date (d : string) (b : Booking) : bool :=
  String.eqb (booking_date b) d.

(** The lines of the groups: for each group its date, then its bookings. *)
Definition group_lines (groups : list (string * list Booking)) : list Line :=
  flat_map (fun g => DateLine (fst g) :: map EntryLine (snd g)) groups.

(** The request of [my] for the days from [startDate] to [endDate]. *)
Definition my_request (h : Host) (this : DeskbirdClient) (startDate endDate : string)
  : HttpRequest :=
  bookings_request this
    {| lb_startDate := startDate; lb_endDate := endDate;
       lb_userId := Some (current_id (getCurrentUser h));
       lb_officeId := None; lb_resourceId := None;
       lb_zoneId := None; lb_status := None;
       lb_limit := None; lb_offset := None |}.

(** Two bookings that a service returns with the later one first. *)
Definition later_first : list Booking :=
  [a_booking "b2" "a1" "2024-03-16T09:00:00.000Z" "2024-03-16T18:00:00.000Z";
   a_booking "b1" "a1" "2024-03-15T09:00:00.000Z" "2024-03-15T18:00:00.000Z"].

(** ** An office with more resources than one page *)

Definition numbered_desk (n : Z) : Resource :=
  desk ("r" ++ toString n) ("Desk " ++ toString n).

(** The desks r1 to r101. *)
Definition many_desks : list Resource := map numbered_desk (range_from 1 101).

(** The number that a query gives for [key]. *)
Definition query_number (key : string) (r : HttpRequest) (dflt : nat) : nat :=
  match map_get key (req_query r) with
  | Some v => match parseInt v with Some n => Z.to_nat n | None => dflt end
  | None => dflt
  end.

(** A service that lists [resources] a page at a time, as the limit and
    the offset of the request ask, and answers nothing else. *)
Definition paging_service (resources : list Resource)
  : list HttpRequest -> HttpRequest -> FetchOutcome :=
  fun _ r =>
    if String.eqb (req_url r) "https://connect.deskbird.com/resources"
    then ok_json (JResources
                    {| data := firstn (query_number "limit" r 100)
                                 (skipn (query_number "offset" r 0) resources);
                       total := Z.of_nat (List.length resources);
                       limit := Z.of_nat (query_number "limit" r 100);
                       offset := Z.of_nat (query_number "offset" r 0) |})
    else NetworkFailure.

(* ================================================================= *)
(** * Part VIII, continued.  The rest of the three files *)
(* ================================================================= *)

(** ** [src/config.ts]: the caches

    The two module variables [officesCache] and [resourcesCache], the
    second a [Map] from office id to resources. *)

Record Caches : Type := {
  officesCache : option (list Office);
  resourcesCache : list (string * list Resource)
}.

Definition empty_caches : Caches :=
  {| officesCache := None; resourcesCache := [] |}.

Definition setOfficesCache (offices : list Office) (c : Caches) : Caches :=
  {| officesCache := Some offices; resourcesCache := resourcesCache c |}.

Definition getOfficesCache (c : Caches) : option (list Office) :=
  officesCache c.

Definition setResourcesCache (officeId : string) (resources : list Resource)
  (c : Caches) : Caches :=
  {| officesCache := officesCache c;
     resourcesCache := map_set officeId resources (resourcesCache c) |}.

(** [resourcesCache.get(officeId) || null]: an array is truthy, an empty
    one too, so the alternative only replaces [undefined]. *)
Definition getResourcesCache (officeId : string) (c : Caches)
  : option (list Resource) :=
  map_get officeId (resourcesCache c).

(** A probe that gives no configuration: the file is missing, or reading
    or parsing it throws. *)
Definition unreadable (p : ConfigProbe) : bool :=
  match p with Missing | Malformed => true | _ => false end.

(** ** [src/api.ts]: the remaining methods *)

Definition getUser (h : Host) (this : DeskbirdClient) (userId : string)
  : M User :=
  response <- request h this "GET" ("/users/" ++ userId) [] None ;;
  match response with
  | JUser u => ret u
  | _ => outside_contract
  end.

Definition getBooking (h : Host) (this : DeskbirdClient) (bookingId : string)
  : M Booking :=
  response <- request h this "GET" ("/bookings/" ++ bookingId) [] None ;;
  match response with
  | JBooking b => ret b
  | _ => outside_contract
  end.

Definition updateBooking (h : Host) (this : DeskbirdClient) (bookingId : string)
  (data : UpdateBookingRequest) : M Booking :=
  response <- request h this "PATCH" ("/bookings/" ++ bookingId) []
                (Some (UpdateBody data)) ;;
  match response with
  | JBooking b => ret b
  | _ => outside_contract
  end.

(** The text of a page size or an offset on the wire. *)
Definition number_text (n : option Z) (dflt : Z) : string :=
  match n with
  | Some v => if v =? 0 then toString dflt else toString v
  | None => toString dflt
  end.

(** [Number.isSafeInteger]: the numbers whose text [String(n)] is their
    decimal digits and which a [number] holds exactly.  A page size or an
    offset outside this range (a fraction, NaN, a number from 1e21 on,
    which is written with an exponent) is outside what [number_param]
    describes. *)
Definition safe_integer (n : Z) : Prop := - 2 ^ 53 < n < 2 ^ 53.

Definition safe_number (n : option Z) : Prop :=
  match n with Some v => safe_integer v | None => True end.

(** The world after a call of [request] for [r]: one more request when the
    URL of [r] parses, the same world when it does not. *)
Definition after_request (h : Host) (w : World) (r : HttpRequest) : World :=
  match service h (requests w) r with
  | InvalidURL => w
  | _ => sent w r
  end.

(** A host on which [new URL] rejects every URL, as it does for a base URL
    without a scheme. *)
Definition unparseable : list HttpRequest -> HttpRequest -> FetchOutcome :=
  fun _ _ => InvalidURL.

(** A world in which the two module variables of [cli.ts] agree: both are
    unset, or the client is the one built from the configuration. *)
Definition coherent (w : World) : Prop :=
  match config w, client w with
  | None, None => True
  | Some cfg, Some c => c = new_DeskbirdClient cfg
  | _, _ => False
  end.

(** ** Hosts for examples of the configuration *)

Definition configured_host (e : ProcessEnv) (paths : list ConfigProbe) : Host :=
  {| now := 1710498600000; tz := 3600000; env := e; configPaths := paths;
     toLowerCase := ascii_lower; service := offline |}.

Definition staging_file : ConfigFile :=
  {| file_apiKey := Some "from-file";
     file_baseUrl := Some "https://staging.example/";
     file_defaultOfficeId := None; file_timezone := None |}.

Definition eu_env : ProcessEnv :=
  {| DESKBIRD_API_KEY := Some "secret";
     DESKBIRD_BASE_URL := Some "https://eu.example";
     DESKBIRD_OFFICE_ID := None; TZ := None;
     OPENCLAW_USER_ID := None; DESKBIRD_USER_ID := None;
     USER := None; OPENCLAW_USER_NAME := None; DESKBIRD_USER_NAME := None |}.

(** ** How a run ends *)

(** An outcome that [handleError] admits: the action returned, or the
    process ended with status 1; no exception is left in flight. *)
Definition handled {A} (o : Outcome A) : Prop :=
  match o with
  | Thrown _ => False
  | Exited c => c = 1
  | Ret _ | OutsideContract => True
  end.

(** A computation that ends the process with status 1 or not at all. *)
Definition exits_only_1 {A} (m : M A) : Prop :=
  forall w c w', m w = (Exited c, w') -> c = 1.

(** A service like [example_service] that answers a DELETE with status 204
    and no body. *)
Definition no_content_on_delete (resources : list Resource)
  (bookings : list Booking) : list HttpRequest -> HttpRequest -> FetchOutcome :=
  fun history r =>
    if String.eqb (req_method r) "DELETE"
    then Responded {| status := 204; statusText := "No Content"; body := None |}
    else example_service resources bookings history r.

(** An environment without the API key. *)
Definition keyless_env : ProcessEnv :=
  {| DESKBIRD_API_KEY := None; DESKBIRD_BASE_URL := None;
     DESKBIRD_OFFICE_ID := Some "office-1"; TZ := None;
     OPENCLAW_USER_ID := Some "user-1"; DESKBIRD_USER_ID := None;
     USER := None; OPENCLAW_USER_NAME := None; DESKBIRD_USER_NAME := None |}.

(** A computation that sends at most [n] requests and takes none back:
    the requests after it are those before it and at most [n] more. *)
Definition sends_at_most {A} (n : nat) (m : M A) : Prop :=
  forall w, exists sent_now,
    requests (snd (m w)) = (requests w ++ sent_now)%list /\
    (List.length sent_now <= n)%nat.

(** A service like [example_service] that refuses every POST with status
    409 and a JSON document. *)
Definition conflict_on_post (resources : list Resource)
  (bookings : list Booking) : list HttpRequest -> HttpRequest -> FetchOutcome :=
  fun history r =>
    if String.eqb (req_method r) "POST"
    then Responded {| status := 409; statusText := "Conflict";
                      body := Some {| raw := "{}"; parsed := Some (JOther "{}") |} |}
    else example_service resources bookings history r.

(** ** [src/cli.ts]: the remaining helpers *)

(** [isoDateTime.split('T')[1]?.substring(0, 5) || EmptyString]; [take]
    counts bytes, which on the ASCII text of a time are the code units
    that [substring] counts. *)
Definition formatTime (isoDateTime : string) : string :=
  match nth_error (split "T" isoDateTime) 1 with
  | Some t => take 5 t
  | None => EmptyString
  end.

(** The instants that [book] sends: [`${date}T${time}:00.000Z`]. *)
Definition instant (date time : string) : string :=
  date ++ "T" ++ time ++ ":00.000Z".

(** The loop that groups by type, in the [list] and [resources] actions:
    the keys of the [Map] are the texts of the types. *)
Definition type_key (resource : Resource) : string :=
  ResourceType_text (resource_type resource).

Definition type_step (byType : list (string * list Resource))
  (resource : Resource) : list (string * list Resource) :=
  let list := match map_get (type_key resource) byType with
              | Some l => l
              | None => []
              end in
  map_set (type_key resource) (list ++ [resource])%list byType.

Definition group_by_type (resources : list Resource)
  : list (string * list Resource) :=
  fold_left type_step resources [].

(** One turn of a grouping loop over any values with a text key. *)
Definition step_by {V} (key : V -> string) (acc : list (string * list V))
  (v : V) : list (string * list V) :=
  map_set (key v)
    (match map_get (key v) acc with Some l => l | None => [] end ++ [v])%list
    acc.

(** The values with the key [k]. *)
Definition with_key {V} (key : V -> string) (k : string) (v : V) : bool :=
  String.eqb (key v) k.

(* ================================================================= *)
(** * Part IX.  Theorems *)
(* ================================================================= *)

(** ** Resource resolution (C1) *)

Lemma find_first_match {A} (p : A -> bool) (l : list A) (x : A) :
  find p l = Some x <->
  exists before after,
    l = (before ++ x :: after)%list /\ p x = true /\
    forall y, In y before -> p y = false.
Proof.
  split.
  - induction l as [|a l IH]; simpl; [discriminate|].
    destruct (p a) eqn:Ea; intros H.
    + injection H as <-. exists [], l. repeat split; auto. intros y [].
    + destruct (IH H) as (b & c & -> & Hx & Hb).
      exists (a :: b), c. repeat split; auto.
      intros y [<-|Hy]; auto.
  - intros (b & c & -> & Hx & Hb).
    induction b as [|a b IH]; simpl.
    + now rewrite Hx.
    + rewrite (Hb a) by now left.
      apply IH. intros y Hy. apply Hb. now right.
Qed.

Lemma find_none_iff {A} (p : A -> bool) (l : list A) :
  find p l = None <-> forall y, In y l -> p y = false.
Proof.
  split.
  - intros H y Hy. exact (find_none p l H y Hy).
  - induction l as [|a l IH]; simpl; intros H; [reflexivity|].
    rewrite (H a) by now left. apply IH. intros y Hy. apply H. now right.
Qed.

Lemma find_ext_in {A} (p q : A -> bool) (l : list A) :
  (forall y, In y l -> p y = q y) -> find p l = find q l.
Proof.
  induction l as [|a l IH]; simpl; intros H; [reflexivity|].
  rewrite (H a) by now left.
  destruct (q a); [reflexivity|]. apply IH. intros y Hy. apply H. now right.
Qed.

Lemma resource_matches_tiers (h : Host) (token : string) (r : Resource) :
  resource_matches h token r = tier1 h token r || tier2 h token r || tier3 h token r.
Proof. reflexivity. Qed.

Lemma prefix_refl (s : string) : prefix s s = true.
Proof. induction s as [|c s IH]; [reflexivity|]. cbn [prefix]. now destruct (ascii_dec c c). Qed.

Lemma tier2_implies_tier3 (h : Host) (token : string) (r : Resource) :
  tier2 h token r = true -> tier3 h token r = true.
Proof.
  unfold tier2, tier3. intros H. apply String.eqb_eq in H. rewrite H.
  destruct (toLowerCase h token); cbn [includes]; now rewrite prefix_refl.
Qed.

(** In a search in one pass the exact-name test adds nothing: a name that
    equals the token contains it.  The test only has an effect as a tier
    of its own, tried before the substring test. *)
Lemma exact_name_test_is_redundant (h : Host) (token : string) (r : Resource) :
  resource_matches h token r = tier1 h token r || tier3 h token r.
Proof.
  rewrite resource_matches_tiers.
  destruct (tier1 h token r); [reflexivity|]. cbn [orb].
  destruct (tier2 h token r) eqn:E2; [|reflexivity].
  now rewrite (tier2_implies_tier3 h token r E2).
Qed.

(** C1, as the code has it.  [find_resource] makes one pass over the
    candidates with the three tests joined by "or": it returns the first
    candidate, in input order, that passes any of them, and nothing exactly
    when no candidate passes any.  When no candidate passes the identifier
    or the exact-name test, the result is the first candidate whose name
    contains the token. *)
Theorem find_resource_first_in_input_order :
  forall (h : Host) (token : string) (candidates : list Resource),
    (forall r,
        find_resource h token candidates = Some r <->
        exists before after,
          candidates = (before ++ r :: after)%list /\
          tier1 h token r || tier2 h token r || tier3 h token r = true /\
          forall x, In x before ->
            tier1 h token x || tier2 h token x || tier3 h token x = false) /\
    (find_resource h token candidates = None <->
     forall x, In x candidates ->
       tier1 h token x || tier2 h token x || tier3 h token x = false) /\
    ((forall x, In x candidates ->
        tier1 h token x = false /\ tier2 h token x = false) ->
     find_resource h token candidates = find (tier3 h token) candidates /\
     find_resource h token candidates = resolve_tiered h token candidates).
Proof.
  intros h token candidates. unfold find_resource. repeat split.
  - intros H. apply find_first_match in H. exact H.
  - intros H. apply find_first_match. exact H.
  - intros H. apply find_none_iff. exact H.
  - intros H. apply find_none_iff. exact H.
  - apply find_ext_in. intros y Hy. rewrite resource_matches_tiers.
    destruct (H y Hy) as [-> ->]. reflexivity.
  - unfold resolve_tiered.
    assert (H1 : find (tier1 h token) candidates = None)
      by (apply find_none_iff; intros y Hy; apply (H y Hy)).
    assert (H2 : find (tier2 h token) candidates = None)
      by (apply find_none_iff; intros y Hy; apply (H y Hy)).
    rewrite H1, H2. apply find_ext_in. intros y Hy.
    rewrite resource_matches_tiers. destruct (H y Hy) as [-> ->]. reflexivity.
Qed.

(** The four resolutions of section 8 of the specification. *)
Example resolve_examples :
  let candidates := [desk "a1" "Desk 1"; desk "a2" "Desk 12"] in
  let h := example_host offline in
  find_resource h "a1" candidates = Some (desk "a1" "Desk 1") /\
  find_resource h "desk 1" candidates = Some (desk "a1" "Desk 1") /\
  find_resource h "desk" candidates = Some (desk "a1" "Desk 1") /\
  find_resource h "zzz" candidates = None.
Proof. repeat split. Qed.

(** C1.  The code departs from the tier order of the specification: with
    "Desk 12" listed before "Desk 1", the token "desk 1" names the second
    candidate exactly (tier 2) and the first only as a substring (tier 3);
    tier order selects "Desk 1", the code returns "Desk 12". *)
Lemma find_resource_ignores_tier_order :
  let candidates := [desk "a2" "Desk 12"; desk "a1" "Desk 1"] in
  let h := example_host offline in
  tier2 h "desk 1" (desk "a1" "Desk 1") = true /\
  tier1 h "desk 1" (desk "a2" "Desk 12") = false /\
  tier2 h "desk 1" (desk "a2" "Desk 12") = false /\
  resolve_tiered h "desk 1" candidates = Some (desk "a1" "Desk 1") /\
  find_resource h "desk 1" candidates = Some (desk "a2" "Desk 12").
Proof. repeat split. Qed.

(** Two more resolutions out of tier order: an exact name after a longer
    name that contains it, and an identifier after a name that contains
    it. *)
Example find_resource_out_of_tier_order :
  let h := example_host offline in
  find_resource h "Desk 1" [desk "a10" "Desk 10"; desk "a1" "Desk 1"]
  = Some (desk "a10" "Desk 10") /\
  resolve_tiered h "Desk 1" [desk "a10" "Desk 10"; desk "a1" "Desk 1"]
  = Some (desk "a1" "Desk 1") /\
  find_resource h "a1" [desk "zz" "Sala1"; desk "a1" "Desk 1"]
  = Some (desk "zz" "Sala1") /\
  resolve_tiered h "a1" [desk "zz" "Sala1"; desk "a1" "Desk 1"]
  = Some (desk "a1" "Desk 1").
Proof. repeat split. Qed.

(** ** The client: one request, one outcome (C2, C8) *)

Lemma request_unfold (h : Host) (this : DeskbirdClient) (method path : string)
  (params : list (string * option string)) (rb : option RequestBody) (w : World) :
  let r := api_request this method path (searchParams params) rb in
  request h this method path params rb w =
  match service h (requests w) r with
  | InvalidURL => (Thrown (Native (TypeError "Invalid URL")), w)
  | NetworkFailure => (Thrown (Native (TypeError "fetch failed")), sent w r)
  | Responded resp =>
      if Response_ok resp then
        match fst (Response_json resp false) with
        | Ok j => (Ret j, sent w r)
        | Throw e => (Thrown (Native e), sent w r)
        end
      else
        match Response_json resp false with
        | (Ok j, _) => (Thrown (classify resp (JsonBody j)), sent w r)
        | (Throw _, used) =>
            match fst (Response_text resp used) with
            | Ok t => (Thrown (classify resp (TextBody t)), sent w r)
            | Throw e => (Thrown (Native e), sent w r)
            end
        end
  end.
Proof.
  intros r. unfold request. cbv zeta.
  fold (api_request this method path (searchParams params) rb). fold r.
  unfold bind, new_URL, fetch.
  destruct (service h (requests w) r) as [|resp|] eqn:Es;
    [rewrite Es; reflexivity| |reflexivity].
  rewrite Es. fold (sent w r).
  destruct (Response_ok resp); simpl.
  - destruct (fst (Response_json resp false)); reflexivity.
  - destruct (Response_json resp false) as [[j|e] used]; simpl.
    + unfold classify, Unauthorized, Forbidden, RateLimited, RequestFailed.
      destruct (status resp =? 401); [reflexivity|].
      destruct (status resp =? 403); [reflexivity|].
      destruct (status resp =? 429); reflexivity.
    + destruct (fst (Response_text resp used)); simpl; [|reflexivity].
      unfold classify, Unauthorized, Forbidden, RateLimited, RequestFailed.
      destruct (status resp =? 401); [reflexivity|].
      destruct (status resp =? 403); [reflexivity|].
      destruct (status resp =? 429); reflexivity.
Qed.

(** Every call of [request] sends exactly one request, whatever the answer,
    once the URL has parsed: nothing is retried.  When the URL does not
    parse nothing is sent. *)
Lemma request_requests (h : Host) (this : DeskbirdClient) (method path : string)
  (params : list (string * option string)) (rb : option RequestBody) (w : World) :
  let r := api_request this method path (searchParams params) rb in
  snd (request h this method path params rb w) =
  match service h (requests w) r with
  | InvalidURL => w
  | _ => sent w r
  end.
Proof.
  rewrite request_unfold. cbv zeta.
  destruct (service h (requests w) _) as [|resp|]; [reflexivity| |reflexivity].
  destruct (Response_ok resp).
  - destruct (fst (Response_json resp false)); reflexivity.
  - destruct (Response_json resp false) as [[j|e] used]; [reflexivity|].
    destruct (fst (Response_text resp used)); reflexivity.
Qed.

Lemma request_sends_once (h : Host) (this : DeskbirdClient) (method path : string)
  (params : list (string * option string)) (rb : option RequestBody) (w : World) :
  url_parses h (requests w) (api_request this method path (searchParams params) rb) ->
  snd (request h this method path params rb w) =
  sent w (api_request this method path (searchParams params) rb).
Proof.
  intros Hu. rewrite request_requests. cbv zeta. unfold url_parses in Hu.
  destruct (service h (requests w) _); [reflexivity|reflexivity|contradiction].
Qed.

Lemma request_invalid_url (h : Host) (this : DeskbirdClient) (method path : string)
  (params : list (string * option string)) (rb : option RequestBody) (w : World) :
  service h (requests w) (api_request this method path (searchParams params) rb)
  = InvalidURL ->
  request h this method path params rb w =
  (Thrown (Native (TypeError "Invalid URL")), w).
Proof. intros Hs. rewrite request_unfold. cbv zeta. now rewrite Hs. Qed.

Lemma request_success (h : Host) (this : DeskbirdClient) (method path : string)
  (params : list (string * option string)) (rb : option RequestBody) (w : World)
  (j : Json) :
  answers h (requests w) (api_request this method path (searchParams params) rb) j ->
  request h this method path params rb w =
  (Ret j, sent w (api_request this method path (searchParams params) rb)).
Proof.
  intros (resp & b & Hs & Hok & Hb & Hp).
  rewrite request_unfold. cbv zeta. rewrite Hs, Hok.
  unfold Response_json. rewrite Hb, Hp. reflexivity.
Qed.

(** When the body of an error response is JSON, or the body is null, the
    error raised is the one the specification assigns to the status, and it
    carries the body. *)
Lemma request_error_with_json_body (h : Host) (this : DeskbirdClient)
  (method path : string) (params : list (string * option string))
  (rb : option RequestBody) (w : World) (resp : HttpResponse) (b : BodyBytes)
  (j : Json) :
  let r := api_request this method path (searchParams params) rb in
  service h (requests w) r = Responded resp ->
  Response_ok resp = false ->
  body resp = Some b -> parsed b = Some j ->
  request h this method path params rb w =
  (Thrown (classify resp (JsonBody j)), sent w r).
Proof.
  intros r Hs Hok Hb Hp. rewrite request_unfold. cbv zeta. fold r.
  rewrite Hs, Hok. unfold Response_json. rewrite Hb, Hp. reflexivity.
Qed.

Lemma request_error_with_null_body (h : Host) (this : DeskbirdClient)
  (method path : string) (params : list (string * option string))
  (rb : option RequestBody) (w : World) (resp : HttpResponse) :
  let r := api_request this method path (searchParams params) rb in
  service h (requests w) r = Responded resp ->
  Response_ok resp = false ->
  body resp = None ->
  request h this method path params rb w =
  (Thrown (classify resp (TextBody EmptyString)), sent w r).
Proof.
  intros r Hs Hok Hb. rewrite request_unfold. cbv zeta. fold r.
  rewrite Hs, Hok. unfold Response_json, Response_text. rewrite Hb. reflexivity.
Qed.

(** C2, where the code departs from it.  When the body of an error
    response is not JSON, [response.json()] has consumed the body before it
    fails, so the fallback [response.text()] is rejected: [request] throws
    that [TypeError] and no [DeskbirdAPIError], whatever the status. *)
Theorem request_error_with_text_body_throws_TypeError :
  forall (h : Host) (this : DeskbirdClient) (method path : string)
         (params : list (string * option string)) (rb : option RequestBody)
         (w : World) (resp : HttpResponse) (b : BodyBytes),
    let r := api_request this method path (searchParams params) rb in
    service h (requests w) r = Responded resp ->
    Response_ok resp = false ->
    body resp = Some b -> parsed b = None ->
    request h this method path params rb w =
    (Thrown (Native (TypeError "Body is unusable: Body has already been read")),
     sent w r).
Proof.
  intros h this method path params rb w resp b r Hs Hok Hb Hp.
  rewrite request_unfold. cbv zeta. fold r.
  rewrite Hs, Hok. unfold Response_json, Response_text. rewrite Hb, Hp.
  reflexivity.
Qed.

(** The failing input of C2: a 401 whose body is the text "Unauthorized". *)
Lemma unauthorized_text_body_is_not_Unauthorized :
  let h := example_host rejects_all in
  let this := new_DeskbirdClient example_config in
  request h this "GET" "/offices" [("limit", Some "100")] None initial =
  (Thrown (Native (TypeError "Body is unusable: Body has already been read")),
   sent initial (api_request this "GET" "/offices" [("limit", "100")] None)).
Proof.
  cbv zeta.
  exact (request_error_with_text_body_throws_TypeError
           (example_host rejects_all) (new_DeskbirdClient example_config)
           "GET" "/offices" [("limit", Some "100")] None initial
           _ _ eq_refl eq_refl eq_refl eq_refl).
Defined.

Lemma listResources_run (h : Host) (this : DeskbirdClient)
  (params : ListResourcesParams) (p : PaginatedResponse Resource) (w : World) :
  lr_limit params = None -> lr_offset params = None ->
  answers h (requests w) (resources_request this params) (JResources p) ->
  listResources h this params w =
  (Ret (data p), sent w (resources_request this params)).
Proof.
  intros Hl Ho H. unfold listResources, bind.
  rewrite (request_success h this "GET" "/resources" _ None w (JResources p)).
  - rewrite Hl, Ho. unfold resources_request.
    destruct (lr_officeId params), (lr_zoneId params), (lr_type params);
      reflexivity.
  - rewrite Hl, Ho. unfold resources_request in H.
    destruct (lr_officeId params), (lr_zoneId params), (lr_type params);
      exact H.
Qed.

Lemma listBookings_run (h : Host) (this : DeskbirdClient)
  (params : ListBookingsParams) (p : PaginatedResponse Booking) (w : World) :
  lb_limit params = None -> lb_offset params = None ->
  answers h (requests w) (bookings_request this params) (JBookings p) ->
  listBookings h this params w =
  (Ret (data p), sent w (bookings_request this params)).
Proof.
  intros Hl Ho H. unfold listBookings, bind.
  rewrite (request_success h this "GET" "/bookings" _ None w (JBookings p)).
  - rewrite Hl, Ho. unfold bookings_request.
    destruct (lb_userId params), (lb_officeId params), (lb_resourceId params),
      (lb_zoneId params), (lb_status params); reflexivity.
  - rewrite Hl, Ho. unfold bookings_request in H.
    destruct (lb_userId params), (lb_officeId params), (lb_resourceId params),
      (lb_zoneId params), (lb_status params); exact H.
Qed.

(** C8, as the code has it.  Each list operation sends one GET and returns
    the [data] of the envelope it receives.  With no page size and no
    offset given, listing resources, users and bookings sends limit 100 and
    offset 0 (see [resources_request] and [bookings_request]); listing
    offices sends limit 100 and no offset. *)
Theorem list_operations_unwrap_the_envelope :
  forall (h : Host) (this : DeskbirdClient) (w : World),
    (forall p,
        let r := api_request this "GET" "/offices" [("limit", "100")] None in
        answers h (requests w) r (JOffices p) ->
        listOffices h this w = (Ret (data p), sent w r)) /\
    (forall params p,
        lr_limit params = None -> lr_offset params = None ->
        answers h (requests w) (resources_request this params) (JResources p) ->
        listResources h this params w =
        (Ret (data p), sent w (resources_request this params)) /\
        In ("limit", "100") (req_query (resources_request this params)) /\
        In ("offset", "0") (req_query (resources_request this params))) /\
    (forall p,
        let r := api_request this "GET" "/users"
                   [("limit", "100"); ("offset", "0")] None in
        answers h (requests w) r (JUsers p) ->
        listUsers h this None None w = (Ret (data p), sent w r)) /\
    (forall params p,
        lb_limit params = None -> lb_offset params = None ->
        answers h (requests w) (bookings_request this params) (JBookings p) ->
        listBookings h this params w =
        (Ret (data p), sent w (bookings_request this params)) /\
        In ("limit", "100") (req_query (bookings_request this params)) /\
        In ("offset", "0") (req_query (bookings_request this params))).
Proof.
  intros h this w. split; [|split; [|split]].
  - intros p r H. unfold listOffices, bind.
    rewrite (request_success h this "GET" "/offices" _ None w (JOffices p)) by exact H.
    reflexivity.
  - intros params p Hl Ho H. split; [now apply listResources_run|].
    unfold resources_request, api_request; simpl.
    split; repeat (apply in_or_app; right); simpl; auto.
  - intros p r H. unfold listUsers, bind.
    rewrite (request_success h this "GET" "/users" _ None w (JUsers p)) by exact H.
    reflexivity.
  - intros params p Hl Ho H. split; [now apply listBookings_run|].
    unfold bookings_request, api_request; simpl.
    split; right; right; repeat (apply in_or_app; right); simpl; auto.
Qed.

(** C8 as stated fails for the offices: the one request of [listOffices]
    carries a limit and no offset. *)
Lemma listOffices_sends_no_offset :
  let h := example_host offline in
  let this := new_DeskbirdClient example_config in
  map req_query (requests (snd (listOffices h this initial))) =
  [[("limit", "100")]].
Proof. reflexivity. Qed.

(** ** Running the actions *)

Lemma bind_run {A B} (m : M A) (f : A -> M B) (w w' : World) (a : A) :
  m w = (Ret a, w') -> bind m f w = f a w'.
Proof. intros H. unfold bind. now rewrite H. Qed.

Lemma lift_run {A} (r : Result A) (a : A) (w : World) :
  r = Ok a -> lift r w = (Ret a, w).
Proof. intros ->. reflexivity. Qed.

Lemma print_run (l : Line) (w : World) : print l w = (Ret tt, printed w l).
Proof. reflexivity. Qed.

Lemma getClient_fresh (h : Host) (cfg : Config) (w : World) :
  loadConfig h = Ok cfg -> client w = None ->
  getClient h w = (Ret (new_DeskbirdClient cfg), loaded cfg w).
Proof. intros Hc Hw. unfold getClient. now rewrite Hw, Hc. Qed.

Lemma getClient_cached (h : Host) (c : DeskbirdClient) (w : World) :
  client w = Some c -> getClient h w = (Ret c, w).
Proof. intros Hw. unfold getClient. now rewrite Hw. Qed.

(** The first two steps that touch the configuration, from a fresh start:
    whichever of [getConfig] and [getClient] runs first loads it. *)
Lemma office_then_client {A} (h : Host) (cfg : Config) (office : option string)
  (k : option string -> DeskbirdClient -> M A) (w : World) :
  loadConfig h = Ok cfg -> config w = None -> client w = None ->
  bind (office_or_default h office) (fun o => bind (getClient h) (k o)) w =
  k (or_else office (defaultOfficeId cfg)) (new_DeskbirdClient cfg) (loaded cfg w).
Proof.
  intros Hc Hcfg Hcl. unfold office_or_default, or_else.
  destruct (truthy office).
  - unfold bind at 1, ret. rewrite (bind_run _ _ _ _ _ (getClient_fresh h cfg w Hc Hcl)).
    reflexivity.
  - unfold bind at 1. unfold bind at 1. unfold getConfig. rewrite Hcfg, Hc.
    unfold ret.
    fold (loaded cfg w).
    rewrite (bind_run _ _ _ _ _
               (getClient_cached h (new_DeskbirdClient cfg) (loaded cfg w) eq_refl)).
    reflexivity.
Qed.

(** C4.  When the date normalises, the configuration loads, the service
    lists the resources and the token resolves, [cancel] reads one page of
    bookings, at most 100 from offset 0: those of the current user and of
    that resource whose start and end date are the normalised date.  With
    none, the run ends with exit status 1 after the no-booking-found line,
    having sent no DELETE; otherwise the third and last request is the
    DELETE of the first booking in the order the service returned. *)
Theorem cancel_first_booking_or_fail :
  forall (h : Host) (resourceArg : string) (options : CancelOptions)
         (cfg : Config) (date : string) (resource : Resource)
         (resources : PaginatedResponse Resource)
         (bookings : PaginatedResponse Booking),
    loadConfig h = Ok cfg ->
    parseDate h (cancel_date options) = Ok date ->
    let api := new_DeskbirdClient cfg in
    let officeId := or_else (cancel_office options) (defaultOfficeId cfg) in
    let listing := api_request api "GET" "/resources"
                     (opt_param "officeId" officeId
                      ++ [("limit", "100"); ("offset", "0")])%list None in
    let lookup := api_request api "GET" "/bookings"
                    [("startDate", date); ("endDate", date);
                     ("userId", current_id (getCurrentUser h));
                     ("resourceId", resource_id resource);
                     ("limit", "100"); ("offset", "0")] None in
    answers h [] listing (JResources resources) ->
    find_resource h resourceArg (data resources) = Some resource ->
    answers h [listing] lookup (JBookings bookings) ->
    match data bookings with
    | [] =>
        cancel h resourceArg options initial =
        (Exited 1,
         {| requests := [listing; lookup];
            console := [NoBookingFoundLine (resource_name resource) date];
            config := Some cfg; client := Some api |})
    | first :: _ =>
        let delete := api_request api "DELETE" ("/bookings/" ++ booking_id first)
                        [] None in
        url_parses h [listing; lookup] delete ->
        requests (snd (cancel h resourceArg options initial)) =
        [listing; lookup; delete]
    end.
Proof.
  intros h resourceArg options cfg date resource resources bookings
         Hcfg Hdate api officeId listing lookup.
  assert (El : listing = resources_request api (office_resources officeId))
    by reflexivity.
  assert (Ek : lookup = bookings_request api
                          (day_bookings date (Some (current_id (getCurrentUser h)))
                             None (Some (resource_id resource))))
    by reflexivity.
  clearbody listing lookup. subst listing lookup.
  set (listing := resources_request api (office_resources officeId)).
  set (lookup := bookings_request api _).
  intros Hlist Hfind Hlook.
  unfold cancel, try_catch.
  rewrite (bind_run _ _ _ _ _ (lift_run _ _ initial Hdate)).
  rewrite (office_then_client h cfg _ _ initial Hcfg eq_refl eq_refl).
  fold api officeId.
  rewrite (bind_run _ _ _ _ _
             (listResources_run h api (office_resources officeId) resources
                (loaded cfg initial) eq_refl eq_refl Hlist)).
  fold listing. rewrite Hfind.
  rewrite (bind_run _ _ _ _ _
             (getClient_cached h api (sent (loaded cfg initial) listing) eq_refl)).
  rewrite (bind_run _ _ _ _ _
             (listBookings_run h api
                (day_bookings date (Some (current_id (getCurrentUser h))) None
                   (Some (resource_id resource)))
                bookings (sent (loaded cfg initial) listing) eq_refl eq_refl Hlook)).
  fold lookup.
  destruct (data bookings) as [|first rest].
  - reflexivity.
  - intros Hu.
    rewrite (bind_run _ _ _ _ _ (print_run _ _)).
    rewrite (bind_run _ _ _ _ _
               (getClient_cached h api
                  (printed (sent (sent (loaded cfg initial) listing) lookup)
                     (CancellingLine (resource_name resource) date)) eq_refl)).
    unfold cancelBooking.
    unfold bind at 1. unfold bind at 1.
    pose proof (request_sends_once h api "DELETE" ("/bookings/" ++ booking_id first)
                  [] None
                  (printed (sent (sent (loaded cfg initial) listing) lookup)
                     (CancellingLine (resource_name resource) date)) Hu) as Hs.
    destruct (request h api "DELETE" ("/bookings/" ++ booking_id first) [] None _)
      as [[j|e|c|] w'] eqn:E; simpl in Hs; subst w'; reflexivity.
Qed.

(** A run of [cancel "Desk 1"] against two bookings: the first is the one
    cancelled. *)
Lemma cancel_example :
  let h := example_host (example_service two_desks two_bookings) in
  let api := new_DeskbirdClient example_config in
  requests (snd (cancel h "Desk 1"
                   {| cancel_date := None; cancel_office := None |} initial)) =
  [api_request api "GET" "/resources"
     [("officeId", "office-1"); ("limit", "100"); ("offset", "0")] None;
   api_request api "GET" "/bookings"
     [("startDate", "2024-03-15"); ("endDate", "2024-03-15");
      ("userId", "user-1"); ("resourceId", "a1");
      ("limit", "100"); ("offset", "0")] None;
   api_request api "DELETE" "/bookings/b1" [] None].
Proof.
  cbv zeta.
  refine (cancel_first_booking_or_fail
            (example_host (example_service two_desks two_bookings)) "Desk 1"
            {| cancel_date := None; cancel_office := None |} example_config
            "2024-03-15" (desk "a1" "Desk 1") (page two_desks) (page two_bookings)
            _ _ _ _ _ _).
  - reflexivity.
  - vm_compute. reflexivity.
  - eexists. eexists. repeat split.
  - reflexivity.
  - eexists. eexists. repeat split.
  - intros H. discriminate H.
Defined.

Lemma parseTime_absent (timeStr : option string) :
  truthy timeStr = false -> parseTime timeStr = Ok None.
Proof. intros H. unfold parseTime. now rewrite H. Qed.

Lemma append_nonempty (a b : string) : nonempty b = true -> nonempty (a ++ b) = true.
Proof. destruct a; simpl; auto. Qed.

Ltac case_if :=
  match goal with
  | |- context [if ?c then _ else _] => destruct c eqn:?
  end.

(** A time that [parseTime] returns is never the empty text, so the
    default applies exactly when it returns [undefined]. *)
Lemma parseTime_default (timeStr : option string) (t : option string) (dflt : string) :
  parseTime timeStr = Ok t ->
  text_of (or_else t (Some dflt)) = match t with Some s => s | None => dflt end.
Proof.
  unfold parseTime, parseTime_hour, parseTime_hour_minute.
  destruct (truthy timeStr); simpl; [|intros [= <-]; reflexivity].
  destruct (match_start re_hour (text_of timeStr)) as [numMatch|];
    [case_if; [intros [= <-]; unfold or_else; simpl;
               now rewrite append_nonempty|]|];
    (destruct (match_start re_hour_minute (text_of timeStr)) as [timeMatch|];
       [|discriminate];
     case_if; [|discriminate];
     intros [= <-]; unfold or_else; simpl; now rewrite !append_nonempty).
Qed.

(** C3, as the code has it.  When the date and the times normalise, the
    configuration loads, the service answers the listing and the token
    resolves in the answer, a run of [book] sends exactly two requests.
    The first asks for one page of resources, at most 100 from offset 0,
    with the office as the only filter: the token is resolved in that page
    and no further page is read.  The second is one POST to [/bookings]
    whose body holds the current user's identifier, the identifier of the
    resolved resource, and the instants [date T time :00.000Z], with 09:00
    and 18:00 standing in for a start or an end that was not given.  No
    booking is read before the POST. *)
Theorem book_sends_one_create_request :
  forall (h : Host) (resourceArg : string) (options : BookOptions)
         (cfg : Config) (date : string) (start finish : option string)
         (resource : Resource) (resources : PaginatedResponse Resource),
    loadConfig h = Ok cfg ->
    parseDate h (book_date options) = Ok date ->
    parseTime (book_start options) = Ok start ->
    parseTime (book_end options) = Ok finish ->
    let api := new_DeskbirdClient cfg in
    let officeId := or_else (book_office options) (defaultOfficeId cfg) in
    let listing := api_request api "GET" "/resources"
                     (opt_param "officeId" officeId
                      ++ [("limit", "100"); ("offset", "0")])%list None in
    answers h [] listing (JResources resources) ->
    find_resource h resourceArg (data resources) = Some resource ->
    let startTime := match start with Some t => t | None => "09:00" end in
    let endTime := match finish with Some t => t | None => "18:00" end in
    let post :=
      api_request api "POST" "/bookings" []
        (Some (CreateBody
                 {| create_userId := current_id (getCurrentUser h);
                    create_resourceId := resource_id resource;
                    create_startTime := date ++ "T" ++ startTime ++ ":00.000Z";
                    create_endTime := date ++ "T" ++ endTime ++ ":00.000Z";
                    create_isAnonymousBooking := None |})) in
    url_parses h [listing] post ->
    requests (snd (book h resourceArg options initial)) = [listing; post] /\
    (truthy (book_start options) = false -> startTime = "09:00") /\
    (truthy (book_end options) = false -> endTime = "18:00").
Proof.
  intros h resourceArg options cfg date start finish resource resources
         Hcfg Hdate Hstart Hend api officeId listing.
  assert (El : listing = resources_request api (office_resources officeId))
    by reflexivity.
  clearbody listing. subst listing.
  set (listing := resources_request api (office_resources officeId)).
  intros Hlist Hfind startTime endTime post Hu.
  split; [|split].
  - unfold book, try_catch.
    rewrite (bind_run _ _ _ _ _ (lift_run _ _ initial Hdate)).
    unfold office_or_default. fold officeId.
    assert (Hoff : exists w0,
               (if truthy (book_office options) then ret (book_office options)
                else bind (getConfig h) (fun c => ret (defaultOfficeId c))) initial
               = (Ret officeId, w0) /\
               getClient h w0 = (Ret api, loaded cfg initial)).
    { unfold officeId, or_else. destruct (truthy (book_office options)).
      - exists initial. split; [reflexivity|].
        now apply getClient_fresh.
      - exists (loaded cfg initial). split.
        + unfold bind, getConfig. simpl. now rewrite Hcfg.
        + now apply getClient_cached. }
    destruct Hoff as (w0 & Hoff & Hcl).
    rewrite (bind_run _ _ _ _ _ Hoff).
    rewrite (bind_run _ _ _ _ _ (lift_run _ _ w0 Hstart)).
    rewrite (bind_run _ _ _ _ _ (lift_run _ _ w0 Hend)).
    rewrite (bind_run _ _ _ _ _ Hcl).
    rewrite (bind_run _ _ _ _ _
               (listResources_run h api (office_resources officeId) resources
                  (loaded cfg initial) eq_refl eq_refl Hlist)).
    fold listing. rewrite Hfind.
    rewrite (bind_run _ _ _ _ _ (print_run _ _)).
    rewrite (bind_run _ _ _ _ _
               (getClient_cached h api
                  (printed (sent (loaded cfg initial) listing)
                     (BookingLine (resource_name resource) date
                        (text_of (or_else start (Some "09:00")))
                        (text_of (or_else finish (Some "18:00"))))) eq_refl)).
    rewrite (parseTime_default _ _ "09:00" Hstart).
    rewrite (parseTime_default _ _ "18:00" Hend).
    fold startTime endTime.
    unfold createBooking.
    unfold bind at 1. unfold bind at 1.
    match goal with
    | |- context [request h api "POST" "/bookings" [] ?b ?w] =>
        pose proof (request_sends_once h api "POST" "/bookings" [] b w Hu) as Hs;
        destruct (request h api "POST" "/bookings" [] b w) as [[j|e|c|] w'] eqn:E
    end; simpl in Hs; subst w'; try reflexivity.
    destruct j; reflexivity.
  - intros H. rewrite (parseTime_absent _ H) in Hstart.
    injection Hstart as <-. reflexivity.
  - intros H. rewrite (parseTime_absent _ H) in Hend.
    injection Hend as <-. reflexivity.
Qed.

(** A run of [book "desk 1"] with no date and no times. *)
Lemma book_example :
  let h := example_host (example_service two_desks two_bookings) in
  let api := new_DeskbirdClient example_config in
  requests (snd (book h "desk 1"
                   {| book_date := None; book_start := None; book_end := None;
                      book_office := None |} initial)) =
  [api_request api "GET" "/resources"
     [("officeId", "office-1"); ("limit", "100"); ("offset", "0")] None;
   api_request api "POST" "/bookings" []
     (Some (CreateBody
              {| create_userId := "user-1"; create_resourceId := "a1";
                 create_startTime := "2024-03-15T09:00:00.000Z";
                 create_endTime := "2024-03-15T18:00:00.000Z";
                 create_isAnonymousBooking := None |}))].
Proof.
  cbv zeta.
  refine (proj1 (book_sends_one_create_request
            (example_host (example_service two_desks two_bookings)) "desk 1"
            {| book_date := None; book_start := None; book_end := None;
               book_office := None |} example_config
            "2024-03-15" None None (desk "a1" "Desk 1") (page two_desks)
            _ _ _ _ _ _ _)).
  - reflexivity.
  - vm_compute. reflexivity.
  - reflexivity.
  - reflexivity.
  - eexists. eexists. repeat split.
  - reflexivity.
  - intros H. discriminate H.
Defined.

(** C3 as stated fails: the token is not resolved among all of the
    office's resources.  The listing asks for 100 resources and no second
    page is read, so in an office of 101 desks the identifier of the last
    desk is not found, although it is a resource of the office. *)
Lemma book_misses_resource_beyond_first_page :
  let h := example_host (paging_service many_desks) in
  let options := {| book_date := None; book_start := None; book_end := None;
                    book_office := None |} in
  List.length many_desks = 101%nat /\
  find_resource h "r101" many_desks = Some (numbered_desk 101) /\
  fst (book h "r101" options initial) = Exited 1 /\
  requests (snd (book h "r101" options initial)) =
  [api_request (new_DeskbirdClient example_config) "GET" "/resources"
     [("officeId", "office-1"); ("limit", "100"); ("offset", "0")] None] /\
  hd_error (console (snd (book h "r101" options initial)))
  = Some (ResourceNotFoundLine "r101").
Proof. cbv zeta. repeat split; vm_compute; reflexivity. Qed.

Lemma checkIn_sends_once (h : Host) (this : DeskbirdClient) (bookingId : string)
  (w : World) :
  url_parses h (requests w)
    (api_request this "PATCH" ("/bookings/" ++ bookingId ++ "/check-in") [] None) ->
  exists o,
    checkIn h this bookingId w =
    (o, sent w (api_request this "PATCH" ("/bookings/" ++ bookingId ++ "/check-in")
                  [] None)).
Proof.
  intros Hu. unfold checkIn, bind.
  pose proof (request_sends_once h this "PATCH"
                ("/bookings/" ++ bookingId ++ "/check-in") [] None w Hu) as Hs.
  destruct (request h this "PATCH" _ [] None w) as [[j|e|c|] w'];
    simpl in Hs; subst w'; try (eexists; reflexivity).
  destruct j; eexists; reflexivity.
Qed.

(** C10.  [checkin] first reads one page of bookings, at most 100 from
    offset 0: those of the current user whose start and end date are the
    normalised date, in the office when there is one.  With a token it
    then reads the page of the office's resources; when the token matches
    none of them the run goes on as if no token had been given: no
    resource-not-found failure, the bookings stay unfiltered, and the
    first of them is the one checked in; with no booking that day the run
    ends as booking not found. *)
Theorem checkin_ignores_unmatched_token :
  forall (h : Host) (token : string) (options : CheckinOptions)
         (cfg : Config) (date : string)
         (bookings : PaginatedResponse Booking)
         (resources : PaginatedResponse Resource),
    nonempty token = true ->
    loadConfig h = Ok cfg ->
    parseDate h (checkin_date options) = Ok date ->
    let api := new_DeskbirdClient cfg in
    let officeId := or_else (checkin_office options) (defaultOfficeId cfg) in
    let lookup := api_request api "GET" "/bookings"
                    ([("startDate", date); ("endDate", date);
                      ("userId", current_id (getCurrentUser h))]
                     ++ opt_param "officeId" officeId
                     ++ [("limit", "100"); ("offset", "0")])%list None in
    let listing := api_request api "GET" "/resources"
                     (opt_param "officeId" officeId
                      ++ [("limit", "100"); ("offset", "0")])%list None in
    answers h [] lookup (JBookings bookings) ->
    answers h [lookup] listing (JResources resources) ->
    find_resource h token (data resources) = None ->
    match data bookings with
    | [] =>
        checkin h (Some token) options initial =
        (Exited 1,
         {| requests := [lookup; listing]; console := [NoBookingTodayLine];
            config := Some cfg; client := Some api |})
    | first :: _ =>
        let patch := api_request api "PATCH"
                       ("/bookings/" ++ booking_id first ++ "/check-in") [] None in
        url_parses h [lookup; listing] patch ->
        let w := snd (checkin h (Some token) options initial) in
        requests w = [lookup; listing; patch] /\
        exists rest,
          console w = CheckingInLine (checkin_name first) :: rest /\
          forall l, In l rest -> l = CheckedInLine \/ exists e, l = ErrorLine e
    end.
Proof.
  intros h token options cfg date bookings resources
         Htok Hcfg Hdate api officeId lookup listing.
  assert (Ek : lookup = bookings_request api
                          (day_bookings date (Some (current_id (getCurrentUser h)))
                             officeId None))
    by reflexivity.
  assert (El : listing = resources_request api (office_resources officeId))
    by reflexivity.
  clearbody listing lookup. subst listing lookup.
  set (lookup := bookings_request api _).
  set (listing := resources_request api (office_resources officeId)).
  intros Hlook Hlist Hfind.
  unfold checkin, try_catch.
  rewrite (bind_run _ _ _ _ _ (lift_run _ _ initial Hdate)).
  rewrite (office_then_client h cfg _ _ initial Hcfg eq_refl eq_refl).
  fold api officeId.
  rewrite (bind_run _ _ _ _ _
             (listBookings_run h api
                (day_bookings date (Some (current_id (getCurrentUser h)))
                   officeId None)
                bookings (loaded cfg initial) eq_refl eq_refl Hlook)).
  fold lookup. simpl truthy. rewrite Htok.
  rewrite (bind_run _ _ _ (sent (sent (loaded cfg initial) lookup) listing)
             (data bookings)).
  2:{ rewrite (bind_run _ _ _ _ _
                 (getClient_cached h api (sent (loaded cfg initial) lookup) eq_refl)).
      rewrite (bind_run _ _ _ _ _
                 (listResources_run h api (office_resources officeId) resources
                    (sent (loaded cfg initial) lookup) eq_refl eq_refl Hlist)).
      fold listing. change (text_of (Some token)) with token.
      rewrite Hfind. reflexivity. }
  destruct (data bookings) as [|first rest].
  - reflexivity.
  - intros Hu.
    rewrite (bind_run _ _ _ _ _ (print_run _ _)).
    rewrite (bind_run _ _ _ _ _
               (getClient_cached h api
                  (printed (sent (sent (loaded cfg initial) lookup) listing)
                     (CheckingInLine (checkin_name first))) eq_refl)).
    destruct (checkIn_sends_once h api (booking_id first)
                (printed (sent (sent (loaded cfg initial) lookup) listing)
                   (CheckingInLine (checkin_name first))) Hu) as (o & Ho).
    cbv zeta. unfold bind. rewrite Ho.
    destruct o as [b|e|c|]; simpl; (split; [reflexivity|]).
    + exists [CheckedInLine]. split; [reflexivity|].
      intros l [<-|[]]. now left.
    + exists [ErrorLine e]. split; [reflexivity|].
      intros l [<-|[]]. right. now exists e.
    + exists []. split; [reflexivity|intros l []].
    + exists []. split; [reflexivity|intros l []].
Qed.

(** A check-in with the token "zzz", which names none of the desks. *)
Lemma checkin_example :
  let h := example_host (example_service two_desks two_bookings) in
  let api := new_DeskbirdClient example_config in
  let w := snd (checkin h (Some "zzz")
                  {| checkin_date := None; checkin_office := None |} initial) in
  requests w =
  [api_request api "GET" "/bookings"
     [("startDate", "2024-03-15"); ("endDate", "2024-03-15");
      ("userId", "user-1"); ("officeId", "office-1");
      ("limit", "100"); ("offset", "0")] None;
   api_request api "GET" "/resources"
     [("officeId", "office-1"); ("limit", "100"); ("offset", "0")] None;
   api_request api "PATCH" "/bookings/b1/check-in" [] None] /\
  exists rest,
    console w = CheckingInLine "a1" :: rest /\
    forall l, In l rest -> l = CheckedInLine \/ exists e, l = ErrorLine e.
Proof.
  cbv zeta.
  refine (checkin_ignores_unmatched_token
            (example_host (example_service two_desks two_bookings)) "zzz"
            {| checkin_date := None; checkin_office := None |} example_config
            "2024-03-15" (page two_bookings) (page two_desks)
            _ _ _ _ _ _ _).
  - reflexivity.
  - reflexivity.
  - vm_compute. reflexivity.
  - eexists. eexists. repeat split.
  - eexists. eexists. repeat split.
  - reflexivity.
  - intros H. discriminate H.
Defined.

(** ** Times (C7) *)

Lemma digit_cases (c : ascii) :
  is_digit c = true ->
  In c ["0"; "1"; "2"; "3"; "4"; "5"; "6"; "7"; "8"; "9"]%char.
Proof.
  destruct c as [[] [] [] [] [] [] [] []]; intros H;
    try discriminate H; cbn; auto 12.
Qed.

Ltac digit_enum H :=
  apply digit_cases in H; cbn [In] in H;
  repeat (destruct H as [H|H]; [subst|]); [..|contradiction].

Lemma digit_val_range (c : ascii) : is_digit c = true -> 0 <= digit_val c <= 9.
Proof. intros H. digit_enum H; vm_compute; split; discriminate. Qed.

Lemma parseInt_1digit (a : ascii) :
  is_digit a = true -> parseInt (String a EmptyString) = Some (digit_val a).
Proof. intros H. digit_enum H; reflexivity. Qed.

Lemma parseInt_2digits (a b : ascii) :
  is_digit a = true -> is_digit b = true ->
  parseInt (String a (String b EmptyString)) = Some (10 * digit_val a + digit_val b).
Proof. intros Ha Hb. digit_enum Ha; digit_enum Hb; reflexivity. Qed.

Lemma range_from_complete (n : nat) (start v : Z) :
  start <= v < start + Z.of_nat n -> In v (range_from start n).
Proof.
  revert start. induction n as [|n IH]; intros start H; [lia|].
  cbn [range_from]. destruct (Z.eq_dec v start) as [->|Hne].
  - now left.
  - right. apply IH. lia.
Qed.

Lemma forall_upto (n : Z) (p : Z -> bool) :
  forallb p (upto n) = true -> forall v, 0 <= v < n -> p v = true.
Proof.
  intros H v Hv. rewrite forallb_forall in H. apply H.
  apply range_from_complete. rewrite Z2Nat.id by lia. lia.
Qed.

Lemma pad2_two_digits (v : Z) : 0 <= v <= 99 -> pad2 (Some v) = two_digits v.
Proof.
  intros H.
  assert (E : String.eqb (pad2 (Some v)) (two_digits v) = true).
  { apply (forall_upto 100 (fun v => String.eqb (pad2 (Some v)) (two_digits v))).
    - vm_compute. reflexivity.
    - lia. }
  now apply String.eqb_eq.
Qed.

Ltac regex_step :=
  match goal with
  | |- context [match ?s with EmptyString => _ | String _ _ => _ end] =>
      is_var s; destruct s as [|? ?]
  | |- context [is_digit ?c] => is_var c; destruct (is_digit c) eqn:?
  | |- context [Ascii.eqb ?c ?k] => is_var c; destruct (Ascii.eqb_spec c k); [subst c|]
  | |- context [Ascii.eqb ?k ?c] => is_var c; destruct (Ascii.eqb_spec k c); [subst c|]
  end.

Ltac regex_cases :=
  cbn [rx];
  repeat (regex_step;
          cbn [rx orb andb group text_of consumed take String.length Nat.sub Nat.eqb]).

Ltac absurd_char :=
  match goal with
  | H : ?c <> ?c |- _ => exfalso; apply H; reflexivity
  | H : is_digit ?c = true, H' : is_digit ?c = false |- _ =>
      rewrite H in H'; discriminate H'
  | H : is_digit ?c = true |- _ => vm_compute in H; discriminate H
  end.

Ltac suffix_cases H :=
  unfold hour_suffix in H;
  repeat (destruct H as [H|H]);
  try discriminate H; inversion H; subst.

Ltac invert_time H :=
  inversion H; subst; clear H;
  repeat match goal with
         | S : hour_suffix _ |- _ => suffix_cases S
         end;
  try absurd_char.

Ltac digit_ranges :=
  repeat match goal with
         | H : is_digit ?c = true |- _ =>
             lazymatch goal with
             | _ : 0 <= digit_val c <= 9 |- _ => fail
             | _ => pose proof (digit_val_range c H)
             end
         end.

Lemma parseTime_hour_spec (s : string) :
  match parseTime_hour s with
  | Some out =>
      exists hour, BareHour s hour /\ hour <= 23 /\ out = two_digits hour ++ ":00"
  | None => forall hour, BareHour s hour -> 23 < hour
  end.
Proof.
  unfold parseTime_hour, match_start, re_hour, digit, chr_i.
  regex_cases.
  all: try (intros hour Hbare; invert_time Hbare; fail).
  all: try rewrite parseInt_1digit by assumption.
  all: try rewrite parseInt_2digits by assumption.
  all: cbn [num_ge num_le]; digit_ranges.
  all: match goal with
       | |- context [(0 <=? ?v) && (?v <=? 23)] =>
           destruct (Z.leb_spec 0 v); [|lia];
           destruct (Z.leb_spec v 23); cbn [andb]
       end.
  all: try (intros hour Hbare; invert_time Hbare; lia).
  all: try (eexists; split; [|split; [|rewrite pad2_two_digits by lia; reflexivity]];
            [constructor; unfold hour_suffix; auto 10 | lia]).
Qed.

Lemma parseTime_hour_minute_spec (s : string) :
  match parseTime_hour_minute s with
  | Some out =>
      exists hour min,
        HourMinute s hour min /\ hour <= 23 /\ min <= 59 /\
        out = two_digits hour ++ ":" ++ two_digits min
  | None => forall hour min, HourMinute s hour min -> 23 < hour \/ 59 < min
  end.
Proof.
  unfold parseTime_hour_minute, match_start, re_hour_minute, digit, chr.
  cbn [times]. regex_cases.
  all: try (intros hour min Hhm; invert_time Hhm; fail).
  all: try rewrite parseInt_1digit by assumption.
  all: try rewrite !parseInt_2digits by assumption.
  all: cbn [num_ge num_le]; digit_ranges.
  all: match goal with
       | |- context [(0 <=? ?v) && (?v <=? 23) && (0 <=? ?m) && (?m <=? 59)] =>
           destruct (Z.leb_spec 0 v); [|lia];
           destruct (Z.leb_spec 0 m); [|lia];
           destruct (Z.leb_spec v 23); destruct (Z.leb_spec m 59); cbn [andb]
       end.
  all: try (intros hour min Hhm; invert_time Hhm; lia).
  all: eexists; eexists; split; [|split; [|split;
         [|rewrite !pad2_two_digits by lia; reflexivity]]];
       [constructor; assumption | lia | lia].
Qed.

(** C7, as the code has it.  An absent or empty input gives [undefined].
    A bare hour of one or two digits, with nothing after it or one of the
    suffixes h and hs in either case of each letter, gives [HH:00] when its
    value is at most 23.  One or two hour digits, a colon and exactly two
    minute digits give [HH:MM] when the hour is at most 23 and the minute at
    most 59.  Every other input fails with the invalid-time error. *)
Theorem parseTime_cases :
  forall timeStr : option string,
    (truthy timeStr = false -> parseTime timeStr = Ok None) /\
    (forall s hour,
        timeStr = Some s -> BareHour s hour -> hour <= 23 ->
        parseTime timeStr = Ok (Some (two_digits hour ++ ":00"))) /\
    (forall s hour min,
        timeStr = Some s -> HourMinute s hour min -> hour <= 23 -> min <= 59 ->
        parseTime timeStr = Ok (Some (two_digits hour ++ ":" ++ two_digits min))) /\
    (forall s,
        timeStr = Some s -> s <> EmptyString ->
        (forall hour, BareHour s hour -> 23 < hour) ->
        (forall hour min, HourMinute s hour min -> 23 < hour \/ 59 < min) ->
        parseTime timeStr = Throw (JsError (invalid_time_message s))).
Proof.
  intros timeStr. split; [|split; [|split]].
  - intros H. unfold parseTime. now rewrite H.
  - intros s hour -> Hb Hh.
    assert (Hne : truthy (Some s) = true) by (inversion Hb; reflexivity).
    unfold parseTime. rewrite Hne. cbn [negb text_of].
    pose proof (parseTime_hour_spec s) as Hs.
    destruct (parseTime_hour s) as [out|].
    + destruct Hs as (hour' & Hb' & _ & ->).
      replace hour' with hour; [reflexivity|].
      inversion Hb; subst; invert_time Hb'; reflexivity.
    + specialize (Hs hour Hb). lia.
  - intros s hour min -> Hhm Hh Hm.
    assert (Hne : truthy (Some s) = true) by (inversion Hhm; reflexivity).
    unfold parseTime. rewrite Hne. cbn [negb text_of].
    pose proof (parseTime_hour_spec s) as Hs.
    destruct (parseTime_hour s) as [out|].
    + destruct Hs as (hour' & Hb' & _). exfalso.
      inversion Hhm; subst; invert_time Hb'.
    + pose proof (parseTime_hour_minute_spec s) as Hs2.
      destruct (parseTime_hour_minute s) as [out|].
      * destruct Hs2 as (hour' & min' & Hhm' & _ & _ & ->).
        replace hour' with hour; [replace min' with min; [reflexivity|]|];
          inversion Hhm; subst; invert_time Hhm'; reflexivity.
      * specialize (Hs2 hour min Hhm). lia.
  - intros s -> Hne Hb Hhm.
    assert (Ht : truthy (Some s) = true) by (destruct s; [contradiction|reflexivity]).
    unfold parseTime. rewrite Ht. cbn [negb text_of].
    pose proof (parseTime_hour_spec s) as Hs.
    destruct (parseTime_hour s) as [out|].
    + destruct Hs as (hour & Hb' & Hle & _). specialize (Hb hour Hb'). lia.
    + pose proof (parseTime_hour_minute_spec s) as Hs2.
      destruct (parseTime_hour_minute s) as [out|]; [|reflexivity].
      destruct Hs2 as (hour & min & Hhm' & Hh & Hm & _).
      specialize (Hhm hour min Hhm'). lia.
Qed.

(** The three time examples of section 8 of the specification. *)
Example parseTime_examples :
  parseTime (Some "19") = Ok (Some "19:00") /\
  parseTime (Some "9:30") = Ok (Some "09:30") /\
  parseTime (Some "25:00") = Throw (JsError (invalid_time_message "25:00")).
Proof. repeat split. Qed.

(** C7 as stated fails: "19H" is a bare hour with a suffix that is neither
    of the quoted "h" and "hs", so it is one of the "other" inputs, and the
    code accepts it. *)
Lemma parseTime_accepts_upper_case_suffix :
  parseTime (Some "19H") = Ok (Some "19:00") /\
  parseTime (Some "19HS") = Ok (Some "19:00").
Proof. split; reflexivity. Qed.

(** ** The calendar *)

Lemma DayFromYear_step (y : Z) : DayFromYear (y + 1) = DayFromYear y + DaysInYear y.
Proof.
  unfold DayFromYear, DaysInYear.
  repeat (match goal with
          | |- context [?a =? ?b] => destruct (Z.eqb_spec a b)
          end; cbn [negb]);
    Z.to_euclidean_division_equations; lia.
Qed.

Lemma DaysInYear_leap (y : Z) : DaysInYear y = 365 + InLeapYear y.
Proof.
  unfold InLeapYear, DaysInYear.
  repeat (match goal with
          | |- context [?a =? ?b] => destruct (Z.eqb_spec a b)
          end; cbn [negb]); lia.
Qed.

Lemma InLeapYear_range (y : Z) : 0 <= InLeapYear y <= 1.
Proof. unfold InLeapYear. destruct (DaysInYear y =? 366); lia. Qed.

Lemma DayFromYear_mono (y1 y2 : Z) : y1 <= y2 -> DayFromYear y1 <= DayFromYear y2.
Proof.
  intros H. unfold DayFromYear. Z.to_euclidean_division_equations. lia.
Qed.

(** [YearFromDay d] is the largest year that begins on or before day [d],
    which is how ECMAScript defines [YearFromTime]. *)
Lemma YearFromDay_spec (d : Z) :
  DayFromYear (YearFromDay d) <= d < DayFromYear (YearFromDay d + 1).
Proof.
  unfold YearFromDay.
  set (y0 := 1970 + (400 * d) / 146097).
  assert (H0 : DayFromYear (y0 - 1) <= d).
  { unfold DayFromYear, y0. Z.to_euclidean_division_equations. lia. }
  assert (H1 : d < DayFromYear (y0 + 2)).
  { unfold DayFromYear, y0. Z.to_euclidean_division_equations. lia. }
  destruct (Z.leb_spec (DayFromYear (y0 + 1)) d).
  - replace (y0 + 1 + 1) with (y0 + 2) by lia. lia.
  - destruct (Z.leb_spec (DayFromYear y0) d).
    + lia.
    + replace (y0 - 1 + 1) with y0 by lia. lia.
Qed.

Lemma YearFromDay_unique (d y : Z) :
  DayFromYear y <= d < DayFromYear (y + 1) -> YearFromDay d = y.
Proof.
  intros H. pose proof (YearFromDay_spec d) as S.
  destruct (Z.lt_trichotomy (YearFromDay d) y) as [L|[E|G]]; [|exact E|].
  - pose proof (DayFromYear_mono (YearFromDay d + 1) y ltac:(lia)). lia.
  - pose proof (DayFromYear_mono (y + 1) (YearFromDay d) ltac:(lia)). lia.
Qed.

Lemma YearFromDay_mono (d1 d2 : Z) : d1 <= d2 -> YearFromDay d1 <= YearFromDay d2.
Proof.
  intros H. pose proof (YearFromDay_spec d1) as S1.
  pose proof (YearFromDay_spec d2) as S2.
  destruct (Z.le_gt_cases (YearFromDay d1) (YearFromDay d2)) as [L|G]; [exact L|].
  pose proof (DayFromYear_mono (YearFromDay d2 + 1) (YearFromDay d1) ltac:(lia)).
  lia.
Qed.

Lemma Day_of_parts (n r : Z) : 0 <= r < msPerDay -> Day (n * msPerDay + r) = n.
Proof.
  intros H. unfold Day, msPerDay in *. Z.to_euclidean_division_equations. lia.
Qed.

Lemma TimeWithinDay_of_parts (n r : Z) :
  0 <= r < msPerDay -> TimeWithinDay (n * msPerDay + r) = r.
Proof.
  intros H. unfold TimeWithinDay, msPerDay in *.
  Z.to_euclidean_division_equations. lia.
Qed.

Lemma time_parts (t : Z) :
  t = Day t * msPerDay + TimeWithinDay t /\ 0 <= TimeWithinDay t < msPerDay.
Proof.
  unfold Day, TimeWithinDay, msPerDay. Z.to_euclidean_division_equations. lia.
Qed.

(** From a date to its day number and back. *)
Lemma civil_roundtrip (y m d r : Z) :
  valid_date y m d -> 0 <= r < msPerDay ->
  let t := day_number y m d * msPerDay + r in
  YearFromTime t = y /\ MonthFromTime t = m - 1 /\ DateFromTime t = d.
Proof.
  intros [Hm Hd] Hr t.
  assert (HD : Day t = day_number y m d) by (apply Day_of_parts; exact Hr).
  pose proof (InLeapYear_range y) as HL.
  assert (HY : YearFromTime t = y).
  { unfold YearFromTime. rewrite HD. apply YearFromDay_unique.
    rewrite DayFromYear_step, DaysInYear_leap.
    unfold day_number, days_in_month, month_start in *.
    repeat (match goal with
            | H : context [?a =? ?b] |- _ => destruct (Z.eqb_spec a b)
            | |- context [?a =? ?b] => destruct (Z.eqb_spec a b)
            | |- context [?a <=? ?b] => destruct (Z.leb_spec a b)
            end; cbn [orb] in *); lia. }
  assert (HM : MonthFromTime t = m - 1).
  { unfold MonthFromTime, DayWithinYear. rewrite HY, HD.
    unfold day_number, days_in_month, month_start in *.
    repeat (match goal with
            | H : context [?a =? ?b] |- _ => destruct (Z.eqb_spec a b)
            | |- context [?a =? ?b] => destruct (Z.eqb_spec a b)
            | |- context [?a <=? ?b] => destruct (Z.leb_spec a b)
            | |- context [?a <? ?b] => destruct (Z.ltb_spec a b)
            end; cbn [orb] in *); lia. }
  split; [exact HY|]. split; [exact HM|].
  unfold DateFromTime, DayWithinYear. rewrite HM, HY, HD.
  unfold day_number. lia.
Qed.

(** From a time value to its date and back: the day number of the date of
    [t] is the day of [t]. *)
Lemma MonthFromTime_range (t : Z) : 0 <= MonthFromTime t <= 11.
Proof.
  unfold MonthFromTime.
  repeat match goal with
         | |- context [?a <? ?b] => destruct (Z.ltb_spec a b)
         end; lia.
Qed.

Lemma day_number_of_time (t : Z) :
  day_number (YearFromTime t) (MonthFromTime t + 1) (DateFromTime t) = Day t.
Proof.
  unfold day_number, DateFromTime.
  replace (MonthFromTime t + 1 - 1) with (MonthFromTime t) by lia.
  unfold DayWithinYear. lia.
Qed.

Lemma date_of_time_valid (t : Z) :
  valid_date (YearFromTime t) (MonthFromTime t + 1) (DateFromTime t).
Proof.
  pose proof (YearFromDay_spec (Day t)) as S.
  rewrite DayFromYear_step, DaysInYear_leap in S.
  pose proof (InLeapYear_range (YearFromTime t)) as HL.
  unfold valid_date, DateFromTime, days_in_month, MonthFromTime, DayWithinYear,
    month_start, YearFromTime in *.
  repeat (match goal with
          | |- context [?a <? ?b] => destruct (Z.ltb_spec a b)
          end);
  repeat (match goal with
          | |- context [?a =? ?b] => destruct (Z.eqb_spec a b)
          | |- context [?a <=? ?b] => destruct (Z.leb_spec a b)
          end; cbn [orb] in *); lia.
Qed.

(** ** Dates (C5, C6) *)

Lemma MakeDay_in_year (y mn dt : Z) :
  0 <= mn <= 11 -> -200000 <= y <= 200000 ->
  MakeDay y mn dt = Some (DayFromYear y + month_start (InLeapYear y) mn + dt - 1).
Proof.
  intros Hm Hy. unfold MakeDay.
  replace (mn / 12) with 0 by (Z.to_euclidean_division_equations; lia).
  replace (mn mod 12) with mn by (Z.to_euclidean_division_equations; lia).
  replace (y + 0) with y by lia.
  pose proof (InLeapYear_range y) as HL.
  assert (B : Z.abs ((DayFromYear y + month_start (InLeapYear y) mn) * msPerDay)
              <= maxTime).
  { unfold DayFromYear, month_start, msPerDay, maxTime.
    repeat match goal with
           | |- context [?a =? ?b] => destruct (Z.eqb_spec a b)
           | |- context [?a <=? ?b] => destruct (Z.leb_spec a b)
           end; Z.to_euclidean_division_equations; lia. }
  apply Z.leb_le in B. rewrite B. reflexivity.
Qed.

Lemma day_number_bounds (y m d : Z) :
  valid_date y m d -> -200000 <= y <= 200000 ->
  -74000000 <= day_number y m d <= 74000000.
Proof.
  intros [Hm Hd] Hy. pose proof (InLeapYear_range y) as HL.
  unfold day_number, days_in_month, DayFromYear, month_start in *.
  repeat (match goal with
          | H : context [?a =? ?b] |- _ => destruct (Z.eqb_spec a b)
          | |- context [?a =? ?b] => destruct (Z.eqb_spec a b)
          | |- context [?a <=? ?b] => destruct (Z.leb_spec a b)
          end; cbn [orb] in *); Z.to_euclidean_division_equations; lia.
Qed.

Lemma TimeClip_in_range (t : Z) : Z.abs t <= maxTime -> TimeClip t = Some t.
Proof. intros H. unfold TimeClip. apply Z.leb_le in H. now rewrite H. Qed.

(** [new Date(y, m - 1, d)] for a year that is not shifted by 1900: local
    midnight of the date. *)
Lemma Date_of_ymd_valid (tz y m d : Z) :
  valid_date y m d -> 100 <= y <= 200000 -> - msPerDay <= tz <= msPerDay ->
  Date_of_ymd tz (Some y) (Some (m - 1)) (Some d) =
  Some (day_number y m d * msPerDay - tz).
Proof.
  intros Hv Hy Htz. pose proof (day_number_bounds y m d Hv ltac:(lia)) as B.
  destruct Hv as [Hm Hd].
  unfold Date_of_ymd, bindN.
  replace ((0 <=? y) && (y <=? 99)) with false
    by (symmetry; apply andb_false_iff; right; apply Z.leb_gt; lia).
  rewrite MakeDay_in_year by lia.
  unfold UTC, MakeDate, MakeTime.
  rewrite TimeClip_in_range.
  - f_equal. unfold day_number. lia.
  - unfold day_number, msPerDay, maxTime in *. lia.
Qed.

Lemma truncate_integer (z : Z) : truncate (inject_Z z + 0)%Q = z.
Proof.
  unfold truncate, Qplus, inject_Z. cbn [Qnum Qden].
  replace (z * 1 + 0 * 1) with z by lia.
  apply Z.quot_1_r.
Qed.

(** The tail of [parseISO] for a date without time and zone: from UTC
    midnight of the date to its local midnight. *)
Lemma local_midnight (tz y m d : Z) :
  valid_date y m d -> -200000 <= y <= 200000 -> - msPerDay <= tz <= msPerDay ->
  let timestamp := day_number y m d * msPerDay in
  let dirtyDate := Date_of_value (inject_Z timestamp + 0)%Q in
  setHours tz
    (setFullYear tz (Some 0) (getUTCFullYear dirtyDate) (getUTCMonth dirtyDate)
       (getUTCDate dirtyDate))
    (getUTCHours dirtyDate) (getUTCMinutes dirtyDate)
    (getUTCSeconds dirtyDate) (getUTCMilliseconds dirtyDate) =
  Some (timestamp - tz).
Proof.
  intros Hv Hy Htz timestamp dirtyDate.
  pose proof (day_number_bounds y m d Hv Hy) as B.
  assert (E : dirtyDate = Some timestamp).
  { unfold dirtyDate, Date_of_value. rewrite truncate_integer.
    apply TimeClip_in_range. unfold timestamp, msPerDay, maxTime. lia. }
  rewrite E.
  destruct (civil_roundtrip y m d 0 Hv ltac:(unfold msPerDay; lia))
    as (HY & HM & HD).
  replace (day_number y m d * msPerDay + 0) with timestamp in * by (unfold timestamp; lia).
  unfold getUTCFullYear, getUTCMonth, getUTCDate, getUTCHours, getUTCMinutes,
    getUTCSeconds, getUTCMilliseconds, option_map.
  rewrite HY, HM, HD.
  replace ((timestamp / msPerHour) mod 24) with 0
    by (unfold timestamp, msPerHour, msPerDay; Z.to_euclidean_division_equations; lia).
  replace ((timestamp / msPerMinute) mod 60) with 0
    by (unfold timestamp, msPerMinute, msPerDay; Z.to_euclidean_division_equations; lia).
  replace ((timestamp / msPerSecond) mod 60) with 0
    by (unfold timestamp, msPerSecond, msPerDay; Z.to_euclidean_division_equations; lia).
  replace (timestamp mod msPerSecond) with 0
    by (unfold timestamp, msPerSecond, msPerDay; Z.to_euclidean_division_equations; lia).
  unfold setFullYear, bindN.
  destruct Hv as [Hm Hd].
  rewrite MakeDay_in_year by lia.
  fold (day_number y m d) in *.
  replace (DayFromYear y + month_start (InLeapYear y) (m - 1) + d - 1)
    with (day_number y m d) by (unfold day_number; lia).
  pose proof (time_parts (LocalTime tz 0)) as [_ Hr].
  unfold UTC, MakeDate.
  rewrite TimeClip_in_range
    by (unfold LocalTime, msPerDay, maxTime in *; lia).
  unfold setHours, bindN.
  unfold LocalTime at 1.
  replace (day_number y m d * msPerDay + TimeWithinDay (LocalTime tz 0) - tz + tz)
    with (day_number y m d * msPerDay + TimeWithinDay (LocalTime tz 0)) by lia.
  rewrite Day_of_parts by exact Hr.
  unfold UTC, MakeDate, MakeTime.
  rewrite TimeClip_in_range by (unfold msPerDay, maxTime, msPerHour, msPerMinute,
                                   msPerSecond in *; lia).
  f_equal. unfold timestamp, msPerHour, msPerMinute, msPerSecond. lia.
Qed.

(** [format(date, 'yyyy-MM-dd')] writes the text of the local day, from
    year 1 on. *)
Lemma format_date_text (tz tv : Z) :
  1 <= YearFromDay (Day (LocalTime tz tv)) ->
  DateFns.format_yyyy_MM_dd tz (Some tv) = Ok (date_text (Day (LocalTime tz tv))).
Proof.
  intros Hy. unfold DateFns.format_yyyy_MM_dd.
  set (t := LocalTime tz tv) in *.
  pose proof (date_of_time_valid t) as [Hm Hd].
  pose proof (MonthFromTime_range t) as Hr.
  assert (E : Day (Day t * msPerDay) = Day t)
    by (rewrite <- (Z.add_0_r (Day t * msPerDay));
        apply Day_of_parts; unfold msPerDay; lia).
  assert (EM : MonthFromTime (Day t * msPerDay) = MonthFromTime t)
    by (unfold MonthFromTime, DayWithinYear, YearFromTime; rewrite E; reflexivity).
  assert (ED : DateFromTime (Day t * msPerDay) = DateFromTime t)
    by (unfold DateFromTime; rewrite EM;
        unfold DayWithinYear, YearFromTime; rewrite E; reflexivity).
  unfold date_text, iso_text. rewrite EM, ED.
  unfold YearFromTime in *.
  replace (YearFromDay (Day t) >? 0) with true by (symmetry; apply Z.gtb_lt; lia).
  unfold DateFns.addLeadingZeros.
  replace (YearFromDay (Day t) <? 0) with false by (symmetry; apply Z.ltb_ge; lia).
  replace (MonthFromTime t + 1 <? 0) with false by (symmetry; apply Z.ltb_ge; lia).
  replace (DateFromTime t <? 0) with false by (symmetry; apply Z.ltb_ge; lia).
  rewrite !Z.abs_eq by lia. reflexivity.
Qed.

Lemma date_text_of_date (y m d : Z) :
  valid_date y m d -> date_text (day_number y m d) = iso_text y m d.
Proof.
  intros Hv.
  destruct (civil_roundtrip y m d 0 Hv ltac:(unfold msPerDay; lia)) as (HY & HM & HD).
  rewrite Z.add_0_r in *.
  unfold date_text. rewrite HM, HD.
  unfold YearFromTime in HY.
  rewrite <- (Z.add_0_r (day_number y m d * msPerDay)) in HY.
  rewrite Day_of_parts in HY by (unfold msPerDay; lia).
  rewrite HY. f_equal. f_equal. lia.
Qed.

(** ** Texts made of digits *)

Lemma digit_neq (a k : ascii) :
  is_digit a = true -> is_digit k = false ->
  Ascii.eqb a k = false /\ Ascii.eqb k a = false.
Proof.
  intros Ha Hk.
  assert (a <> k) by (intros ->; rewrite Ha in Hk; discriminate).
  split; apply Ascii.eqb_neq; congruence.
Qed.

Ltac digit_tests :=
  repeat match goal with
         | Ha : is_digit ?a = true |- context [is_digit ?a] => rewrite Ha
         | Ha : is_digit ?a = true |- context [Ascii.eqb ?a ?k] =>
             rewrite (proj1 (digit_neq a k Ha eq_refl))
         | Ha : is_digit ?a = true |- context [Ascii.eqb ?k ?a] =>
             rewrite (proj2 (digit_neq a k Ha eq_refl))
         end.

Lemma trimStart_digit (a : ascii) (r : string) :
  is_digit a = true -> trimStart (String a r) = String a r.
Proof.
  intros H. digit_enum H; destruct r as [|c2 [|c3 r3]]; reflexivity.
Qed.

Lemma parseInt_digit_first (a : ascii) (r : string) :
  is_digit a = true -> parseInt (String a r) = unsigned_digits (String a r).
Proof.
  intros H. unfold parseInt. rewrite trimStart_digit by exact H.
  digit_enum H; reflexivity.
Qed.

Lemma parseInt_4digits (a b c d : ascii) :
  is_digit a = true -> is_digit b = true -> is_digit c = true -> is_digit d = true ->
  parseInt (String a (String b (String c (String d EmptyString)))) =
  Some (value4 a b c d).
Proof.
  intros Ha Hb Hc Hd. rewrite parseInt_digit_first by exact Ha.
  unfold unsigned_digits. cbn [digits_acc]. rewrite Ha, Hb, Hc, Hd.
  f_equal. unfold value4. lia.
Qed.

(** A character class that holds no digit rejects every digit. *)
Lemma class_on_digit (p : ascii -> bool) (a : ascii) :
  forallb (fun c => negb (p c)) ten_digits = true ->
  is_digit a = true -> p a = false.
Proof.
  intros Hp Ha. rewrite forallb_forall in Hp.
  apply negb_true_iff. apply Hp. exact (digit_cases a Ha).
Qed.

Lemma append_empty_r (s : string) : s ++ EmptyString = s.
Proof. induction s as [|c s IH]; cbn; [reflexivity|now rewrite IH]. Qed.

Lemma append_assoc (s t u : string) : (s ++ t) ++ u = s ++ (t ++ u).
Proof. induction s as [|c s IH]; cbn; [reflexivity|now rewrite IH]. Qed.

Lemma split_class_acc_whole (p : ascii -> bool) (cur s : string) :
  test_class p s = false -> split_class_acc p cur s = [cur ++ s].
Proof.
  revert cur. induction s as [|c s IH]; intros cur H; cbn in *.
  - now rewrite append_empty_r.
  - apply orb_false_iff in H. destruct H as [Hc Hs]. rewrite Hc.
    rewrite IH by exact Hs. f_equal.
    rewrite append_assoc. reflexivity.
Qed.

Lemma split_class_whole (p : ascii -> bool) (s : string) :
  test_class p s = false -> split_class p s = [s].
Proof. intros H. unfold split_class. now rewrite split_class_acc_whole. Qed.

Ltac class_tests :=
  repeat match goal with
         | Ha : is_digit ?a = true |- context [is_digit ?a] => rewrite Ha
         | Ha : is_digit ?a = true |- context [DateFns.dateTimeDelimiter ?a] =>
             rewrite (class_on_digit DateFns.dateTimeDelimiter a eq_refl Ha)
         | Ha : is_digit ?a = true |- context [DateFns.timeZoneDelimiter ?a] =>
             rewrite (class_on_digit DateFns.timeZoneDelimiter a eq_refl Ha)
         | Ha : is_digit ?a = true |- context [Ascii.eqb ?a ?k] =>
             rewrite (proj1 (digit_neq a k Ha eq_refl))
         | Ha : is_digit ?a = true |- context [Ascii.eqb ?k ?a] =>
             rewrite (proj2 (digit_neq a k Ha eq_refl))
         end.

Ltac closed_tests :=
  repeat match goal with
         | |- context [is_digit ?k] =>
             let v := eval vm_compute in (is_digit k) in
             match v with
             | true => change (is_digit k) with true
             | false => change (is_digit k) with false
             end
         | |- context [Ascii.eqb ?x ?y] =>
             let v := eval vm_compute in (Ascii.eqb x y) in
             match v with
             | true => change (Ascii.eqb x y) with true
             | false => change (Ascii.eqb x y) with false
             end
         end.

Ltac run_regex :=
  repeat (cbn [rx times star_cls star_dot existsb orb andb];
          progress (class_tests; closed_tests)).

Section IsoText.

Variables a b c d e f g i : ascii.
Hypothesis Ha : is_digit a = true.
Hypothesis Hb : is_digit b = true.
Hypothesis Hc : is_digit c = true.
Hypothesis Hd : is_digit d = true.
Hypothesis He : is_digit e = true.
Hypothesis Hf : is_digit f = true.
Hypothesis Hg : is_digit g = true.
Hypothesis Hi : is_digit i = true.

Let tail : string :=
  String "-" (String e (String f (String "-" (String g (String i EmptyString))))).
Let text : string := String a (String b (String c (String d tail))).

Lemma splitDateString_iso :
  DateFns.splitDateString text =
  {| DateFns.ds_date := Some text; DateFns.ds_time := None;
     DateFns.ds_timezone := None |}.
Proof.
  assert (H1 : test_class DateFns.dateTimeDelimiter text = false)
    by (unfold text, tail; cbn [test_class]; class_tests; reflexivity).
  assert (H2 : test_class (Ascii.eqb ":") text = false)
    by (unfold text, tail; cbn [test_class]; class_tests; reflexivity).
  assert (H3 : test_class DateFns.timeZoneDelimiter text = false)
    by (unfold text, tail; cbn [test_class]; class_tests; reflexivity).
  unfold DateFns.splitDateString.
  rewrite (split_class_whole _ _ H1). cbn [List.length Nat.ltb Nat.leb nth].
  rewrite H2, H3. reflexivity.
Qed.

Lemma parseYear_iso :
  DateFns.parseYear text = (Some (value4 a b c d), tail).
Proof.
  unfold DateFns.parseYear, match_start, DateFns.re_year, digit, text, tail.
  run_regex.
  cbn [group Nat.eqb consumed String.length Nat.sub take drop].
  rewrite parseInt_4digits by assumption. reflexivity.
Qed.

Lemma parseDate_iso (year : Number) :
  DateFns.parseDate tail year =
  if DateFns.validateDate year (value2 e f - 1) (value2 g i)
     && DateFns.validateDayOfYearDate year 1
  then setUTCFullYear (Some 0) year (Some (value2 e f - 1))
         (Some (Z.max 1 (value2 g i)))
  else None.
Proof.
  unfold DateFns.parseDate, match_start, DateFns.re_date, digit, chr, tail.
  run_regex.
  cbn [group Nat.eqb consumed String.length Nat.sub take drop truthy
       DateFns.parseDateUnit].
  rewrite !parseInt_2digits by assumption. fold (value2 e f) (value2 g i).
  cbn [negb].
  destruct (DateFns.validateDate year (value2 e f - 1) (value2 g i));
    destruct (DateFns.validateDayOfYearDate year 1); reflexivity.
Qed.

End IsoText.

Lemma isLeapYearIndex_leap (y : Z) :
  0 <= y ->
  DateFns.isLeapYearIndex (Some y) = (InLeapYear y =? 1).
Proof.
  intros Hy. unfold DateFns.isLeapYearIndex, InLeapYear, DaysInYear.
  rewrite !Z.rem_mod_nonneg by lia.
  assert (M1 : y mod 100 = 0 -> y mod 4 = 0).
  { intros H. rewrite <- (Z.mod_mod_divide y 100 4) by (exists 25; lia).
    now rewrite H. }
  assert (M2 : y mod 400 = 0 -> y mod 100 = 0).
  { intros H. rewrite <- (Z.mod_mod_divide y 400 100) by (exists 4; lia).
    now rewrite H. }
  destruct (Z.eqb_spec (y mod 4) 0) as [E4|E4];
    destruct (Z.eqb_spec (y mod 100) 0) as [E100|E100];
    destruct (Z.eqb_spec (y mod 400) 0) as [E400|E400];
    cbn; try reflexivity; exfalso; tauto.
Qed.

Lemma validateDate_valid (y m d : Z) :
  valid_date y m d -> 0 <= y ->
  DateFns.validateDate (Some y) (m - 1) d = true.
Proof.
  intros [Hm Hd] Hy. unfold DateFns.validateDate.
  rewrite isLeapYearIndex_leap by exact Hy.
  pose proof (InLeapYear_range y) as HL.
  unfold days_in_month in Hd.
  assert (Hc : m = 1 \/ m = 2 \/ m = 3 \/ m = 4 \/ m = 5 \/ m = 6 \/ m = 7 \/
               m = 8 \/ m = 9 \/ m = 10 \/ m = 11 \/ m = 12) by lia.
  repeat destruct Hc as [Hc|Hc]; subst m; cbn [Z.eqb Pos.eqb orb] in Hd;
    match goal with
    | |- context [DateFns.daysInMonths ?x] =>
        let v := eval vm_compute in (DateFns.daysInMonths x) in
        change (DateFns.daysInMonths x) with v
    end;
    cbv iota;
    try destruct (Z.eqb_spec (InLeapYear y) 1);
    repeat (apply andb_true_intro; split); apply Z.leb_le; lia.
Qed.

Lemma validateDayOfYearDate_first (year : Number) :
  DateFns.validateDayOfYearDate year 1 = true.
Proof.
  unfold DateFns.validateDayOfYearDate.
  destruct (DateFns.isLeapYearIndex year); reflexivity.
Qed.

Lemma setUTCFullYear_valid (y m d : Z) :
  valid_date y m d -> -200000 <= y <= 200000 ->
  setUTCFullYear (Some 0) (Some y) (Some (m - 1)) (Some d) =
  Some (day_number y m d * msPerDay).
Proof.
  intros Hv Hy. pose proof (day_number_bounds y m d Hv Hy) as B.
  destruct Hv as [Hm Hd].
  unfold setUTCFullYear, bindN. rewrite MakeDay_in_year by lia.
  unfold MakeDate. change (TimeWithinDay 0) with 0.
  rewrite TimeClip_in_range.
  - f_equal. unfold day_number. lia.
  - unfold day_number, msPerDay, maxTime in *. lia.
Qed.

Section IsoDate.

Variables a b c d e f g i : ascii.
Hypothesis Ha : is_digit a = true.
Hypothesis Hb : is_digit b = true.
Hypothesis Hc : is_digit c = true.
Hypothesis Hd : is_digit d = true.
Hypothesis He : is_digit e = true.
Hypothesis Hf : is_digit f = true.
Hypothesis Hg : is_digit g = true.
Hypothesis Hi : is_digit i = true.

Let text : string :=
  String a (String b (String c (String d
    (String "-" (String e (String f (String "-" (String g (String i EmptyString))))))))).
Let year : Z := value4 a b c d.
Let month : Z := value2 e f.
Let day : Z := value2 g i.

(** [parseISO] on a calendar date YYYY-MM-DD: the local midnight of that
    date. *)
Lemma parseISO_calendar_date (tz : Z) :
  valid_date year month day -> - msPerDay <= tz <= msPerDay ->
  DateFns.parseISO tz text = Some (day_number year month day * msPerDay - tz).
Proof.
  intros Hv Htz.
  assert (Hy : 0 <= year <= 9999).
  { unfold year, value4.
    pose proof (digit_val_range a Ha). pose proof (digit_val_range b Hb).
    pose proof (digit_val_range c Hc). pose proof (digit_val_range d Hd). lia. }
  unfold DateFns.parseISO, text.
  rewrite (splitDateString_iso a b c d e f g i Ha Hb Hc Hd He Hf Hg Hi).
  cbn [DateFns.ds_date DateFns.ds_time DateFns.ds_timezone truthy nonempty].
  rewrite (parseYear_iso a b c d e f g i Ha Hb Hc Hd).
  rewrite (parseDate_iso e f g i He Hf Hg Hi).
  fold year month day.
  rewrite (validateDate_valid year month day Hv) by lia.
  rewrite validateDayOfYearDate_first. cbn [andb].
  replace (Z.max 1 day) with day by (destruct Hv; lia).
  rewrite setUTCFullYear_valid by (try exact Hv; lia).
  exact (local_midnight tz year month day Hv ltac:(lia) Htz).
Qed.

End IsoDate.

(** The texts of small numbers, digit by digit. *)
Lemma four_digit_text (y : Z) :
  0 <= y <= 9999 ->
  exists a b c d,
    padStart 4 "0" (toString y) =
    String a (String b (String c (String d EmptyString))) /\
    is_digit a = true /\ is_digit b = true /\ is_digit c = true /\
    is_digit d = true /\ value4 a b c d = y.
Proof.
  intros H.
  pose (check := fun y =>
    match padStart 4 "0" (toString y) with
    | String a (String b (String c (String d EmptyString))) =>
        is_digit a && is_digit b && is_digit c && is_digit d
        && (value4 a b c d =? y)
    | _ => false
    end).
  assert (E : check y = true).
  { apply (forall_upto 10000 check); [vm_compute; reflexivity|lia]. }
  unfold check in E.
  destruct (padStart 4 "0" (toString y)) as [|a [|b [|c [|d [|]]]]];
    try discriminate E.
  apply andb_true_iff in E as [E E5]. apply andb_true_iff in E as [E E4].
  apply andb_true_iff in E as [E E3]. apply andb_true_iff in E as [E1 E2].
  exists a, b, c, d. repeat split; auto. now apply Z.eqb_eq.
Qed.

Lemma two_digit_text (n : Z) :
  0 <= n <= 99 ->
  exists a b,
    padStart 2 "0" (toString n) = String a (String b EmptyString) /\
    is_digit a = true /\ is_digit b = true /\ value2 a b = n.
Proof.
  intros H.
  pose (check := fun n =>
    match padStart 2 "0" (toString n) with
    | String a (String b EmptyString) =>
        is_digit a && is_digit b && (value2 a b =? n)
    | _ => false
    end).
  assert (E : check n = true).
  { apply (forall_upto 100 check); [vm_compute; reflexivity|lia]. }
  unfold check in E.
  destruct (padStart 2 "0" (toString n)) as [|a [|b [|]]]; try discriminate E.
  apply andb_true_iff in E as [E E3]. apply andb_true_iff in E as [E1 E2].
  exists a, b. repeat split; auto. now apply Z.eqb_eq.
Qed.

Lemma days_in_month_le (y m : Z) : days_in_month y m <= 31.
Proof.
  unfold days_in_month. pose proof (InLeapYear_range y).
  destruct (m =? 2); [lia|]. destruct (_ || _); lia.
Qed.

(** A text that starts with a digit is none of the four words, so
    [parseDate] goes on to [parseISO] and then to the day/month form. *)
Lemma parseDate_digit_first (h : Host) (a : ascii) (r : string) :
  is_digit a = true ->
  parseDate h (Some (String a r)) =
  let dateStr := String a r in
  let parsed := DateFns.parseISO (tz h) dateStr in
  if DateFns.isValid parsed then DateFns.format_yyyy_MM_dd (tz h) parsed
  else
    let parts := split "/" dateStr in
    let invalid := Throw (JsError (invalid_date_message dateStr)) in
    if (2 <=? List.length parts)%nat then
      let day := parseInt (nth 0 parts EmptyString) in
      let month := num_sub (parseInt (nth 1 parts EmptyString)) 1 in
      let year := if truthy (nth_error parts 2)
                  then parseInt (text_of (nth_error parts 2))
                  else getFullYear (tz h) (Some (now h)) in
      let date := Date_of_ymd (tz h) year month day in
      if DateFns.isValid date then DateFns.format_yyyy_MM_dd (tz h) date
      else invalid
    else invalid.
Proof.
  intros Ha. unfold parseDate, is_text, manana_tilde.
  cbn [truthy nonempty negb orb String.eqb append]. class_tests.
  reflexivity.
Qed.

Lemma format_local_midnight (tz n : Z) :
  1 <= YearFromDay n ->
  DateFns.format_yyyy_MM_dd tz (Some (n * msPerDay - tz)) = Ok (date_text n).
Proof.
  intros Hy.
  assert (E : Day (LocalTime tz (n * msPerDay - tz)) = n).
  { unfold LocalTime.
    replace (n * msPerDay - tz + tz) with (n * msPerDay + 0) by lia.
    apply Day_of_parts. unfold msPerDay. lia. }
  rewrite format_date_text; rewrite E; [reflexivity|exact Hy].
Qed.

Lemma YearFromDay_day_number (y m d : Z) :
  valid_date y m d -> YearFromDay (day_number y m d) = y.
Proof.
  intros Hv.
  destruct (civil_roundtrip y m d 0 Hv ltac:(unfold msPerDay; lia)) as (HY & _).
  unfold YearFromTime in HY. cbv zeta in HY.
  now rewrite Day_of_parts in HY by (unfold msPerDay; lia).
Qed.

(** Rule 3 of [parseDate]: an ISO calendar date of the years 1 to 9999
    comes back unchanged. *)
Lemma parseDate_iso_date (h : Host) (y m d : Z) :
  valid_date y m d -> 1 <= y <= 9999 -> - msPerDay <= tz h <= msPerDay ->
  parseDate h (Some (iso_text y m d)) = Ok (iso_text y m d).
Proof.
  intros Hv Hy Htz. pose proof (days_in_month_le y m) as Hle.
  destruct (four_digit_text y ltac:(lia)) as (a & b & c & d' & Ey & Ha & Hb & Hc & Hd & Vy).
  destruct (two_digit_text m ltac:(destruct Hv; lia)) as (e & f & Em & He & Hf & Vm).
  destruct (two_digit_text d ltac:(destruct Hv; lia)) as (g & i & Ed & Hg & Hi & Vd).
  assert (Et : iso_text y m d =
               String a (String b (String c (String d'
                 (String "-" (String e (String f (String "-"
                   (String g (String i EmptyString)))))))))).
  { unfold iso_text. rewrite Ey, Em, Ed. reflexivity. }
  rewrite <- Vy, <- Vm, <- Vd in Hv.
  pose proof (parseISO_calendar_date a b c d' e f g i Ha Hb Hc Hd He Hf Hg Hi
                (tz h) Hv Htz) as P.
  rewrite Vy, Vm, Vd in P, Hv.
  rewrite <- (date_text_of_date y m d Hv) at 2.
  rewrite Et, parseDate_digit_first by exact Ha.
  cbv zeta. rewrite P. cbn [DateFns.isValid].
  apply format_local_midnight.
  rewrite YearFromDay_day_number by exact Hv. lia.
Qed.

(** ** Day and month, day first *)

Ltac invert_digits :=
  repeat match goal with
         | H : OneOrTwoDigits _ _ |- _ => inversion H; subst; clear H
         | H : FourDigits _ _ |- _ => inversion H; subst; clear H
         end.

Lemma parseISO_rejects_day_month (tz : Z) (s : string) (d m : Z) (y : option Z) :
  DayMonth s d m y -> DateFns.parseISO tz s = None.
Proof.
  intros H. inversion H; subst; clear H; invert_digits; cbn [append].
  all: match goal with
       | |- DateFns.parseISO _ ?t = None =>
           assert (Hdt : test_class DateFns.dateTimeDelimiter t = false)
             by (cbn [test_class]; class_tests; closed_tests; reflexivity);
           assert (Hcolon : test_class (Ascii.eqb ":") t = false)
             by (cbn [test_class]; class_tests; closed_tests; reflexivity);
           assert (Hzone : test_class DateFns.timeZoneDelimiter t = false)
             by (cbn [test_class]; class_tests; closed_tests; reflexivity)
       end.
  all: unfold DateFns.parseISO, DateFns.splitDateString;
       rewrite (split_class_whole _ _ Hdt); cbn [List.length Nat.ltb Nat.leb nth];
       rewrite Hcolon, Hzone;
       cbn [nth_error truthy DateFns.ds_date DateFns.ds_time DateFns.ds_timezone
            nonempty].
  all: unfold DateFns.parseYear, match_start, DateFns.re_year, digit, DateFns.sign,
         one_of; run_regex; cbn [rx]; closed_tests; cbv iota.
  all: reflexivity.
Qed.

Ltac run_split :=
  unfold split;
  repeat (cbn [split_acc append]; progress (class_tests; closed_tests));
  cbn [split_acc append].

(** Rule 4 of [parseDate]: day and month, day first, with the year given
    in four digits or taken from the clock; for a date that exists and a
    year from 100 to 9999 the result is the text of that date. *)
Lemma parseDate_day_month (h : Host) (s : string) (d m : Z) (oy : option Z) :
  DayMonth s d m oy ->
  let y := match oy with
           | Some y => y
           | None => YearFromDay (local_day h)
           end in
  valid_date y m d -> 100 <= y <= 9999 -> - msPerDay <= tz h <= msPerDay ->
  parseDate h (Some s) = Ok (iso_text y m d).
Proof.
  intros H y Hv Hy Htz.
  pose proof (parseISO_rejects_day_month (tz h) s d m oy H) as P.
  assert (F : parseDate h (Some s) =
              DateFns.format_yyyy_MM_dd (tz h)
                (Date_of_ymd (tz h) (Some y) (Some (m - 1)) (Some d))).
  { rewrite Date_of_ymd_valid by (try exact Hv; lia).
    inversion H; subst; clear H; invert_digits; cbn [append] in P |- *;
      rewrite parseDate_digit_first by assumption; cbv zeta; rewrite P;
      cbn [DateFns.isValid]; run_split;
      cbn [List.length Nat.leb nth nth_error truthy nonempty text_of];
      rewrite ?parseInt_1digit, ?parseInt_2digits, ?parseInt_4digits by assumption;
      cbn [num_sub option_map getFullYear];
      fold (local_day h) in *; unfold YearFromTime; fold (local_day h);
      fold y; rewrite Date_of_ymd_valid by (try exact Hv; lia);
      reflexivity. }
  rewrite F, Date_of_ymd_valid by (try exact Hv; lia).
  rewrite format_local_midnight.
  - f_equal. now apply date_text_of_date.
  - rewrite YearFromDay_day_number by exact Hv. lia.
Qed.

(** ** The clock *)

Lemma local_day_bounds (h : Host) :
  1 <= YearFromDay (local_day h) <= 9998 ->
  -719162 <= local_day h <= 2932531.
Proof.
  intros [Hlo Hhi]. pose proof (YearFromDay_spec (local_day h)) as S.
  pose proof (DayFromYear_mono 1 (YearFromDay (local_day h)) Hlo) as M1.
  pose proof (DayFromYear_mono (YearFromDay (local_day h) + 1) 9999 ltac:(lia)) as M2.
  change (DayFromYear 1) with (-719162) in M1.
  change (DayFromYear 9999) with 2932532 in M2. lia.
Qed.

(** [d.setDate(d.getDate() + n)] moves a date by [n] whole days. *)
Lemma setDate_days (tz t n : Z) :
  -200000 <= YearFromDay (Day (LocalTime tz t)) <= 200000 ->
  Z.abs (t + n * msPerDay) <= maxTime ->
  setDate tz (Some t) (option_map (fun d => d + n) (getDate tz (Some t))) =
  Some (t + n * msPerDay).
Proof.
  intros Hy Hr. unfold setDate, getDate, option_map, bindN.
  set (l := LocalTime tz t) in *.
  rewrite MakeDay_in_year by (try apply MonthFromTime_range; exact Hy).
  pose proof (day_number_of_time l) as E. unfold day_number in E.
  replace (MonthFromTime l + 1 - 1) with (MonthFromTime l) in E by lia.
  replace (DayFromYear (YearFromTime l)
           + month_start (InLeapYear (YearFromTime l)) (MonthFromTime l)
           + (DateFromTime l + n) - 1) with (Day l + n) by lia.
  pose proof (time_parts l) as [Hl _].
  unfold UTC, MakeDate.
  replace ((Day l + n) * msPerDay + TimeWithinDay l - tz) with (t + n * msPerDay)
    by (unfold l, LocalTime in *; lia).
  now apply TimeClip_in_range.
Qed.

Lemma addDays_days (tz t n : Z) :
  -200000 <= YearFromDay (Day (LocalTime tz t)) <= 200000 ->
  Z.abs (t + n * msPerDay) <= maxTime ->
  DateFns.addDays tz (Some t) (Some n) = Some (t + n * msPerDay).
Proof.
  intros Hy Hr. unfold DateFns.addDays.
  destruct (Z.eqb_spec n 0) as [->|Hn].
  - f_equal. lia.
  - now apply setDate_days.
Qed.

Lemma Day_shift (t n : Z) : Day (t + n * msPerDay) = Day t + n.
Proof.
  unfold Day, msPerDay. Z.to_euclidean_division_equations. lia.
Qed.

(** A clock of the common era: the local year is from 1 to 9998 (so that
    tomorrow is no later than 9999) and local time is within a day of
    UTC. *)
Lemma format_days_ahead (h : Host) (n : Z) :
  1 <= YearFromDay (local_day h) <= 9998 -> - msPerDay <= tz h <= msPerDay ->
  -700000 <= n <= 700000 -> 1 <= YearFromDay (local_day h + n) ->
  DateFns.format_yyyy_MM_dd (tz h)
    (DateFns.addDays (tz h) (Some (now h)) (Some n)) =
  Ok (date_text (local_day h + n)).
Proof.
  intros Hy Htz Hn Hy'. pose proof (local_day_bounds h Hy) as B.
  pose proof (time_parts (LocalTime (tz h) (now h))) as [E R].
  fold (local_day h) in E.
  rewrite addDays_days.
  - rewrite format_date_text; unfold LocalTime in *;
      replace (now h + n * msPerDay + tz h) with (now h + tz h + n * msPerDay) by lia;
      rewrite Day_shift; fold (LocalTime (tz h) (now h)); fold (local_day h);
      [reflexivity|exact Hy'].
  - fold (local_day h). lia.
  - unfold LocalTime, msPerDay, maxTime in *. lia.
Qed.

(** ** The rules of [parseDate] (C5) *)

Lemma iso_text_shape (y m d : Z) :
  valid_date y m d -> 0 <= y <= 9999 -> is_yyyy_mm_dd (iso_text y m d) = true.
Proof.
  intros Hv Hy. pose proof (days_in_month_le y m) as Hle.
  destruct (four_digit_text y Hy) as (a & b & c & d' & Ey & Ha & Hb & Hc & Hd & _).
  destruct (two_digit_text m ltac:(destruct Hv; lia)) as (e & f & Em & He & Hf & _).
  destruct (two_digit_text d ltac:(destruct Hv; lia)) as (g & i & Ed & Hg & Hi & _).
  unfold iso_text. rewrite Ey, Em, Ed. cbn [append is_yyyy_mm_dd].
  now rewrite Ha, Hb, Hc, Hd, He, Hf, Hg, Hi.
Qed.

Lemma date_text_shape (n : Z) :
  1 <= YearFromDay n <= 9999 -> is_yyyy_mm_dd (date_text n) = true.
Proof.
  intros Hy. unfold date_text.
  pose proof (date_of_time_valid (n * msPerDay)) as Hv.
  assert (E : YearFromTime (n * msPerDay) = YearFromDay n).
  { unfold YearFromTime. rewrite <- (Z.add_0_r (n * msPerDay)).
    rewrite Day_of_parts by (unfold msPerDay; lia). reflexivity. }
  rewrite E in Hv. apply iso_text_shape; [exact Hv|lia].
Qed.

Lemma tomorrow_year (h : Host) :
  1 <= YearFromDay (local_day h) <= 9998 ->
  1 <= YearFromDay (local_day h + 1) <= 9999.
Proof.
  intros Hy. pose proof (local_day_bounds h Hy) as B. split.
  - pose proof (YearFromDay_mono (local_day h) (local_day h + 1) ltac:(lia)). lia.
  - pose proof (YearFromDay_mono (local_day h + 1) 2932532 ltac:(lia)) as M.
    change (YearFromDay 2932532) with 9999 in M. exact M.
Qed.

Ltac decide_condition :=
  match goal with
  | |- (if ?c then _ else _) = _ =>
      let v := eval vm_compute in c in change c with v; cbv iota
  end.

Lemma parseDate_today (h : Host) (dateStr : option string) :
  1 <= YearFromDay (local_day h) ->
  truthy dateStr = false \/ dateStr = Some "hoy" \/ dateStr = Some "today" ->
  parseDate h dateStr = Ok (date_text (local_day h)).
Proof.
  intros Hy H. unfold parseDate.
  destruct H as [H | [-> | ->]].
  - rewrite H. cbn [negb orb]. now apply format_date_text.
  - decide_condition. now apply format_date_text.
  - decide_condition. now apply format_date_text.
Qed.

Lemma parseDate_tomorrow (h : Host) (dateStr : option string) :
  clock_in_common_era h ->
  dateStr = Some manana_tilde \/ dateStr = Some "manana"
  \/ dateStr = Some "tomorrow" ->
  parseDate h dateStr = Ok (date_text (local_day h + 1)).
Proof.
  intros [Hy Htz] H. pose proof (tomorrow_year h Hy) as Ht.
  unfold parseDate.
  destruct H as [-> | [-> | ->]]; decide_condition; decide_condition;
    apply format_days_ahead; try assumption; lia.
Qed.

(** C5, as the code has it, on a clock of the common era.  In this order:
    nothing, the empty text, "hoy" and "today" give the current local
    date; the two spellings of the Spanish word and "tomorrow" give the
    day after; an ISO calendar date YYYY-MM-DD of the years 0001 to 9999
    gives that date; D/M and D/M/Y, day first, the year of four digits and
    at least 100 or else the current year, give that date when it exists.
    In each of these cases the output is the zero-padded text YYYY-MM-DD
    of the date. *)
Theorem parseDate_rules :
  forall h : Host,
    clock_in_common_era h ->
    (forall dateStr,
        truthy dateStr = false \/ dateStr = Some "hoy" \/ dateStr = Some "today" ->
        parseDate h dateStr = Ok (date_text (local_day h))) /\
    (forall dateStr,
        dateStr = Some manana_tilde \/ dateStr = Some "manana"
        \/ dateStr = Some "tomorrow" ->
        parseDate h dateStr = Ok (date_text (local_day h + 1))) /\
    (forall y m d,
        valid_date y m d -> 1 <= y <= 9999 ->
        parseDate h (Some (iso_text y m d)) = Ok (iso_text y m d)) /\
    (forall s d m oy,
        DayMonth s d m oy ->
        let y := match oy with
                 | Some y => y
                 | None => YearFromDay (local_day h)
                 end in
        valid_date y m d -> 100 <= y <= 9999 ->
        parseDate h (Some s) = Ok (iso_text y m d)) /\
    (forall y m d,
        valid_date y m d -> 1 <= y <= 9999 ->
        is_yyyy_mm_dd (iso_text y m d) = true) /\
    is_yyyy_mm_dd (date_text (local_day h)) = true /\
    is_yyyy_mm_dd (date_text (local_day h + 1)) = true /\
    parseDate h (Some "15/3/2024") = Ok "2024-03-15" /\
    parseDate h (Some "2024-03-15") = Ok "2024-03-15".
Proof.
  intros h Hc. pose proof Hc as [Hy Htz].
  pose proof (tomorrow_year h Hy) as Ht.
  repeat match goal with |- _ /\ _ => split end.
  - intros dateStr H. apply parseDate_today; [lia|exact H].
  - intros dateStr H. now apply parseDate_tomorrow.
  - intros y m d Hv Hr. now apply parseDate_iso_date.
  - intros s d m oy H y Hv Hr. now apply (parseDate_day_month h s d m oy).
  - intros y m d Hv Hr. apply iso_text_shape; [exact Hv|lia].
  - apply date_text_shape. lia.
  - apply date_text_shape. exact Ht.
  - apply (parseDate_day_month h "15/3/2024" 15 3 (Some 2024)).
    + exact (DayMonth_year "15" "3" "2024" _ _ _
               (TwoDigits "1" "5" eq_refl eq_refl) (OneDigit "3" eq_refl)
               (FourDigits_intro "2" "0" "2" "4" eq_refl eq_refl eq_refl eq_refl)).
    + split; [lia|]. change (days_in_month 2024 3) with 31. lia.
    + lia.
    + exact Htz.
  - apply (parseDate_iso_date h 2024 3 15).
    + split; [lia|]. change (days_in_month 2024 3) with 31. lia.
    + lia.
    + exact Htz.
Qed.

(** On the example clock (2024-03-15, 11:30 local time). *)
Lemma parseDate_rules_example :
  clock_in_common_era (example_host offline) /\
  parseDate (example_host offline) None = Ok "2024-03-15" /\
  parseDate (example_host offline) (Some "tomorrow") = Ok "2024-03-16".
Proof.
  assert (Hc : clock_in_common_era (example_host offline)).
  { unfold clock_in_common_era.
    change (YearFromDay (local_day (example_host offline))) with 2024.
    change (tz (example_host offline)) with 3600000. unfold msPerDay. lia. }
  split; [exact Hc|].
  destruct (parseDate_rules (example_host offline) Hc)
    as (Htoday & Htomorrow & _).
  split.
  - exact (Htoday None (or_introl eq_refl)).
  - exact (Htomorrow (Some "tomorrow") (or_intror (or_intror eq_refl))).
Defined.

(** C5 as stated fails.  A year past 9999 is written with five digits, so
    the output is not always of the shape YYYY-MM-DD; and [format] writes
    the year of the era, so the ISO date of the year 0000 is given the
    year 0001. *)
Lemma parseDate_is_not_always_that_date :
  parseDate (example_host offline) (Some "1/1/10000") = Ok "10000-01-01" /\
  is_yyyy_mm_dd "10000-01-01" = false /\
  parseDate (example_host offline) (Some "0000-01-01") = Ok "0001-01-01" /\
  iso_text 0 1 1 = "0000-01-01".
Proof. repeat split; vm_compute; reflexivity. Qed.

(** A year written with fewer than three significant digits in D/M/Y is
    not the year of the result either: [new Date(year, month, day)] moves
    the years 0 to 99 to the twentieth century. *)
Lemma parseDate_two_digit_year_examples :
  parseDate (example_host offline) (Some "15/3/24") = Ok "1924-03-15" /\
  iso_text 24 3 15 = "0024-03-15" /\
  parseDate (example_host offline) (Some "1/1/99") = Ok "1999-01-01" /\
  parseDate (example_host offline) (Some "15/3/0099") = Ok "1999-03-15".
Proof. repeat split; vm_compute; reflexivity. Qed.

(** ** Rejected dates (C6) *)

Lemma no_digit_app (s t : string) :
  no_digit (s ++ t) = no_digit s && no_digit t.
Proof.
  induction s as [|c s IH]; cbn [append no_digit]; [reflexivity|].
  now rewrite IH, andb_assoc.
Qed.

Lemma split_class_acc_no_digit (p : ascii -> bool) (s cur : string) :
  no_digit cur = true -> no_digit s = true ->
  Forall (fun x => no_digit x = true) (split_class_acc p cur s).
Proof.
  revert cur. induction s as [|c s IH]; intros cur Hcur Hs; cbn [split_class_acc].
  - constructor; [exact Hcur|constructor].
  - cbn [no_digit] in Hs. apply andb_prop in Hs as [Hc Hs].
    destruct (p c).
    + constructor; [exact Hcur|]. now apply IH.
    + apply IH; [|exact Hs].
      rewrite no_digit_app, Hcur. cbn [no_digit]. now rewrite Hc.
Qed.

Lemma split_acc_as_class (sep : ascii) (s cur : string) :
  split_acc sep cur s = split_class_acc (fun c => Ascii.eqb c sep) cur s.
Proof.
  revert cur. induction s as [|c s IH]; intros cur; cbn [split_acc split_class_acc].
  - reflexivity.
  - destruct (Ascii.eqb c sep); now rewrite IH.
Qed.

Lemma first_part_no_digit (l : list string) :
  Forall (fun x => no_digit x = true) l -> no_digit (nth 0 l EmptyString) = true.
Proof. intros [|x l' Hx _]; [reflexivity|exact Hx]. Qed.

Lemma trimStart_no_digit (s : string) :
  no_digit s = true -> no_digit (trimStart s) = true.
Proof.
  assert (G : forall n s, (String.length s <= n)%nat ->
                          no_digit s = true -> no_digit (trimStart s) = true).
  { clear s. induction n as [|n IH]; intros s Hn Hs.
    - destruct s; [reflexivity|cbn [String.length] in Hn; lia].
    - destruct s as [|c1 r1]; [reflexivity|].
      cbn [String.length] in Hn. pose proof Hs as Hs0.
      cbn [no_digit] in Hs. apply andb_prop in Hs as [_ H1].
      cbn [trimStart]. destruct (ascii_ws c1); [apply IH; [lia|exact H1]|].
      destruct r1 as [|c2 r2]; [exact Hs0|].
      cbn [String.length] in Hn.
      cbn [no_digit] in H1. apply andb_prop in H1 as [_ H2].
      destruct (ws2 c1 c2); [apply IH; [lia|exact H2]|].
      destruct r2 as [|c3 r3]; [exact Hs0|].
      cbn [String.length] in Hn.
      cbn [no_digit] in H2. apply andb_prop in H2 as [_ H3].
      destruct (ws3 c1 c2 c3); [apply IH; [lia|exact H3]|exact Hs0]. }
  apply (G (String.length s)). lia.
Qed.

Lemma unsigned_digits_no_digit (s : string) :
  no_digit s = true -> unsigned_digits s = None.
Proof.
  destruct s as [|c r]; [reflexivity|]. cbn [no_digit]. intros H.
  apply andb_prop in H as [Hc _]. apply negb_true_iff in Hc.
  unfold unsigned_digits. cbn [digits_acc]. now rewrite Hc.
Qed.

Lemma parseInt_no_digit (s : string) :
  no_digit s = true -> parseInt s = None.
Proof.
  intros H. apply trimStart_no_digit in H. unfold parseInt.
  destruct (trimStart s) as [|c r]; [reflexivity|].
  pose proof H as Hr. cbn [no_digit] in Hr. apply andb_prop in Hr as [_ Hr].
  pose proof (unsigned_digits_no_digit _ H) as E1.
  pose proof (unsigned_digits_no_digit _ Hr) as E2.
  destruct c as [[] [] [] [] [] [] [] []];
    first [exact E1 | exact E2 | cbv iota; rewrite E2; reflexivity].
Qed.

Lemma re_year_no_digit (d : string) :
  no_digit d = true -> match_start DateFns.re_year d = None.
Proof.
  intros H. unfold match_start, DateFns.re_year, DateFns.sign, one_of, digit.
  destruct d as [|c r]; [reflexivity|].
  cbn [no_digit] in H. apply andb_prop in H as [Hc Hr].
  apply negb_true_iff in Hc.
  cbn [rx times existsb orb]. rewrite Hc.
  destruct r as [|c2 r2].
  - destruct (Ascii.eqb c "+"), (Ascii.eqb c "-"); reflexivity.
  - cbn [no_digit] in Hr. apply andb_prop in Hr as [Hc2 _].
    apply negb_true_iff in Hc2. rewrite Hc2.
    destruct (Ascii.eqb c "+"), (Ascii.eqb c "-"); reflexivity.
Qed.

Lemma parseISO_no_digit (tz : Z) (s : string) :
  no_digit s = true -> DateFns.parseISO tz s = None.
Proof.
  intros H.
  assert (Hd : forall d, DateFns.ds_date (DateFns.splitDateString s) = Some d ->
                         no_digit d = true).
  { intros d. unfold DateFns.splitDateString.
    pose proof (first_part_no_digit _
      (split_class_acc_no_digit DateFns.dateTimeDelimiter s EmptyString eq_refl H))
      as H1.
    pose proof (first_part_no_digit _
      (split_class_acc_no_digit DateFns.timeZoneDelimiter s EmptyString eq_refl H))
      as H2.
    fold (split_class DateFns.dateTimeDelimiter s) in H1.
    fold (split_class DateFns.timeZoneDelimiter s) in H2.
    repeat match goal with
           | |- context [if ?c then _ else _] => destruct c
           | |- context [match ?c with Some _ => _ | None => _ end] => destruct c
           end;
      cbn [DateFns.ds_date]; intros E; inversion E; subst; assumption. }
  unfold DateFns.parseISO.
  destruct (DateFns.ds_date (DateFns.splitDateString s)) as [d|];
    [|reflexivity].
  specialize (Hd d eq_refl).
  destruct (truthy (Some d)); [|reflexivity].
  unfold DateFns.parseYear. rewrite (re_year_no_digit d Hd). reflexivity.
Qed.

Lemma Date_of_ymd_NaN (tz : Z) (year month day : Number) :
  year = None \/ month = None \/ day = None ->
  Date_of_ymd tz year month day = None.
Proof.
  unfold Date_of_ymd.
  intros [-> | [-> | ->]]; [reflexivity|destruct year; reflexivity|].
  destruct year, month; reflexivity.
Qed.

Lemma not_a_word (h : Host) (s : string) :
  s <> EmptyString -> ~ In s date_words ->
  parseDate h (Some s) =
  let parsed := DateFns.parseISO (tz h) s in
  if DateFns.isValid parsed then DateFns.format_yyyy_MM_dd (tz h) parsed
  else
    let parts := split "/" s in
    let invalid := Throw (JsError (invalid_date_message s)) in
    if (2 <=? List.length parts)%nat then
      let day := parseInt (nth 0 parts EmptyString) in
      let month := num_sub (parseInt (nth 1 parts EmptyString)) 1 in
      let year := if truthy (nth_error parts 2)
                  then parseInt (text_of (nth_error parts 2))
                  else getFullYear (tz h) (Some (now h)) in
      let date := Date_of_ymd (tz h) year month day in
      if DateFns.isValid date then DateFns.format_yyyy_MM_dd (tz h) date
      else invalid
    else invalid.
Proof.
  intros Hne Hw. unfold parseDate.
  assert (Et : truthy (Some s) = true) by (destruct s; [congruence|reflexivity]).
  assert (E : forall w, In w date_words -> is_text (Some s) w = false).
  { intros w Hin. cbn [is_text]. apply String.eqb_neq. intros ->. now apply Hw. }
  rewrite Et.
  rewrite (E "hoy") by (cbn; tauto). rewrite (E "today") by (cbn; tauto).
  rewrite (E manana_tilde) by (cbn; tauto).
  rewrite (E "manana") by (cbn; tauto). rewrite (E "tomorrow") by (cbn; tauto).
  reflexivity.
Qed.

Lemma format_never_throws (tz : Z) (d : Date) :
  DateFns.isValid d = true -> exists t, DateFns.format_yyyy_MM_dd tz d = Ok t.
Proof. destruct d; [intros _; eexists; reflexivity|discriminate]. Qed.

Lemma parseDate_only_error (h : Host) (s : string) (e : NativeError) :
  s <> EmptyString -> ~ In s date_words ->
  parseDate h (Some s) = Throw e -> e = JsError (invalid_date_message s).
Proof.
  intros Hne Hw. rewrite (not_a_word h s Hne Hw). cbv zeta.
  destruct (DateFns.isValid (DateFns.parseISO (tz h) s)) eqn:Ev.
  { destruct (format_never_throws (tz h) _ Ev) as [t Et]. rewrite Et. discriminate. }
  destruct (2 <=? List.length (split "/" s))%nat; [|congruence].
  match goal with
  | |- (if DateFns.isValid ?d then _ else _) = _ -> _ =>
      destruct (DateFns.isValid d) eqn:Ed;
        [destruct (format_never_throws (tz h) _ Ed) as [t Et];
         rewrite Et; discriminate|congruence]
  end.
Qed.

(** C6, as the code has it.  For a text that is not empty and not one of
    the five words: when [parseISO] of date-fns rejects it and it has no
    slash, or its day, month or (non-empty) year part does not begin with
    an integer, [parseDate] throws the error "Invalid date: ..."; so it
    does for every text without a decimal digit, such as "not-a-date"; and
    [parseDate] throws no other error on such a text. *)
Theorem parseDate_invalid :
  forall (h : Host) (s : string),
    s <> EmptyString -> ~ In s date_words ->
    (DateFns.parseISO (tz h) s = None ->
     let parts := split "/" s in
     ((List.length parts < 2)%nat \/
      parseInt (nth 0 parts EmptyString) = None \/
      parseInt (nth 1 parts EmptyString) = None \/
      (exists y, nth_error parts 2 = Some y /\ y <> EmptyString /\
                 parseInt y = None)) ->
     parseDate h (Some s) = Throw (JsError (invalid_date_message s))) /\
    (no_digit s = true ->
     parseDate h (Some s) = Throw (JsError (invalid_date_message s))) /\
    parseDate h (Some "not-a-date")
    = Throw (JsError (invalid_date_message "not-a-date")) /\
    (forall e, parseDate h (Some s) = Throw e ->
               e = JsError (invalid_date_message s)).
Proof.
  intros h s Hne Hw.
  assert (G : forall t, t <> EmptyString -> ~ In t date_words ->
     DateFns.parseISO (tz h) t = None ->
     ((List.length (split "/" t) < 2)%nat \/
      parseInt (nth 0 (split "/" t) EmptyString) = None \/
      parseInt (nth 1 (split "/" t) EmptyString) = None \/
      (exists y, nth_error (split "/" t) 2 = Some y /\ y <> EmptyString /\
                 parseInt y = None)) ->
     parseDate h (Some t) = Throw (JsError (invalid_date_message t))).
  { intros t Hne' Hw' Hiso Hparts. rewrite (not_a_word h t Hne' Hw').
    cbv zeta. rewrite Hiso. cbn [DateFns.isValid].
    destruct (2 <=? List.length (split "/" t))%nat eqn:Hlen; [|reflexivity].
    rewrite Date_of_ymd_NaN; [reflexivity|].
    destruct Hparts as [Hl|[Hd|[Hm|(y & Ey & Hy & Hp)]]].
    - apply Nat.leb_le in Hlen. lia.
    - right; right. exact Hd.
    - right; left. now rewrite Hm.
    - left. rewrite Ey. cbn [truthy text_of].
      destruct y; [congruence|]. cbn [nonempty]. exact Hp. }
  assert (N : forall t, t <> EmptyString -> ~ In t date_words ->
     no_digit t = true ->
     parseDate h (Some t) = Throw (JsError (invalid_date_message t))).
  { intros t Hne' Hw' Hn. apply G; try assumption.
    - now apply parseISO_no_digit.
    - right; left. apply parseInt_no_digit. apply first_part_no_digit.
      unfold split. rewrite split_acc_as_class.
      now apply split_class_acc_no_digit. }
  repeat match goal with |- _ /\ _ => split end.
  - intros Hiso parts Hparts. now apply G.
  - now apply N.
  - apply N; [discriminate| |reflexivity].
    cbn [date_words In]. unfold manana_tilde.
    intros [E|[E|[E|[E|[E|[]]]]]]; discriminate E.
  - intros e. now apply parseDate_only_error.
Qed.

(** At "not-a-date". *)
Lemma parseDate_invalid_example :
  parseDate (example_host offline) (Some "not-a-date")
  = Throw (JsError
      "Invalid date: not-a-date. Use YYYY-MM-DD, DD/MM or DD/MM/YYYY").
Proof.
  refine (proj1 (proj2 (parseDate_invalid (example_host offline) "not-a-date"
                         _ _)) eq_refl).
  - discriminate.
  - cbn [date_words In]. unfold manana_tilde.
    intros [E|[E|[E|[E|[E|[]]]]]]; discriminate E.
Defined.

(** C6 as stated fails: [parseISO] of date-fns accepts more than calendar
    dates.  An ordinal date, a week date, a year alone, a year and a
    month and a date with a time are none of the four rules, and each
    is resolved to a date. *)
Lemma parseDate_accepts_other_iso_forms :
  parseDate (example_host offline) (Some "2024-075") = Ok "2024-03-15" /\
  parseDate (example_host offline) (Some "2024-W10-1") = Ok "2024-03-04" /\
  parseDate (example_host offline) (Some "2024") = Ok "2024-01-01" /\
  parseDate (example_host offline) (Some "2024-03") = Ok "2024-03-01" /\
  parseDate (example_host offline) (Some "2024-03-15T10:00") = Ok "2024-03-15".
Proof. repeat split; vm_compute; reflexivity. Qed.

(** A day or a month out of range is not rejected either:
    [new Date(year, month, day)] carries the excess over to the next month
    or year, and the result is a valid date. *)
Lemma parseDate_overflow_examples :
  parseDate (example_host offline) (Some "31/2/2024") = Ok "2024-03-02" /\
  parseDate (example_host offline) (Some "32/13/2024") = Ok "2025-02-01" /\
  parseDate (example_host offline) (Some "0/0") = Ok "2023-11-30".
Proof. repeat split; vm_compute; reflexivity. Qed.

(** ** My bookings (C9) *)

Lemma existsb_eqb_In (k : string) (l : list string) :
  existsb (String.eqb k) l = true <-> In k l.
Proof.
  rewrite existsb_exists. split.
  - intros (x & Hx & E). apply String.eqb_eq in E. now subst.
  - intros H. exists k. split; [exact H|apply String.eqb_refl].
Qed.

Lemma first_occurrences_from_fresh (l seen : list string) (x : string) :
  In x (first_occurrences_from seen l) -> In x l /\ ~ In x seen.
Proof.
  revert seen. induction l as [|k rest IH]; intros seen; cbn [first_occurrences_from].
  - intros [].
  - destruct (existsb (String.eqb k) seen) eqn:E.
    + intros H. destruct (IH _ H). split; [now right|assumption].
    + intros [->|H].
      * split; [now left|]. rewrite <- existsb_eqb_In. now rewrite E.
      * destruct (IH _ H) as [Hin Hs]. split; [now right|].
        intros Hx. apply Hs. apply in_or_app. now left.
Qed.

Lemma first_occurrences_from_NoDup (l seen : list string) :
  NoDup (first_occurrences_from seen l).
Proof.
  revert seen. induction l as [|k rest IH]; intros seen; cbn [first_occurrences_from].
  - constructor.
  - destruct (existsb (String.eqb k) seen); [apply IH|].
    constructor; [|apply IH].
    intros H. apply first_occurrences_from_fresh in H as [_ H].
    apply H. apply in_or_app. right. now left.
Qed.

Lemma first_occurrences_from_complete (l seen : list string) (x : string) :
  In x l -> ~ In x seen -> In x (first_occurrences_from seen l).
Proof.
  revert seen. induction l as [|k rest IH]; intros seen; cbn [first_occurrences_from].
  - intros [].
  - intros [->|H] Hs.
    + destruct (existsb (String.eqb x) seen) eqn:E.
      * apply existsb_eqb_In in E. contradiction.
      * now left.
    + destruct (existsb (String.eqb k) seen) eqn:E; [now apply IH|].
      destruct (String.eqb_spec k x) as [->|N]; [now left|].
      right. apply IH; [exact H|].
      intros Hx. apply in_app_or in Hx as [Hx|[Hx|[]]]; [now apply Hs|congruence].
Qed.

Lemma first_occurrences_from_sorted (R : string -> string -> Prop)
  (l seen : list string) :
  StronglySorted R l -> StronglySorted R (first_occurrences_from seen l).
Proof.
  revert seen. induction l as [|k rest IH]; intros seen HS;
    cbn [first_occurrences_from].
  - constructor.
  - inversion HS as [|? ? Hrest Hall]; subst.
    destruct (existsb (String.eqb k) seen); [now apply IH|].
    constructor; [now apply IH|].
    rewrite Forall_forall in *. intros x Hx.
    apply Hall. now apply first_occurrences_from_fresh in Hx as [Hx _].
Qed.

(** One turn of the loop, when the date is already a key of the map and
    when it is not. *)
Lemma group_step_present (acc : list (string * list Booking)) (b : Booking) :
  NoDup (map fst acc) -> In (booking_date b) (map fst acc) ->
  group_step acc b =
  map (fun e => (fst e, if on_date (fst e) b then (snd e ++ [b])%list else snd e)) acc.
Proof.
  unfold group_step, on_date. cbv zeta. set (k := booking_date b).
  induction acc as [|[k' v'] rest IH]; intros Hnd Hin; [destruct Hin|].
  cbn [map fst snd] in *. inversion Hnd as [|? ? Hk' Hrest]; subst.
  cbn [map_get map_set].
  rewrite (String.eqb_sym k k').
  destruct (String.eqb_spec k' k) as [->|N].
  - cbv iota. f_equal.
    rewrite <- (map_id rest) at 1. apply map_ext_in.
    intros [k2 v2] H2. cbn [fst snd].
    destruct (String.eqb_spec k k2) as [E|]; [|reflexivity].
    exfalso. apply Hk'. apply in_map_iff. exists (k2, v2).
    split; [symmetry; exact E|exact H2].
  - cbn [map_set].
    destruct (String.eqb_spec k' k) as [|_]; [contradiction|].
    f_equal. apply IH; [exact Hrest|].
    destruct Hin as [Hin|Hin]; [congruence|exact Hin].
Qed.

Lemma group_step_absent (acc : list (string * list Booking)) (b : Booking) :
  ~ In (booking_date b) (map fst acc) ->
  group_step acc b = (acc ++ [(booking_date b, [b])])%list.
Proof.
  unfold group_step. cbv zeta. set (k := booking_date b).
  induction acc as [|[k' v'] rest IH]; intros Hin; [reflexivity|].
  cbn [map fst] in Hin. cbn [map_get map_set].
  destruct (String.eqb_spec k' k) as [E|N].
  - exfalso. apply Hin. now left.
  - assert (Hr : ~ In k (map fst rest)) by (intros H; apply Hin; now right).
    specialize (IH Hr).
    assert (G : map_get k rest = None).
    { clear -Hr. induction rest as [|[k2 v2] r IH2]; [reflexivity|].
      cbn [map_get]. cbn [map fst] in Hr.
      destruct (String.eqb_spec k2 k) as [E|_]; [exfalso; apply Hr; now left|].
      apply IH2. intros H. apply Hr. now right. }
    rewrite G in IH |- *. cbn [map_set app].
    destruct (String.eqb_spec k' k) as [|_]; [contradiction|].
    cbn [app]. f_equal. exact IH.
Qed.

(** The loop: every list of the map grows by the bookings of its date, and
    the new dates come after, in the order of their first occurrence. *)
Lemma fold_group_step (bs : list Booking) (acc : list (string * list Booking)) :
  NoDup (map fst acc) ->
  fold_left group_step bs acc =
  (map (fun e => (fst e, (snd e ++ filter (on_date (fst e)) bs)%list)) acc
   ++ map (fun k => (k, filter (on_date k) bs))
        (first_occurrences_from (map fst acc) (map booking_date bs)))%list.
Proof.
  revert acc. induction bs as [|b bs IH]; intros acc Hnd.
  - cbn [fold_left map filter first_occurrences_from]. rewrite app_nil_r.
    rewrite <- (map_id acc) at 1. apply map_ext. intros [k v]. cbn [fst snd].
    now rewrite app_nil_r.
  - cbn [fold_left map first_occurrences_from].
    destruct (existsb (String.eqb (booking_date b)) (map fst acc)) eqn:E.
    + apply existsb_eqb_In in E.
      rewrite (group_step_present acc b Hnd E).
      assert (Hk : map fst (map (fun e => (fst e,
                     if on_date (fst e) b then (snd e ++ [b])%list else snd e)) acc)
                   = map fst acc)
        by (rewrite map_map; apply map_ext; reflexivity).
      rewrite IH by (rewrite Hk; exact Hnd). rewrite Hk. f_equal.
      * rewrite map_map. apply map_ext. intros [k v]. cbn [fst snd filter].
        destruct (on_date k b); [|reflexivity].
        now rewrite <- app_assoc.
      * apply map_ext_in. intros k Hin. cbn [filter].
        apply first_occurrences_from_fresh in Hin as [_ Hin].
        unfold on_date at 2.
        destruct (String.eqb_spec (booking_date b) k) as [<-|]; [contradiction|].
        reflexivity.
    + assert (Hn : ~ In (booking_date b) (map fst acc))
        by (rewrite <- existsb_eqb_In; now rewrite E).
      rewrite (group_step_absent acc b Hn).
      rewrite IH.
      2:{ rewrite map_app. cbn [map fst]. apply NoDup_app.
          - exact Hnd.
          - constructor; [intros []|constructor].
          - intros x Hx [<-|[]]. contradiction. }
      rewrite !map_app. cbn [map fst snd app]. rewrite <- app_assoc.
      cbn [app]. f_equal.
      * apply map_ext_in. intros [k v] Hin. cbn [fst snd filter].
        unfold on_date at 2.
        destruct (String.eqb_spec (booking_date b) k) as [<-|]; [|reflexivity].
        exfalso. apply Hn. apply in_map_iff. now exists (booking_date b, v).
      * f_equal.
        -- cbn [filter]. unfold on_date at 2. now rewrite String.eqb_refl.
        -- apply map_ext_in. intros k Hin. cbn [filter].
           apply first_occurrences_from_fresh in Hin as [_ Hin].
           unfold on_date at 2.
           destruct (String.eqb_spec (booking_date b) k) as [<-|]; [|reflexivity].
           exfalso. apply Hin. apply in_or_app. right. now left.
Qed.

Lemma group_by_date_spec (bs : list Booking) :
  group_by_date bs =
  map (fun k => (k, filter (on_date k) bs))
    (first_occurrences (map booking_date bs)).
Proof.
  unfold group_by_date. rewrite fold_group_step by constructor. reflexivity.
Qed.

Lemma group_by_date_keys (bs : list Booking) :
  map fst (group_by_date bs) = first_occurrences (map booking_date bs).
Proof.
  rewrite group_by_date_spec, map_map. cbn [fst]. apply map_id.
Qed.

(** Printing. *)
Lemma print_all_run (ls : list Line) (w : World) :
  print_all ls w =
  (Ret tt, {| requests := requests w; console := (console w ++ ls)%list;
              config := config w; client := client w |}).
Proof.
  revert w. induction ls as [|l rest IH]; intros w; cbn [print_all].
  - rewrite app_nil_r. now destruct w.
  - rewrite (bind_run _ _ _ _ _ (print_run l w)). rewrite IH.
    unfold printed. cbn [requests console config client].
    now rewrite <- app_assoc.
Qed.

Lemma print_groups_run (h : Host) (groups : list (string * list Booking))
  (w : World) :
  Forall (fun g => DateFns.isValid (DateFns.parseISO (tz h) (fst g)) = true) groups ->
  print_groups h groups w =
  (Ret tt, {| requests := requests w;
              console := (console w ++ group_lines groups)%list;
              config := config w; client := client w |}).
Proof.
  revert w. induction groups as [|[date dateBookings] rest IH]; intros w Hall;
    cbn [print_groups].
  - unfold group_lines. cbn [flat_map]. rewrite app_nil_r. now destruct w.
  - inversion Hall as [|? ? Hd Hrest]; subst. cbn [fst] in Hd.
    assert (Ef : formatDate h date = Ok date).
    { unfold formatDate. destruct (DateFns.parseISO (tz h) date);
        [reflexivity|discriminate]. }
    rewrite (bind_run _ _ _ _ _ (lift_run _ _ w Ef)).
    rewrite (bind_run _ _ _ _ _ (print_run _ w)).
    rewrite (bind_run _ _ _ _ _ (print_all_run _ _)).
    rewrite (IH _ Hrest).
    unfold printed, group_lines. cbn [requests console config client flat_map fst snd].
    rewrite <- !app_assoc. reflexivity.
Qed.

(** C9, as the code has it.  On a clock of the common era, with a count of
    days that [parseInt] reads as [n] from 0 to 700000 (the option's
    default is the text 14), [my] sends one request: the bookings of the
    current user from today's date to the date [n] days later, at most 100
    from offset 0.  It prints what the service returns and selects nothing
    itself: one group for each date, the groups in the order in which
    their dates first occur in the answer, each with the bookings of
    its date in the order of the answer.  The groups are therefore in
    date order when the service returns the bookings in date order. *)
Theorem my_groups_in_order_of_first_occurrence :
  forall (h : Host) (days : option string) (cfg : Config) (n : Z)
         (bookings : PaginatedResponse Booking),
    loadConfig h = Ok cfg ->
    clock_in_common_era h ->
    parseInt (match days with Some d => d | None => "14" end) = Some n ->
    0 <= n <= 700000 ->
    let api := new_DeskbirdClient cfg in
    let lookup := my_request h api (date_text (local_day h))
                    (date_text (local_day h + n)) in
    answers h [] lookup (JBookings bookings) ->
    Forall (fun b => DateFns.isValid
                       (DateFns.parseISO (tz h) (booking_date b)) = true)
      (data bookings) ->
    let groups := group_by_date (data bookings) in
    (days = None -> n = 14) /\
    my h days initial =
    (Ret tt,
     {| requests := [lookup];
        console := match data bookings with
                   | [] => [MyBookingsLine; NoUpcomingBookingsLine]
                   | _ :: _ => MyBookingsLine :: group_lines groups ++ [BlankLine]
                   end%list;
        config := Some cfg; client := Some api |}) /\
    map fst groups = first_occurrences (map booking_date (data bookings)) /\
    NoDup (map fst groups) /\
    (forall d, In d (map fst groups) <-> In d (map booking_date (data bookings))) /\
    (forall d bs, In (d, bs) groups -> bs = filter (on_date d) (data bookings)) /\
    (forall R : string -> string -> Prop,
        StronglySorted R (map booking_date (data bookings)) ->
        StronglySorted R (map fst groups)).
Proof.
  intros h days cfg n bookings Hcfg [Hy Htz] Hdays Hn api lookup Hans Hiso groups.
  pose proof (local_day_bounds h Hy) as B.
  assert (Hy' : 1 <= YearFromDay (local_day h + n)).
  { pose proof (YearFromDay_mono (local_day h) (local_day h + n) ltac:(lia)). lia. }
  assert (Hkeys : map fst groups = first_occurrences (map booking_date (data bookings)))
    by apply group_by_date_keys.
  repeat match goal with |- _ /\ _ => split end.
  - intros ->. cbv in Hdays. congruence.
  - unfold my, try_catch.
    rewrite (bind_run _ _ _ _ _
               (lift_run _ _ initial
                  (format_date_text (tz h) (now h) ltac:(apply Hy)))).
    rewrite Hdays.
    rewrite (bind_run _ _ _ _ _
               (lift_run _ _ initial
                  (format_days_ahead h n Hy Htz ltac:(lia) Hy'))).
    rewrite (bind_run _ _ _ _ _ (getClient_fresh h cfg initial Hcfg eq_refl)).
    fold api.
    rewrite (bind_run _ _ _ _ _
               (listBookings_run h api
                  {| lb_startDate := date_text (Day (LocalTime (tz h) (now h)));
                     lb_endDate := date_text (local_day h + n);
                     lb_userId := Some (current_id (getCurrentUser h));
                     lb_officeId := None; lb_resourceId := None;
                     lb_zoneId := None; lb_status := None;
                     lb_limit := None; lb_offset := None |}
                  bookings (loaded cfg initial) eq_refl eq_refl Hans)).
    rewrite (bind_run _ _ _ _ _ (print_run _ _)).
    fold groups.
    destruct (data bookings) as [|b0 rest] eqn:Edata; [reflexivity|].
    rewrite (bind_run _ _ _ _ _
               (print_groups_run h groups _ ltac:(
                  apply Forall_forall; intros [d bs] Hin; cbn [fst];
                  assert (Hd : In d (map fst groups))
                    by (apply in_map_iff; now exists (d, bs));
                  rewrite Hkeys in Hd;
                  apply first_occurrences_from_fresh in Hd as [Hd _];
                  apply in_map_iff in Hd as (b & <- & Hb);
                  rewrite Forall_forall in Hiso; now apply Hiso))).
    reflexivity.
  - exact Hkeys.
  - rewrite Hkeys. apply first_occurrences_from_NoDup.
  - intros d. rewrite Hkeys. split.
    + intros H. now apply first_occurrences_from_fresh in H as [H _].
    + intros H. apply first_occurrences_from_complete; [exact H|intros []].
  - intros d bs Hin. unfold groups in Hin. rewrite group_by_date_spec in Hin.
    apply in_map_iff in Hin as (k & E & _). now inversion E.
  - intros R HS. rewrite Hkeys. now apply first_occurrences_from_sorted.
Qed.

(** A run of [my] with the default of 14 days against two bookings of the
    same day. *)
Lemma my_example :
  let h := example_host (example_service two_desks two_bookings) in
  my h None initial =
  (Ret tt,
   {| requests := [my_request h (new_DeskbirdClient example_config)
                     "2024-03-15" "2024-03-29"];
      console := [MyBookingsLine; DateLine "2024-03-15";
                  EntryLine (nth 0 two_bookings (a_booking "" "" "" ""));
                  EntryLine (nth 1 two_bookings (a_booking "" "" "" ""));
                  BlankLine];
      config := Some example_config;
      client := Some (new_DeskbirdClient example_config) |}).
Proof.
  cbv zeta.
  refine (proj1 (proj2
            (my_groups_in_order_of_first_occurrence
               (example_host (example_service two_desks two_bookings)) None
               example_config 14 (page two_bookings) _ _ _ _ _ _))).
  - reflexivity.
  - unfold clock_in_common_era.
    change (YearFromDay (local_day (example_host
              (example_service two_desks two_bookings)))) with 2024.
    change (tz (example_host (example_service two_desks two_bookings)))
      with 3600000.
    unfold msPerDay. lia.
  - reflexivity.
  - lia.
  - eexists. eexists. repeat split.
  - repeat constructor; vm_compute; reflexivity.
Defined.

(** C9 as stated fails: the groups are not put in date order.  When the
    service returns a booking of the 16th before one of the 15th, the 16th
    is printed first. *)
Lemma my_prints_later_date_first :
  console (snd (my (example_host (example_service two_desks later_first))
                  None initial)) =
  [MyBookingsLine;
   DateLine "2024-03-16";
   EntryLine (a_booking "b2" "a1" "2024-03-16T09:00:00.000Z"
                "2024-03-16T18:00:00.000Z");
   DateLine "2024-03-15";
   EntryLine (a_booking "b1" "a1" "2024-03-15T09:00:00.000Z"
                "2024-03-15T18:00:00.000Z");
   BlankLine] /\
  map fst (group_by_date later_first) = ["2024-03-16"; "2024-03-15"].
Proof. split; vm_compute; reflexivity. Qed.

(* ================================================================= *)
(** * Part X.  Further properties of the code *)
(* ================================================================= *)

(** ** The configuration *)

Lemma truthy_text (o : option string) :
  truthy o = true -> nonempty (text_of o) = true.
Proof. destruct o; [intros H; exact H|discriminate]. Qed.

Lemma or_else_default_nonempty (o : option string) (dflt : string) :
  nonempty dflt = true ->
  nonempty (match or_else o (Some dflt) with Some s => s | None => EmptyString end)
  = true.
Proof.
  intros Hd. unfold or_else. destruct (truthy o) eqn:E; [|exact Hd].
  destruct o; [exact E|discriminate].
Qed.

(** X1.  For configuration files that hold null or a value within the
    interface [ConfigFile], [loadConfig] fails in two cases only.  Without
    a non-empty DESKBIRD_API_KEY it throws the error that names the
    variable, whatever the files hold.  With the key it throws a TypeError when
    the configuration file in use holds the JSON value null and one of
    DESKBIRD_BASE_URL, DESKBIRD_OFFICE_ID and TZ is unset or empty: the
    property of the file is read for the first such variable, in this
    order.  When it succeeds the key is the one of the environment, never
    the one of a file; neither the key, the base URL nor the time zone is
    empty; a variable of the environment that is set and not empty wins
    over the file; and one that is set to the empty text counts as
    unset. *)
Theorem loadConfig_fails_or_is_complete :
  forall h : Host,
    match loadConfig h with
    | Throw e =>
        (truthy (DESKBIRD_API_KEY (env h)) = false /\
         e = JsError
               ("DESKBIRD_API_KEY environment variable is required."
                ++ String "010"
                     "Get your API key from the Deskbird app: Settings > Integrations > API"))
        \/
        (truthy (DESKBIRD_API_KEY (env h)) = true /\
         first_config (configPaths h) = NullConfig /\
         exists name,
           e = TypeError ("Cannot read properties of null (reading '" ++ name ++ "')") /\
           ((name = "baseUrl" /\
             truthy (DESKBIRD_BASE_URL (env h)) = false) \/
            (name = "defaultOfficeId" /\
             truthy (DESKBIRD_BASE_URL (env h)) = true /\
             truthy (DESKBIRD_OFFICE_ID (env h)) = false) \/
            (name = "timezone" /\
             truthy (DESKBIRD_BASE_URL (env h)) = true /\
             truthy (DESKBIRD_OFFICE_ID (env h)) = true /\
             truthy (TZ (env h)) = false)))
    | Ok cfg =>
        DESKBIRD_API_KEY (env h) = Some (apiKey cfg) /\
        nonempty (apiKey cfg) = true /\
        nonempty (baseUrl cfg) = true /\
        nonempty (timezone cfg) = true /\
        (forall u, DESKBIRD_BASE_URL (env h) = Some u -> nonempty u = true ->
                   baseUrl cfg = u) /\
        (forall o, DESKBIRD_OFFICE_ID (env h) = Some o -> nonempty o = true ->
                   defaultOfficeId cfg = Some o) /\
        (forall z, TZ (env h) = Some z -> nonempty z = true -> timezone cfg = z) /\
        (forall c, DESKBIRD_OFFICE_ID (env h) = Some EmptyString ->
                   first_config (configPaths h) = ObjectConfig c ->
                   defaultOfficeId cfg = file_defaultOfficeId c) /\
        (first_config (configPaths h) = NullConfig ->
         truthy (DESKBIRD_BASE_URL (env h)) = true /\
         truthy (DESKBIRD_OFFICE_ID (env h)) = true /\
         truthy (TZ (env h)) = true)
    end.
Proof.
  intros h. unfold loadConfig.
  destruct (DESKBIRD_API_KEY (env h)) as [k|] eqn:Ek; cbn [truthy negb];
    [|left; split; reflexivity].
  destruct (nonempty k) eqn:Hk; cbn [negb]; [|left; split; reflexivity].
  unfold env_or_file, file_property.
  destruct (truthy (DESKBIRD_BASE_URL (env h))) eqn:Eb;
    destruct (truthy (DESKBIRD_OFFICE_ID (env h))) eqn:Eo;
    destruct (truthy (TZ (env h))) eqn:Ez;
    destruct (first_config (configPaths h)) as [|c] eqn:Ef.
  all: try (right; split; [reflexivity|split; [reflexivity|]];
            eexists; split; [reflexivity|]; tauto).
  all: cbn [apiKey baseUrl timezone defaultOfficeId].
  all: repeat match goal with |- _ /\ _ => split end.
  all: try reflexivity; try exact Hk; try discriminate.
  all: try (apply or_else_default_nonempty; reflexivity).
  all: try (intros u Eu Hu; rewrite Eu in *; unfold or_else; cbn [truthy] in *;
            try rewrite Hu; try congruence; reflexivity).
  all: try (intros c0 Eo' Ec; inversion Ec; subst; try reflexivity;
            rewrite Eo' in Eo; discriminate).
  all: intros _; repeat split; reflexivity.
Qed.

Lemma first_config_skips (skipped : list ConfigProbe) (rest : list ConfigProbe) :
  forallb unreadable skipped = true ->
  first_config (skipped ++ rest) = first_config rest.
Proof.
  induction skipped as [|p skipped IH]; [reflexivity|].
  cbn [forallb app]. intros H. apply andb_prop in H as [Hp Hs].
  destruct p; try discriminate; cbn [first_config]; now apply IH.
Qed.

(** X2.  The configuration file in use is the first of the paths, in
    their order, that exists and parses: files before it that are missing
    or do not parse are passed over, and files after it are never
    consulted.  When it holds an object, each of the base URL, the default
    office and the time zone for which the environment has no value is
    the one of that file, and the built-in one where the file has none.
    When it holds the JSON value null, [loadConfig] throws a TypeError
    when the environment has no base URL, and returns the values of the
    environment when it has all three.  Files are taken to hold null or a
    value within the interface [ConfigFile]. *)
Theorem loadConfig_reads_first_readable_file :
  forall (h : Host) (skipped rest : list ConfigProbe),
    truthy (DESKBIRD_API_KEY (env h)) = true ->
    forallb unreadable skipped = true ->
    (forall c,
        configPaths h = (skipped ++ WellFormed c :: rest)%list ->
        exists cfg,
          loadConfig h = Ok cfg /\
          (truthy (DESKBIRD_BASE_URL (env h)) = false ->
           baseUrl cfg = if truthy (file_baseUrl c) then text_of (file_baseUrl c)
                         else "https://connect.deskbird.com") /\
          (truthy (DESKBIRD_OFFICE_ID (env h)) = false ->
           defaultOfficeId cfg = file_defaultOfficeId c) /\
          (truthy (TZ (env h)) = false ->
           timezone cfg = if truthy (file_timezone c) then text_of (file_timezone c)
                          else "Europe/Madrid")) /\
    (configPaths h = (skipped ++ ParsedNull :: rest)%list ->
     (truthy (DESKBIRD_BASE_URL (env h)) = false ->
      loadConfig h
      = Throw (TypeError "Cannot read properties of null (reading 'baseUrl')")) /\
     (truthy (DESKBIRD_BASE_URL (env h)) = true ->
      truthy (DESKBIRD_OFFICE_ID (env h)) = true ->
      truthy (TZ (env h)) = true ->
      loadConfig h
      = Ok {| apiKey := text_of (DESKBIRD_API_KEY (env h));
              baseUrl := text_of (DESKBIRD_BASE_URL (env h));
              defaultOfficeId := DESKBIRD_OFFICE_ID (env h);
              timezone := text_of (TZ (env h)) |})).
Proof.
  intros h skipped rest Hkey Hskip. split.
  - intros c Hpaths. unfold loadConfig. rewrite Hkey. cbn [negb].
    rewrite Hpaths, (first_config_skips skipped _ Hskip). cbn [first_config].
    unfold env_or_file, file_property.
    destruct (truthy (DESKBIRD_BASE_URL (env h))) eqn:Eb;
      destruct (truthy (DESKBIRD_OFFICE_ID (env h))) eqn:Eo;
      destruct (truthy (TZ (env h))) eqn:Ez;
      (eexists; split; [reflexivity|]);
      cbn [baseUrl defaultOfficeId timezone]; unfold or_else;
      repeat split; try discriminate; intros _.
    all: try (destruct (truthy (file_baseUrl c)) eqn:E;
              [destruct (file_baseUrl c); reflexivity|reflexivity]).
    all: try (destruct (truthy (file_timezone c)) eqn:E;
              [destruct (file_timezone c); reflexivity|reflexivity]).
  - intros Hpaths. split.
    + intros Eb. unfold loadConfig. rewrite Hkey. cbn [negb].
      rewrite Hpaths, (first_config_skips skipped _ Hskip). cbn [first_config].
      unfold env_or_file, file_property. now rewrite Eb.
    + intros Eb Eo Ez. unfold loadConfig. rewrite Hkey. cbn [negb].
      rewrite Hpaths, (first_config_skips skipped _ Hskip). cbn [first_config].
      unfold env_or_file, file_property. rewrite Eb, Eo, Ez.
      unfold or_else. rewrite Eb, Ez.
      destruct (DESKBIRD_API_KEY (env h)), (DESKBIRD_BASE_URL (env h)),
        (TZ (env h)); try discriminate; reflexivity.
Qed.

(** With a first path that does not parse and a second that holds a base
    URL and a key: the base URL is the one of the file, the key is not.
    With a second path that holds null there is no configuration. *)
Lemma loadConfig_reads_first_readable_file_example :
  (exists cfg,
      loadConfig (configured_host example_env
                    [Malformed; WellFormed staging_file; Missing]) = Ok cfg /\
      apiKey cfg = "secret" /\ timezone cfg = "Europe/Madrid" /\
      baseUrl cfg = "https://staging.example/") /\
  loadConfig (configured_host example_env [Malformed; ParsedNull; Missing])
  = Throw (TypeError "Cannot read properties of null (reading 'baseUrl')").
Proof.
  split.
  - destruct (proj1 (loadConfig_reads_first_readable_file
                       (configured_host example_env
                          [Malformed; WellFormed staging_file; Missing])
                       [Malformed] [Missing] eq_refl eq_refl)
                staging_file eq_refl) as (cfg & Hl & Hb & _ & Hz).
    exists cfg. split; [exact Hl|].
    split; [|split; [exact (Hz eq_refl)|exact (Hb eq_refl)]].
    unfold loadConfig in Hl. cbn in Hl. now inversion Hl.
  - exact (proj1 (proj2 (loadConfig_reads_first_readable_file
                           (configured_host example_env
                              [Malformed; ParsedNull; Missing])
                           [Malformed] [Missing] eq_refl eq_refl) eq_refl)
             eq_refl).
Defined.

(** ** The caches *)

Lemma map_get_set_same {V} (k : string) (v : V) (m : list (string * V)) :
  map_get k (map_set k v m) = Some v.
Proof.
  induction m as [|[k' v'] m IH]; cbn [map_set map_get].
  - now rewrite String.eqb_refl.
  - destruct (String.eqb k' k) eqn:E; cbn [map_get].
    + now rewrite String.eqb_refl.
    + now rewrite E.
Qed.

Lemma map_get_set_other {V} (k k2 : string) (v : V) (m : list (string * V)) :
  k2 <> k -> map_get k2 (map_set k v m) = map_get k2 m.
Proof.
  intros N. induction m as [|[k' v'] m IH]; cbn [map_set map_get].
  - destruct (String.eqb_spec k k2); [congruence|reflexivity].
  - destruct (String.eqb_spec k' k) as [->|N2]; cbn [map_get].
    + destruct (String.eqb_spec k k2); [congruence|reflexivity].
    + destruct (String.eqb k' k2); [reflexivity|exact IH].
Qed.

Lemma map_set_keys {V} (k : string) (v : V) (m : list (string * V)) :
  map fst (map_set k v m) =
  if existsb (String.eqb k) (map fst m) then map fst m
  else (map fst m ++ [k])%list.
Proof.
  induction m as [|[k' v'] m IH]; cbn [map_set map fst existsb app]; [reflexivity|].
  rewrite (String.eqb_sym k k').
  destruct (String.eqb_spec k' k) as [->|N]; cbn [map fst orb]; [reflexivity|].
  rewrite IH. destruct (existsb (String.eqb k) (map fst m)); reflexivity.
Qed.

(** X3.  The caches give back what was stored: the resources of an office
    are those of the last store for that office, an empty list included;
    storing for one office leaves every other office and the offices cache
    as they were; nothing is cached at first; and an office never takes
    two places in the cache. *)
Theorem caches_give_back_what_was_stored :
  forall (c : Caches) (officeId : string) (resources : list Resource)
         (offices : list Office),
    getResourcesCache officeId (setResourcesCache officeId resources c)
    = Some resources /\
    (forall otherId, otherId <> officeId ->
       getResourcesCache otherId (setResourcesCache officeId resources c)
       = getResourcesCache otherId c) /\
    getOfficesCache (setResourcesCache officeId resources c) = getOfficesCache c /\
    getOfficesCache (setOfficesCache offices c) = Some offices /\
    (forall anyId, getResourcesCache anyId (setOfficesCache offices c)
                   = getResourcesCache anyId c) /\
    (forall anyId, getResourcesCache anyId empty_caches = None) /\
    getOfficesCache empty_caches = None /\
    (NoDup (map fst (resourcesCache c)) ->
     NoDup (map fst (resourcesCache (setResourcesCache officeId resources c)))).
Proof.
  intros c officeId resources offices.
  unfold getResourcesCache, setResourcesCache, getOfficesCache, setOfficesCache.
  cbn [resourcesCache officesCache].
  repeat split.
  - apply map_get_set_same.
  - intros otherId N. now apply map_get_set_other.
  - intros Hnd. rewrite map_set_keys.
    destruct (existsb (String.eqb officeId) (map fst (resourcesCache c))) eqn:E;
      [exact Hnd|].
    apply NoDup_app; [exact Hnd|constructor; [intros []|constructor]|].
    intros x Hx [<-|[]].
    assert (Ht : existsb (String.eqb officeId) (map fst (resourcesCache c)) = true)
      by (apply existsb_eqb_In; exact Hx).
    congruence.
Qed.

(** ** The client *)

Lemma strip_trailing_slash_app (b : string) :
  strip_trailing_slash (b ++ "/") = b.
Proof.
  induction b as [|c b IH]; [reflexivity|].
  cbn [append strip_trailing_slash]. rewrite IH.
  destruct (b ++ "/") eqn:E; [|reflexivity].
  destruct b; discriminate.
Qed.

Lemma strip_trailing_slash_length (s : string) :
  (String.length s <= S (String.length (strip_trailing_slash s)))%nat.
Proof.
  induction s as [|c s IH]; [cbn; lia|].
  cbn [strip_trailing_slash]. destruct s as [|c2 s].
  - destruct (Ascii.eqb c "/"); cbn; lia.
  - cbn [String.length] in *. lia.
Qed.

Lemma strip_trailing_slash_cases (s : string) :
  strip_trailing_slash s = s \/ s = strip_trailing_slash s ++ "/".
Proof.
  induction s as [|c s IH]; [now left|].
  cbn [strip_trailing_slash]. destruct s as [|c2 s].
  - destruct (Ascii.eqb_spec c "/") as [->|]; [now right|now left].
  - destruct IH as [IH|IH]; [left|right]; cbn [append]; congruence.
Qed.

(** X4.  The client drops one trailing slash of the base URL and no more:
    a base URL given with a final slash addresses the same URLs as without
    it, any other base URL is used as it is, and of two final slashes one
    stays. *)
Theorem client_drops_one_trailing_slash :
  forall (cfg : Config) (b path : string),
    (baseUrl cfg = b ++ "/" ->
     forall method query rb,
       req_url (api_request (new_DeskbirdClient cfg) method path query rb)
       = b ++ path) /\
    (client_baseUrl (new_DeskbirdClient cfg) = baseUrl cfg \/
     baseUrl cfg = client_baseUrl (new_DeskbirdClient cfg) ++ "/") /\
    client_apiKey (new_DeskbirdClient cfg) = apiKey cfg /\
    strip_trailing_slash (b ++ "//") = b ++ "/".
Proof.
  intros cfg b path. repeat split.
  - intros Hb method query rb. cbn [api_request req_url new_DeskbirdClient client_baseUrl].
    now rewrite Hb, strip_trailing_slash_app.
  - apply strip_trailing_slash_cases.
  - change "//" with ("/" ++ "/"). rewrite <- append_assoc.
    apply strip_trailing_slash_app.
Qed.

Ltac one_request H :=
  unfold bind, after_request;
  match goal with
  | |- snd (match ?r with _ => _ end) = _ =>
      pose proof H as Hs; cbv zeta in Hs;
      destruct r as [[j|e|c|] w'] eqn:Er;
      cbn [snd] in Hs |- *; subst w'; try reflexivity;
      destruct j; reflexivity
  end.

(** X5.  Every method of the client leaves the world as one call of
    [request] does: when the URL parses, exactly one request is sent,
    whatever the service answers and also when the network fails; when
    [new URL] rejects the URL, none is.  Neither the console nor the
    configuration is touched, and there is no retry and no second request.
    The request has the method, the path, the query and the body of the
    operation, and the two headers.  For the three listing methods this
    is stated for page sizes and offsets that are safe integers, whose
    text is their decimal digits. *)
Theorem every_method_sends_one_request :
  forall (h : Host) (this : DeskbirdClient) (w : World),
    snd (listOffices h this w)
    = after_request h w (api_request this "GET" "/offices" [("limit", "100")] None) /\
    (forall params,
        safe_number (lr_limit params) -> safe_number (lr_offset params) ->
        snd (listResources h this params w)
        = after_request h w (api_request this "GET" "/resources"
                    (opt_param "officeId" (lr_officeId params)
                     ++ opt_param "zoneId" (lr_zoneId params)
                     ++ opt_param "type"
                          (option_map ResourceType_text (lr_type params))
                     ++ [("limit", number_text (lr_limit params) 100);
                         ("offset", number_text (lr_offset params) 0)])%list
                    None)) /\
    (forall limit offset,
        safe_number limit -> safe_number offset ->
        snd (listUsers h this limit offset w)
        = after_request h w (api_request this "GET" "/users"
                    [("limit", toString (match limit with Some n => n | None => 100 end));
                     ("offset", toString (match offset with Some n => n | None => 0 end))]
                    None)) /\
    (forall userId,
        snd (getUser h this userId w)
        = after_request h w (api_request this "GET" ("/users/" ++ userId) [] None)) /\
    (forall params,
        safe_number (lb_limit params) -> safe_number (lb_offset params) ->
        snd (listBookings h this params w)
        = after_request h w (api_request this "GET" "/bookings"
                    ([("startDate", lb_startDate params);
                      ("endDate", lb_endDate params)]
                     ++ opt_param "userId" (lb_userId params)
                     ++ opt_param "officeId" (lb_officeId params)
                     ++ opt_param "resourceId" (lb_resourceId params)
                     ++ opt_param "zoneId" (lb_zoneId params)
                     ++ opt_param "status"
                          (option_map BookingStatus_text (lb_status params))
                     ++ [("limit", number_text (lb_limit params) 100);
                         ("offset", number_text (lb_offset params) 0)])%list
                    None)) /\
    (forall bookingId,
        snd (getBooking h this bookingId w)
        = after_request h w (api_request this "GET" ("/bookings/" ++ bookingId) [] None)) /\
    (forall data,
        snd (createBooking h this data w)
        = after_request h w (api_request this "POST" "/bookings" []
                    (Some (CreateBody data)))) /\
    (forall bookingId data,
        snd (updateBooking h this bookingId data w)
        = after_request h w (api_request this "PATCH" ("/bookings/" ++ bookingId) []
                    (Some (UpdateBody data)))) /\
    (forall bookingId,
        snd (cancelBooking h this bookingId w)
        = after_request h w (api_request this "DELETE" ("/bookings/" ++ bookingId) []
                    None)) /\
    (forall bookingId,
        snd (checkIn h this bookingId w)
        = after_request h w (api_request this "PATCH"
                    ("/bookings/" ++ bookingId ++ "/check-in") [] None)) /\
    (forall r,
        (url_parses h (requests w) r -> after_request h w r = sent w r) /\
        (service h (requests w) r = InvalidURL -> after_request h w r = w)).
Proof.
  intros h this w.
  repeat match goal with |- _ /\ _ => split end.
  - unfold listOffices.
    one_request (request_requests h this "GET" "/offices"
                   [("limit", number_param 100)] None w).
  - intros params _ _. unfold listResources.
    match goal with
    | |- snd (bind (request _ _ _ _ ?ps _) _ _) = _ =>
        pose proof (request_requests h this "GET" "/resources" ps None w) as Hq
    end.
    assert (Eq : searchParams
                   [("officeId", lr_officeId params); ("zoneId", lr_zoneId params);
                    ("type", option_map ResourceType_text (lr_type params));
                    ("limit", number_param (or_number (lr_limit params) 100));
                    ("offset", number_param (or_number (lr_offset params) 0))]
                 = (opt_param "officeId" (lr_officeId params)
                    ++ opt_param "zoneId" (lr_zoneId params)
                    ++ opt_param "type"
                         (option_map ResourceType_text (lr_type params))
                    ++ [("limit", number_text (lr_limit params) 100);
                        ("offset", number_text (lr_offset params) 0)])%list).
    { unfold number_text, or_number, number_param.
      destruct (lr_officeId params), (lr_zoneId params), (lr_type params),
        (lr_limit params) as [l|], (lr_offset params) as [o|];
        try destruct (l =? 0); try destruct (o =? 0); reflexivity. }
    cbv zeta in Hq. rewrite Eq in Hq. one_request Hq.
  - intros limit offset _ _. unfold listUsers. cbv zeta.
    one_request (request_requests h this "GET" "/users"
                   [("limit", number_param (match limit with Some n => n | None => 100 end));
                    ("offset", number_param (match offset with Some n => n | None => 0 end))]
                   None w).
  - intros userId. unfold getUser.
    one_request (request_requests h this "GET" ("/users/" ++ userId) [] None w).
  - intros params _ _. unfold listBookings.
    match goal with
    | |- snd (bind (request _ _ _ _ ?ps _) _ _) = _ =>
        pose proof (request_requests h this "GET" "/bookings" ps None w) as Hq
    end.
    assert (Eq : searchParams
                   [("startDate", Some (lb_startDate params));
                    ("endDate", Some (lb_endDate params));
                    ("userId", lb_userId params);
                    ("officeId", lb_officeId params);
                    ("resourceId", lb_resourceId params);
                    ("zoneId", lb_zoneId params);
                    ("status", option_map BookingStatus_text (lb_status params));
                    ("limit", number_param (or_number (lb_limit params) 100));
                    ("offset", number_param (or_number (lb_offset params) 0))]
                 = ([("startDate", lb_startDate params);
                     ("endDate", lb_endDate params)]
                    ++ opt_param "userId" (lb_userId params)
                    ++ opt_param "officeId" (lb_officeId params)
                    ++ opt_param "resourceId" (lb_resourceId params)
                    ++ opt_param "zoneId" (lb_zoneId params)
                    ++ opt_param "status"
                         (option_map BookingStatus_text (lb_status params))
                    ++ [("limit", number_text (lb_limit params) 100);
                        ("offset", number_text (lb_offset params) 0)])%list).
    { unfold number_text, or_number, number_param.
      destruct (lb_userId params), (lb_officeId params), (lb_resourceId params),
        (lb_zoneId params), (lb_status params),
        (lb_limit params) as [l|], (lb_offset params) as [o|];
        try destruct (l =? 0); try destruct (o =? 0); reflexivity. }
    cbv zeta in Hq. rewrite Eq in Hq. one_request Hq.
  - intros bookingId. unfold getBooking.
    one_request (request_requests h this "GET" ("/bookings/" ++ bookingId) [] None w).
  - intros data. unfold createBooking.
    one_request (request_requests h this "POST" "/bookings" []
                   (Some (CreateBody data)) w).
  - intros bookingId data. unfold updateBooking.
    one_request (request_requests h this "PATCH" ("/bookings/" ++ bookingId) []
                   (Some (UpdateBody data)) w).
  - intros bookingId. unfold cancelBooking.
    one_request (request_requests h this "DELETE" ("/bookings/" ++ bookingId) []
                   None w).
  - intros bookingId. unfold checkIn.
    one_request (request_requests h this "PATCH"
                   ("/bookings/" ++ bookingId ++ "/check-in") [] None w).
  - intros r. unfold after_request, url_parses. split.
    + intros Hu.
      destruct (service h (requests w) r); [reflexivity|reflexivity|contradiction].
    + intros Hs. now rewrite Hs.
Qed.

(** ** The configuration and the client of a run *)

(** X6.  The configuration is loaded by whichever of [getClient] and
    [getConfig] is called first, and both keep it: from then on each
    returns the same value without changing anything, the client is the
    one built from that configuration, and neither sends a request or
    prints.  A failure to load is thrown and not kept. *)
Theorem getClient_and_getConfig_share_one_load :
  forall (h : Host) (w : World),
    coherent w ->
    (forall c w', getClient h w = (Ret c, w') ->
       coherent w' /\ requests w' = requests w /\ console w' = console w /\
       getClient h w' = (Ret c, w') /\
       exists cfg, getConfig h w' = (Ret cfg, w') /\ c = new_DeskbirdClient cfg) /\
    (forall cfg w', getConfig h w = (Ret cfg, w') ->
       coherent w' /\ requests w' = requests w /\ console w' = console w /\
       getConfig h w' = (Ret cfg, w') /\
       getClient h w' = (Ret (new_DeskbirdClient cfg), w')) /\
    (forall e, config w = None -> loadConfig h = Throw e ->
       getClient h w = (Thrown (Native e), w) /\
       getConfig h w = (Thrown (Native e), w)).
Proof.
  intros h w Hw. unfold coherent in Hw. unfold getClient, getConfig.
  destruct (config w) as [cfg0|] eqn:Ecfg, (client w) as [c0|] eqn:Ecl;
    try contradiction.
  - subst c0. repeat split.
    + inversion H; subst. unfold coherent. now rewrite Ecfg, Ecl.
    + now inversion H.
    + now inversion H.
    + inversion H; subst. now rewrite Ecl.
    + inversion H; subst. exists cfg0. now rewrite Ecfg.
    + inversion H; subst. unfold coherent. now rewrite Ecfg, Ecl.
    + now inversion H.
    + now inversion H.
    + inversion H; subst. now rewrite Ecfg.
    + inversion H; subst. now rewrite Ecl.
    + discriminate.
    + discriminate.
  - destruct (loadConfig h) as [cfg|e0] eqn:El.
    + repeat split; try discriminate;
        inversion H; subst; cbn [requests console config client];
        try reflexivity.
      * exists cfg. split; reflexivity.
    + repeat split; try discriminate; congruence.
Qed.

Lemma getClient_and_getConfig_example :
  coherent initial /\
  getClient (example_host offline) (loaded example_config initial)
  = (Ret (new_DeskbirdClient example_config), loaded example_config initial).
Proof.
  assert (Hc : coherent initial) by exact I.
  split; [exact Hc|].
  destruct (getClient_and_getConfig_share_one_load (example_host offline) initial Hc)
    as (Hclient & _ & _).
  exact (proj1 (proj2 (proj2 (proj2
           (Hclient (new_DeskbirdClient example_config)
              (loaded example_config initial) eq_refl))))).
Defined.

(** X7.  The current user never has an empty id or name.  The id is the
    first of OPENCLAW_USER_ID, DESKBIRD_USER_ID and USER that is set and
    not empty, and the text "unknown" when none is; the name likewise from
    OPENCLAW_USER_NAME, DESKBIRD_USER_NAME and USER, with "User" last. *)
Theorem getCurrentUser_is_never_empty :
  forall h : Host,
    let u := getCurrentUser h in
    let first3 (a b c : option string) (dflt : string) :=
      if truthy a then text_of a
      else if truthy b then text_of b
      else if truthy c then text_of c else dflt in
    nonempty (current_id u) = true /\
    nonempty (current_name u) = true /\
    current_id u = first3 (OPENCLAW_USER_ID (env h)) (DESKBIRD_USER_ID (env h))
                     (USER (env h)) "unknown" /\
    current_name u = first3 (OPENCLAW_USER_NAME (env h))
                       (DESKBIRD_USER_NAME (env h)) (USER (env h)) "User".
Proof.
  intros h. cbv zeta. unfold getCurrentUser, or_else.
  cbn [current_id current_name].
  repeat split;
    repeat match goal with
           | |- context [truthy ?o] =>
               let E := fresh "E" in
               destruct (truthy o) eqn:E;
               try (destruct o; [exact E|discriminate])
           end;
    reflexivity.
Qed.

(** ** How the actions end *)

Lemma exits_bind {A B} (m : M A) (f : A -> M B) :
  exits_only_1 m -> (forall a, exits_only_1 (f a)) -> exits_only_1 (bind m f).
Proof.
  intros Hm Hf w c w'. unfold bind.
  destruct (m w) as [[a|e|c0|] w1] eqn:E; intros H.
  - exact (Hf a w1 c w' H).
  - discriminate.
  - inversion H; subst. exact (Hm w c w' E).
  - discriminate.
Qed.

Lemma exits_ret {A} (a : A) : exits_only_1 (ret a).
Proof. intros w c w' H. discriminate. Qed.

Lemma exits_throw {A} (e : Exn) : exits_only_1 (@throw A e).
Proof. intros w c w' H. discriminate. Qed.

Lemma exits_lift {A} (r : Result A) : exits_only_1 (lift r).
Proof. destruct r; intros w c w' H; discriminate. Qed.

Lemma exits_print (l : Line) : exits_only_1 (print l).
Proof. intros w c w' H. discriminate. Qed.

Lemma exits_exit {A} : exits_only_1 (@exit A 1).
Proof. intros w c w' H. now inversion H. Qed.

Lemma exits_outside {A} : exits_only_1 (@outside_contract A).
Proof. intros w c w' H. discriminate. Qed.

Lemma exits_request (h : Host) (this : DeskbirdClient) (method path : string)
  (params : list (string * option string)) (rb : option RequestBody) :
  exits_only_1 (request h this method path params rb).
Proof.
  intros w c w' H. rewrite request_unfold in H. cbv zeta in H.
  repeat match type of H with
         | context [match ?x with _ => _ end] => destruct x
         end; discriminate.
Qed.

Lemma exits_getClient (h : Host) : exits_only_1 (getClient h).
Proof.
  intros w c w' H. unfold getClient in H.
  destruct (client w); [discriminate|]. destruct (loadConfig h); discriminate.
Qed.

Lemma exits_getConfig (h : Host) : exits_only_1 (getConfig h).
Proof.
  intros w c w' H. unfold getConfig in H.
  destruct (config w); [discriminate|]. destruct (loadConfig h); discriminate.
Qed.

Ltac exits :=
  repeat first
    [ apply exits_ret | apply exits_throw | apply exits_lift | apply exits_print
    | apply exits_exit | apply exits_outside | apply exits_request
    | apply exits_getClient | apply exits_getConfig
    | apply exits_bind; [|intros ?]
    | match goal with
      | |- exits_only_1 (match ?x with _ => _ end) => destruct x
      end ].

Lemma exits_print_all (ls : list Line) : exits_only_1 (print_all ls).
Proof. induction ls; cbn [print_all]; exits. exact IHls. Qed.

Lemma exits_print_groups (h : Host) (groups : list (string * list Booking)) :
  exits_only_1 (print_groups h groups).
Proof.
  induction groups as [|[d bs] rest IH]; cbn [print_groups]; exits.
  - apply exits_print_all.
  - exact IH.
Qed.

Lemma handled_try_catch (m : M unit) (w : World) :
  exits_only_1 m -> handled (fst (try_catch m handleError w)).
Proof.
  intros Hm. unfold try_catch.
  destruct (m w) as [[a|e|c|] w'] eqn:E; cbn [fst handled].
  - exact I.
  - reflexivity.
  - exact (Hm w c w' E).
  - exact I.
Qed.

(** X8.  The four actions [book], [cancel], [my] and [checkin] never end
    with an exception in flight: from any state and with any service, a
    run returns or ends the process, and when it ends the process the exit
    status is 1. *)
Theorem actions_end_handled :
  forall (h : Host) (w : World),
    (forall resourceArg options, handled (fst (book h resourceArg options w))) /\
    (forall resourceArg options, handled (fst (cancel h resourceArg options w))) /\
    (forall days, handled (fst (my h days w))) /\
    (forall resourceArg options, handled (fst (checkin h resourceArg options w))).
Proof.
  intros h w. repeat split; intros.
  - unfold book. apply handled_try_catch.
    unfold office_or_default, listResources, createBooking. cbv zeta. exits.
  - unfold cancel. apply handled_try_catch.
    unfold office_or_default, listResources, listBookings, cancelBooking.
    cbv zeta. exits.
  - unfold my. cbv zeta. apply handled_try_catch.
    unfold listBookings. exits. apply exits_print_groups.
  - unfold checkin. apply handled_try_catch.
    unfold office_or_default, listResources, listBookings, checkIn.
    cbv zeta. exits.
Qed.

(** ** Runs that stop early *)

Lemma handleError_run {A} (e : Exn) (w : World) :
  @handleError A e w = (Exited 1, printed w (ErrorLine e)).
Proof. reflexivity. Qed.

(** X9.  [book] with a token that resolves to nothing stops after the
    listing: the not-found line and the names of the listed resources are
    printed, the process ends with status 1, and no booking is created. *)
Theorem book_stops_on_unknown_resource :
  forall (h : Host) (resourceArg : string) (options : BookOptions)
         (cfg : Config) (date : string) (start finish : option string)
         (resources : PaginatedResponse Resource),
    loadConfig h = Ok cfg ->
    parseDate h (book_date options) = Ok date ->
    parseTime (book_start options) = Ok start ->
    parseTime (book_end options) = Ok finish ->
    let api := new_DeskbirdClient cfg in
    let officeId := or_else (book_office options) (defaultOfficeId cfg) in
    let listing := resources_request api (office_resources officeId) in
    answers h [] listing (JResources resources) ->
    find_resource h resourceArg (data resources) = None ->
    book h resourceArg options initial =
    (Exited 1,
     {| requests := [listing];
        console := [ResourceNotFoundLine resourceArg;
                    AvailableResourcesLine (map resource_name (data resources))];
        config := Some cfg; client := Some api |}).
Proof.
  intros h resourceArg options cfg date start finish resources
         Hcfg Hdate Hstart Hend api officeId listing Hlist Hfind.
  unfold book, try_catch.
  rewrite (bind_run _ _ _ _ _ (lift_run _ _ initial Hdate)).
  unfold office_or_default, or_else in *.
  destruct (truthy (book_office options)) eqn:Eo.
  - rewrite (bind_run _ _ _ initial (book_office options)) by reflexivity.
    rewrite (bind_run _ _ _ _ _ (lift_run _ _ initial Hstart)).
    rewrite (bind_run _ _ _ _ _ (lift_run _ _ initial Hend)).
    rewrite (bind_run _ _ _ _ _ (getClient_fresh h cfg initial Hcfg eq_refl)).
    fold api.
    rewrite (bind_run _ _ _ _ _
               (listResources_run h api (office_resources (book_office options))
                  resources (loaded cfg initial) eq_refl eq_refl Hlist)).
    rewrite Hfind. reflexivity.
  - rewrite (bind_run _ _ _ (loaded cfg initial) (defaultOfficeId cfg)).
    2:{ unfold bind, getConfig. cbn [config initial]. now rewrite Hcfg. }
    rewrite (bind_run _ _ _ _ _ (lift_run _ _ (loaded cfg initial) Hstart)).
    rewrite (bind_run _ _ _ _ _ (lift_run _ _ (loaded cfg initial) Hend)).
    rewrite (bind_run _ _ _ _ _
               (getClient_cached h api (loaded cfg initial) eq_refl)).
    rewrite (bind_run _ _ _ _ _
               (listResources_run h api (office_resources (defaultOfficeId cfg))
                  resources (loaded cfg initial) eq_refl eq_refl Hlist)).
    rewrite Hfind. reflexivity.
Qed.

(** A run of [book "zzz"] against the two desks. *)
Lemma book_stops_on_unknown_resource_example :
  let h := example_host (example_service two_desks two_bookings) in
  book h "zzz" {| book_date := None; book_start := None; book_end := None;
                  book_office := None |} initial =
  (Exited 1,
   {| requests := [resources_request (new_DeskbirdClient example_config)
                     (office_resources (Some "office-1"))];
      console := [ResourceNotFoundLine "zzz";
                  AvailableResourcesLine ["Desk 1"; "Desk 12"]];
      config := Some example_config;
      client := Some (new_DeskbirdClient example_config) |}).
Proof.
  cbv zeta.
  refine (book_stops_on_unknown_resource
            (example_host (example_service two_desks two_bookings)) "zzz"
            {| book_date := None; book_start := None; book_end := None;
               book_office := None |}
            example_config "2024-03-15" None None (page two_desks)
            _ _ _ _ _ _).
  - reflexivity.
  - vm_compute. reflexivity.
  - reflexivity.
  - reflexivity.
  - eexists. eexists. repeat split.
  - reflexivity.
Defined.

(** X10.  [cancel] with a token that resolves to nothing stops after the
    listing with the not-found line and status 1: no booking is read and
    none is deleted. *)
Theorem cancel_stops_on_unknown_resource :
  forall (h : Host) (resourceArg : string) (options : CancelOptions)
         (cfg : Config) (date : string)
         (resources : PaginatedResponse Resource),
    loadConfig h = Ok cfg ->
    parseDate h (cancel_date options) = Ok date ->
    let api := new_DeskbirdClient cfg in
    let officeId := or_else (cancel_office options) (defaultOfficeId cfg) in
    let listing := resources_request api (office_resources officeId) in
    answers h [] listing (JResources resources) ->
    find_resource h resourceArg (data resources) = None ->
    cancel h resourceArg options initial =
    (Exited 1,
     {| requests := [listing];
        console := [ResourceNotFoundLine resourceArg];
        config := Some cfg; client := Some api |}).
Proof.
  intros h resourceArg options cfg date resources
         Hcfg Hdate api officeId listing Hlist Hfind.
  unfold cancel, try_catch.
  rewrite (bind_run _ _ _ _ _ (lift_run _ _ initial Hdate)).
  rewrite (office_then_client h cfg _ _ initial Hcfg eq_refl eq_refl).
  fold api officeId.
  rewrite (bind_run _ _ _ _ _
             (listResources_run h api (office_resources officeId) resources
                (loaded cfg initial) eq_refl eq_refl Hlist)).
  rewrite Hfind. reflexivity.
Qed.

Lemma cancel_stops_on_unknown_resource_example :
  let h := example_host (example_service two_desks two_bookings) in
  cancel h "zzz" {| cancel_date := None; cancel_office := None |} initial =
  (Exited 1,
   {| requests := [resources_request (new_DeskbirdClient example_config)
                     (office_resources (Some "office-1"))];
      console := [ResourceNotFoundLine "zzz"];
      config := Some example_config;
      client := Some (new_DeskbirdClient example_config) |}).
Proof.
  cbv zeta.
  refine (cancel_stops_on_unknown_resource
            (example_host (example_service two_desks two_bookings)) "zzz"
            {| cancel_date := None; cancel_office := None |}
            example_config "2024-03-15" (page two_desks) _ _ _ _).
  - reflexivity.
  - vm_compute. reflexivity.
  - eexists. eexists. repeat split.
  - reflexivity.
Defined.

(** X11.  A date that [parseDate] rejects stops [book], [cancel] and
    [checkin] before anything else happens: the error is printed, the
    process ends with status 1, no request is sent and the configuration
    is not even loaded. *)
Theorem rejected_date_sends_nothing :
  forall (h : Host) (e : NativeError),
    let stopped := (Exited 1,
                    {| requests := []; console := [ErrorLine (Native e)];
                       config := None; client := None |}) in
    (forall resourceArg options,
        parseDate h (book_date options) = Throw e ->
        book h resourceArg options initial = stopped) /\
    (forall resourceArg options,
        parseDate h (cancel_date options) = Throw e ->
        cancel h resourceArg options initial = stopped) /\
    (forall resourceArg options,
        parseDate h (checkin_date options) = Throw e ->
        checkin h resourceArg options initial = stopped).
Proof.
  intros h e stopped. repeat split; intros resourceArg options H.
  - unfold book, try_catch, bind. rewrite H. reflexivity.
  - unfold cancel, try_catch, bind. rewrite H. reflexivity.
  - unfold checkin, try_catch, bind. rewrite H. reflexivity.
Qed.

(** A run of [book] for the date "not-a-date". *)
Lemma rejected_date_sends_nothing_example :
  book (example_host (example_service two_desks two_bookings)) "Desk 1"
    {| book_date := Some "not-a-date"; book_start := None; book_end := None;
       book_office := None |} initial =
  (Exited 1,
   {| requests := [];
      console := [ErrorLine (Native (JsError (invalid_date_message "not-a-date")))];
      config := None; client := None |}).
Proof.
  refine (proj1 (rejected_date_sends_nothing
                   (example_host (example_service two_desks two_bookings))
                   (JsError (invalid_date_message "not-a-date")))
            "Desk 1"
            {| book_date := Some "not-a-date"; book_start := None;
               book_end := None; book_office := None |} _).
  vm_compute. reflexivity.
Defined.

Ltac run_without_key Hload :=
  unfold try_catch, bind, office_or_default, getConfig, getClient, lift,
    ret, throw, handleError, print, exit;
  repeat (cbv beta iota zeta; cbn [config client initial fst snd requests];
          first
            [ rewrite Hload
            | match goal with
              | |- context [parseDate ?a ?b] => destruct (parseDate a b)
              | |- context [parseTime ?a] => destruct (parseTime a)
              | |- context [truthy ?a] => destruct (truthy a)
              | |- context [DateFns.format_yyyy_MM_dd ?a ?b] =>
                  destruct (DateFns.format_yyyy_MM_dd a b)
              end ]);
  split; reflexivity.

(** X12.  Without DESKBIRD_API_KEY no action sends a request: [book],
    [cancel], [my] and [checkin] all end the process with status 1 and an
    empty request log, whatever their arguments. *)
Theorem missing_key_sends_nothing :
  forall (h : Host),
    truthy (DESKBIRD_API_KEY (env h)) = false ->
    (forall resourceArg options,
        let r := book h resourceArg options initial in
        fst r = Exited 1 /\ requests (snd r) = []) /\
    (forall resourceArg options,
        let r := cancel h resourceArg options initial in
        fst r = Exited 1 /\ requests (snd r) = []) /\
    (forall days,
        let r := my h days initial in
        fst r = Exited 1 /\ requests (snd r) = []) /\
    (forall resourceArg options,
        let r := checkin h resourceArg options initial in
        fst r = Exited 1 /\ requests (snd r) = []).
Proof.
  intros h Hkey.
  assert (Hload : exists e, loadConfig h = Throw e).
  { unfold loadConfig. rewrite Hkey. eexists. reflexivity. }
  destruct Hload as [e Hload].
  repeat match goal with |- _ /\ _ => split end; intros;
    match goal with r := _ |- _ => subst r end.
  - unfold book. run_without_key Hload.
  - unfold cancel. run_without_key Hload.
  - unfold my. run_without_key Hload.
  - unfold checkin. run_without_key Hload.
Qed.

(** In an environment without the key, with a configuration file that
    holds one. *)
Lemma missing_key_sends_nothing_example :
  let h := configured_host keyless_env [WellFormed staging_file] in
  let r := book h "Desk 1" {| book_date := None; book_start := None;
                              book_end := None; book_office := None |} initial in
  fst r = Exited 1 /\ requests (snd r) = [].
Proof.
  cbv zeta.
  exact (proj1 (missing_key_sends_nothing
                  (configured_host keyless_env [WellFormed staging_file]) eq_refl)
           "Desk 1" {| book_date := None; book_start := None;
                       book_end := None; book_office := None |}).
Defined.

(** X13.  [my] with a count of days that does not begin with an integer
    ends with the error "Invalid time value" and status 1 before the
    configuration is loaded or anything is sent: the count is not checked,
    the end date is an Invalid Date and formatting it throws. *)
Theorem my_rejects_days_that_are_no_number :
  forall (h : Host) (days : string),
    parseInt days = None ->
    my h (Some days) initial =
    (Exited 1,
     {| requests := [];
        console := [ErrorLine (Native (RangeError "Invalid time value"))];
        config := None; client := None |}).
Proof.
  intros h days Hd. unfold my, try_catch.
  destruct (format_never_throws (tz h) (Some (now h)) eq_refl) as [today Et].
  rewrite (bind_run _ _ _ _ _ (lift_run _ _ initial Et)). rewrite Hd.
  reflexivity.
Qed.

Lemma my_rejects_days_example :
  my (example_host (example_service two_desks two_bookings)) (Some "soon") initial =
  (Exited 1,
   {| requests := [];
      console := [ErrorLine (Native (RangeError "Invalid time value"))];
      config := None; client := None |}).
Proof.
  exact (my_rejects_days_that_are_no_number
           (example_host (example_service two_desks two_bookings)) "soon" eq_refl).
Defined.

(** X14.  [checkin] without a token, or with an empty one, never lists the
    resources.  Its one read is GET /bookings with the date as startDate
    and as endDate, the id of the current user as userId, the office when
    there is one, limit 100 and offset 0.  It checks in to the first
    booking of the answer, in the order returned, with one PATCH to that
    booking's check-in path; with no booking it ends with the no-booking
    line and status 1. *)
Theorem checkin_without_token_takes_first_booking :
  forall (h : Host) (resourceArg : option string) (options : CheckinOptions)
         (cfg : Config) (date : string) (bookings : PaginatedResponse Booking),
    truthy resourceArg = false ->
    loadConfig h = Ok cfg ->
    parseDate h (checkin_date options) = Ok date ->
    let api := new_DeskbirdClient cfg in
    let officeId := or_else (checkin_office options) (defaultOfficeId cfg) in
    let lookup := api_request api "GET" "/bookings"
                    ([("startDate", date); ("endDate", date);
                      ("userId", current_id (getCurrentUser h))]
                     ++ opt_param "officeId" officeId
                     ++ [("limit", "100"); ("offset", "0")])%list None in
    answers h [] lookup (JBookings bookings) ->
    match data bookings with
    | [] =>
        checkin h resourceArg options initial =
        (Exited 1,
         {| requests := [lookup]; console := [NoBookingTodayLine];
            config := Some cfg; client := Some api |})
    | first :: _ =>
        let patch := api_request api "PATCH"
                       ("/bookings/" ++ booking_id first ++ "/check-in") [] None in
        url_parses h [lookup] patch ->
        let w := snd (checkin h resourceArg options initial) in
        requests w = [lookup; patch] /\
        exists rest,
          console w = CheckingInLine (checkin_name first) :: rest /\
          forall l, In l rest -> l = CheckedInLine \/ exists e, l = ErrorLine e
    end.
Proof.
  intros h resourceArg options cfg date bookings
         Htok Hcfg Hdate api officeId lookup.
  assert (Ek : lookup = bookings_request api
                          (day_bookings date (Some (current_id (getCurrentUser h)))
                             officeId None))
    by reflexivity.
  clearbody lookup. subst lookup.
  set (lookup := bookings_request api _).
  intros Hlook.
  unfold checkin, try_catch.
  rewrite (bind_run _ _ _ _ _ (lift_run _ _ initial Hdate)).
  rewrite (office_then_client h cfg _ _ initial Hcfg eq_refl eq_refl).
  fold api officeId.
  rewrite (bind_run _ _ _ _ _
             (listBookings_run h api
                (day_bookings date (Some (current_id (getCurrentUser h)))
                   officeId None)
                bookings (loaded cfg initial) eq_refl eq_refl Hlook)).
  fold lookup. rewrite Htok.
  rewrite (bind_run _ _ _ (sent (loaded cfg initial) lookup) (data bookings))
    by reflexivity.
  destruct (data bookings) as [|first rest].
  - reflexivity.
  - intros Hu.
    rewrite (bind_run _ _ _ _ _ (print_run _ _)).
    rewrite (bind_run _ _ _ _ _
               (getClient_cached h api
                  (printed (sent (loaded cfg initial) lookup)
                     (CheckingInLine (checkin_name first))) eq_refl)).
    destruct (checkIn_sends_once h api (booking_id first)
                (printed (sent (loaded cfg initial) lookup)
                   (CheckingInLine (checkin_name first))) Hu) as (o & Ho).
    cbv zeta. unfold bind. rewrite Ho.
    destruct o as [b|e|c|]; simpl; (split; [reflexivity|]).
    + exists [CheckedInLine]. split; [reflexivity|].
      intros l [<-|[]]. now left.
    + exists [ErrorLine e]. split; [reflexivity|].
      intros l [<-|[]]. right. now exists e.
    + exists []. split; [reflexivity|intros l []].
    + exists []. split; [reflexivity|intros l []].
Qed.

Lemma checkin_without_token_example :
  let h := example_host (example_service two_desks two_bookings) in
  let api := new_DeskbirdClient example_config in
  requests (snd (checkin h None
                   {| checkin_date := None; checkin_office := None |} initial)) =
  [api_request api "GET" "/bookings"
     [("startDate", "2024-03-15"); ("endDate", "2024-03-15");
      ("userId", "user-1"); ("officeId", "office-1");
      ("limit", "100"); ("offset", "0")] None;
   api_request api "PATCH" "/bookings/b1/check-in" [] None].
Proof.
  cbv zeta.
  refine (proj1 (checkin_without_token_takes_first_booking
                   (example_host (example_service two_desks two_bookings)) None
                   {| checkin_date := None; checkin_office := None |}
                   example_config "2024-03-15" (page two_bookings) _ _ _ _ _)).
  - reflexivity.
  - reflexivity.
  - vm_compute. reflexivity.
  - eexists. eexists. repeat split.
  - intros H. discriminate H.
Defined.

(** ** A success without a JSON body *)

Lemma request_success_without_json (h : Host) (this : DeskbirdClient)
  (method path : string) (params : list (string * option string))
  (rb : option RequestBody) (w : World) (resp : HttpResponse) :
  let r := api_request this method path (searchParams params) rb in
  service h (requests w) r = Responded resp ->
  Response_ok resp = true ->
  body resp = None ->
  request h this method path params rb w =
  (Thrown (Native (SyntaxError "Unexpected end of JSON input")), sent w r).
Proof.
  intros r Hs Hok Hb. rewrite request_unfold. cbv zeta. fold r.
  rewrite Hs, Hok. unfold Response_json. rewrite Hb. reflexivity.
Qed.

(** X15.  A cancellation that the service confirms without a body, as
    with status 204, is reported as an error.  [request] reads every
    successful response as JSON, so after the DELETE has been sent and
    accepted, [cancel] prints the SyntaxError of the empty body and ends
    with status 1; the booking-cancelled line is not printed. *)
Theorem cancel_reports_error_on_empty_success :
  forall (h : Host) (resourceArg : string) (options : CancelOptions)
         (cfg : Config) (date : string) (resource : Resource)
         (resources : PaginatedResponse Resource)
         (bookings : PaginatedResponse Booking)
         (first : Booking) (others : list Booking) (resp : HttpResponse),
    loadConfig h = Ok cfg ->
    parseDate h (cancel_date options) = Ok date ->
    let api := new_DeskbirdClient cfg in
    let officeId := or_else (cancel_office options) (defaultOfficeId cfg) in
    let listing := resources_request api (office_resources officeId) in
    let lookup := bookings_request api
                    (day_bookings date (Some (current_id (getCurrentUser h)))
                       None (Some (resource_id resource))) in
    let delete := api_request api "DELETE" ("/bookings/" ++ booking_id first)
                    [] None in
    answers h [] listing (JResources resources) ->
    find_resource h resourceArg (data resources) = Some resource ->
    answers h [listing] lookup (JBookings bookings) ->
    data bookings = first :: others ->
    service h [listing; lookup] delete = Responded resp ->
    Response_ok resp = true ->
    body resp = None ->
    cancel h resourceArg options initial =
    (Exited 1,
     {| requests := [listing; lookup; delete];
        console := [CancellingLine (resource_name resource) date;
                    ErrorLine (Native (SyntaxError "Unexpected end of JSON input"))];
        config := Some cfg; client := Some api |}).
Proof.
  intros h resourceArg options cfg date resource resources bookings first others
         resp Hcfg Hdate api officeId listing lookup delete Hlist Hfind Hlook
         Hdata Hdel Hok Hbody.
  unfold cancel, try_catch.
  rewrite (bind_run _ _ _ _ _ (lift_run _ _ initial Hdate)).
  rewrite (office_then_client h cfg _ _ initial Hcfg eq_refl eq_refl).
  fold api officeId.
  rewrite (bind_run _ _ _ _ _
             (listResources_run h api (office_resources officeId) resources
                (loaded cfg initial) eq_refl eq_refl Hlist)).
  fold listing. rewrite Hfind.
  rewrite (bind_run _ _ _ _ _
             (getClient_cached h api (sent (loaded cfg initial) listing) eq_refl)).
  rewrite (bind_run _ _ _ _ _
             (listBookings_run h api
                (day_bookings date (Some (current_id (getCurrentUser h))) None
                   (Some (resource_id resource)))
                bookings (sent (loaded cfg initial) listing) eq_refl eq_refl Hlook)).
  fold lookup. rewrite Hdata.
  rewrite (bind_run _ _ _ _ _ (print_run _ _)).
  rewrite (bind_run _ _ _ _ _
             (getClient_cached h api
                (printed (sent (sent (loaded cfg initial) listing) lookup)
                   (CancellingLine (resource_name resource) date)) eq_refl)).
  unfold cancelBooking. unfold bind at 1. unfold bind at 1.
  rewrite (request_success_without_json h api "DELETE"
             ("/bookings/" ++ booking_id first) [] None
             (printed (sent (sent (loaded cfg initial) listing) lookup)
                (CancellingLine (resource_name resource) date)) resp Hdel Hok Hbody).
  reflexivity.
Qed.

(** A run of [cancel "Desk 1"] against a service that answers the DELETE
    with 204 No Content. *)
Lemma cancel_reports_error_on_empty_success_example :
  let h := example_host (no_content_on_delete two_desks two_bookings) in
  let api := new_DeskbirdClient example_config in
  cancel h "Desk 1" {| cancel_date := None; cancel_office := None |} initial =
  (Exited 1,
   {| requests :=
        [resources_request api (office_resources (Some "office-1"));
         bookings_request api
           (day_bookings "2024-03-15" (Some "user-1") None (Some "a1"));
         api_request api "DELETE" "/bookings/b1" [] None];
      console := [CancellingLine "Desk 1" "2024-03-15";
                  ErrorLine (Native (SyntaxError "Unexpected end of JSON input"))];
      config := Some example_config; client := Some api |}).
Proof.
  cbv zeta.
  refine (cancel_reports_error_on_empty_success
            (example_host (no_content_on_delete two_desks two_bookings)) "Desk 1"
            {| cancel_date := None; cancel_office := None |} example_config
            "2024-03-15" (desk "a1" "Desk 1") (page two_desks) (page two_bookings)
            (nth 0 two_bookings (a_booking "" "" "" "")) (tl two_bookings)
            {| status := 204; statusText := "No Content"; body := None |}
            _ _ _ _ _ _ _ _ _).
  - reflexivity.
  - vm_compute. reflexivity.
  - eexists. eexists. repeat split.
  - reflexivity.
  - eexists. eexists. repeat split.
  - reflexivity.
  - reflexivity.
  - reflexivity.
  - reflexivity.
Defined.

(** ** Times and instants *)

Lemma digit_char_digit (k : Z) :
  0 <= k <= 9 -> is_digit (digit_char k) = true /\ digit_val (digit_char k) = k.
Proof.
  intros H.
  assert (E : In k (upto 10)).
  { unfold upto. apply range_from_complete. lia. }
  vm_compute in E.
  repeat (destruct E as [<-|E]; [split; reflexivity|]). destruct E.
Qed.

Lemma two_digits_hour_minute (hour min : Z) :
  0 <= hour <= 99 -> 0 <= min <= 99 ->
  HourMinute (two_digits hour ++ ":" ++ two_digits min) hour min.
Proof.
  intros Hh Hm.
  destruct (digit_char_digit (hour / 10) ltac:(Z.to_euclidean_division_equations; lia))
    as [Da Va].
  destruct (digit_char_digit (hour mod 10) ltac:(Z.to_euclidean_division_equations; lia))
    as [Db Vb].
  destruct (digit_char_digit (min / 10) ltac:(Z.to_euclidean_division_equations; lia))
    as [Dc Vc].
  destruct (digit_char_digit (min mod 10) ltac:(Z.to_euclidean_division_equations; lia))
    as [Dd Vd].
  unfold two_digits. cbn [append].
  pose proof (HourMinute2 _ _ _ _ Da Db Dc Dd) as H.
  rewrite Va, Vb, Vc, Vd in H.
  replace (10 * (hour / 10) + hour mod 10) with hour in H
    by (Z.to_euclidean_division_equations; lia).
  replace (10 * (min / 10) + min mod 10) with min in H
    by (Z.to_euclidean_division_equations; lia).
  exact H.
Qed.

Lemma BareHour_nonneg (s : string) (hour : Z) : BareHour s hour -> 0 <= hour.
Proof. intros H. inversion H; subst; digit_ranges; lia. Qed.

Lemma HourMinute_nonneg (s : string) (hour min : Z) :
  HourMinute s hour min -> 0 <= hour /\ 0 <= min.
Proof. intros H. inversion H; subst; digit_ranges; lia. Qed.

Lemma parseTime_of_time (hour min : Z) :
  0 <= hour <= 23 -> 0 <= min <= 59 ->
  parseTime (Some (two_digits hour ++ ":" ++ two_digits min))
  = Ok (Some (two_digits hour ++ ":" ++ two_digits min)).
Proof.
  intros Hh Hm.
  pose proof (two_digits_hour_minute hour min ltac:(lia) ltac:(lia)) as Hhm.
  set (s := two_digits hour ++ ":" ++ two_digits min) in *.
  assert (Hne : truthy (Some s) = true) by (inversion Hhm; reflexivity).
  unfold parseTime. rewrite Hne. cbn [negb text_of].
  pose proof (parseTime_hour_spec s) as Hs.
  destruct (parseTime_hour s) as [out|].
  - destruct Hs as (hour' & Hb' & _). exfalso.
    inversion Hhm; subst; invert_time Hb'.
  - pose proof (parseTime_hour_minute_spec s) as Hs2.
    destruct (parseTime_hour_minute s) as [out|].
    + destruct Hs2 as (hour' & min' & Hhm' & _ & _ & ->).
      replace hour' with hour; [replace min' with min; [reflexivity|]|];
        inversion Hhm; subst; invert_time Hhm'; reflexivity.
    + specialize (Hs2 hour min Hhm). lia.
Qed.

(** X16.  [parseTime] is idempotent and its results have one shape: a
    time it returns is two digits, a colon and two digits, with the hour
    at most 23 and the minute at most 59, and [parseTime] maps such a time
    to itself. *)
Theorem parseTime_is_idempotent :
  forall (s t : string),
    parseTime (Some s) = Ok (Some t) ->
    parseTime (Some t) = Ok (Some t) /\
    exists hour min,
      0 <= hour <= 23 /\ 0 <= min <= 59 /\
      t = two_digits hour ++ ":" ++ two_digits min.
Proof.
  intros s t H.
  assert (Hshape : exists hour min, 0 <= hour <= 23 /\ 0 <= min <= 59 /\
                     t = two_digits hour ++ ":" ++ two_digits min).
  { unfold parseTime in H.
    destruct (negb (truthy (Some s))); [discriminate|]. cbn [text_of] in H.
    pose proof (parseTime_hour_spec s) as Hs.
    destruct (parseTime_hour s) as [out|].
    - destruct Hs as (hour & Hb & Hle & ->). inversion H; subst t.
      exists hour, 0. pose proof (BareHour_nonneg s hour Hb).
      repeat split; try lia.
    - pose proof (parseTime_hour_minute_spec s) as Hs2.
      destruct (parseTime_hour_minute s) as [out|]; [|discriminate].
      destruct Hs2 as (hour & min & Hhm & Hh & Hm & ->). inversion H; subst t.
      exists hour, min. pose proof (HourMinute_nonneg s hour min Hhm).
      repeat split; lia. }
  split; [|exact Hshape].
  destruct Hshape as (hour & min & Hh & Hm & ->).
  now apply parseTime_of_time.
Qed.

Lemma parseTime_is_idempotent_example :
  parseTime (Some "09:00") = Ok (Some "09:00").
Proof.
  exact (proj1 (parseTime_is_idempotent "9h" "09:00" eq_refl)).
Defined.

Lemma split_acc_at_separator (sep : ascii) (s cur rest : string) :
  test_class (Ascii.eqb sep) s = false ->
  split_acc sep cur (s ++ String sep rest)
  = (cur ++ s) :: split_acc sep EmptyString rest.
Proof.
  revert cur. induction s as [|c s IH]; intros cur H.
  - cbn [append split_acc]. rewrite Ascii.eqb_refl. now rewrite append_empty_r.
  - cbn [test_class] in H. apply orb_false_elim in H as [Hc Hs].
    cbn [append split_acc]. rewrite Ascii.eqb_sym, Hc.
    rewrite (IH _ Hs). rewrite append_assoc. reflexivity.
Qed.

Lemma split_acc_without_separator (sep : ascii) (s cur : string) :
  test_class (Ascii.eqb sep) s = false -> split_acc sep cur s = [cur ++ s].
Proof.
  revert cur. induction s as [|c s IH]; intros cur H.
  - cbn [split_acc]. now rewrite append_empty_r.
  - cbn [test_class] in H. apply orb_false_elim in H as [Hc Hs].
    cbn [split_acc]. rewrite Ascii.eqb_sym, Hc.
    rewrite (IH _ Hs). rewrite append_assoc. reflexivity.
Qed.

(** X17.  The instants that [book] writes are read back whole: for a date
    without the letter T and a time of the shape that [parseTime] returns,
    [formatTime] of [date T time :00.000Z] is the time and the part before
    the T, by which [my] groups, is the date.  A text without a T has no
    time: [formatTime] gives the empty text. *)
Theorem instant_is_read_back :
  forall (date : string) (hour min : Z),
    test_class (Ascii.eqb "T") date = false ->
    0 <= hour <= 23 -> 0 <= min <= 59 ->
    let time := two_digits hour ++ ":" ++ two_digits min in
    formatTime (instant date time) = time /\
    nth 0 (split "T" (instant date time)) EmptyString = date /\
    (forall b, booking_startTime b = instant date time -> booking_date b = date) /\
    formatTime date = EmptyString.
Proof.
  intros date hour min Hdate Hh Hm time.
  assert (Hsplit : split "T" (instant date time) = [date; time ++ ":00.000Z"]).
  { unfold split.
    change (instant date time) with (date ++ String "T" (time ++ ":00.000Z")).
    rewrite (split_acc_at_separator "T" date _ _ Hdate).
    cbn [append]. f_equal.
    apply (split_acc_without_separator "T" (time ++ ":00.000Z") EmptyString).
    destruct (digit_char_digit (hour / 10)
                ltac:(Z.to_euclidean_division_equations; lia)) as [Da _].
    destruct (digit_char_digit (hour mod 10)
                ltac:(Z.to_euclidean_division_equations; lia)) as [Db _].
    destruct (digit_char_digit (min / 10)
                ltac:(Z.to_euclidean_division_equations; lia)) as [Dc _].
    destruct (digit_char_digit (min mod 10)
                ltac:(Z.to_euclidean_division_equations; lia)) as [Dd _].
    unfold time, two_digits. cbn [append test_class].
    class_tests. closed_tests. reflexivity. }
  repeat split.
  - unfold formatTime. rewrite Hsplit. cbn [nth_error].
    unfold time, two_digits. reflexivity.
  - now rewrite Hsplit.
  - intros b Hb. unfold booking_date. now rewrite Hb, Hsplit.
  - unfold formatTime, split.
    now rewrite (split_acc_without_separator "T" date EmptyString Hdate).
Qed.

Lemma instant_is_read_back_example :
  formatTime "2024-03-15T09:30:00.000Z" = "09:30".
Proof.
  exact (proj1 (instant_is_read_back "2024-03-15" 9 30 eq_refl
                  ltac:(lia) ltac:(lia))).
Defined.

(** ** Grouping by a text key *)

Section Grouping.

Context {V : Type} (key : V -> string).

Lemma step_by_present (acc : list (string * list V)) (v : V) :
  NoDup (map fst acc) -> In (key v) (map fst acc) ->
  step_by key acc v =
  map (fun e => (fst e, if with_key key (fst e) v
                        then (snd e ++ [v])%list else snd e)) acc.
Proof.
  unfold step_by, with_key. set (k := key v).
  induction acc as [|[k' v'] rest IH]; intros Hnd Hin; [destruct Hin|].
  cbn [map fst snd] in *. inversion Hnd as [|? ? Hk' Hrest]; subst.
  cbn [map_get map_set].
  rewrite (String.eqb_sym k k').
  destruct (String.eqb_spec k' k) as [->|N].
  - cbv iota. f_equal.
    rewrite <- (map_id rest) at 1. apply map_ext_in.
    intros [k2 v2] H2. cbn [fst snd].
    destruct (String.eqb_spec k k2) as [E|]; [|reflexivity].
    exfalso. apply Hk'. apply in_map_iff. exists (k2, v2).
    split; [symmetry; exact E|exact H2].
  - cbn [map_set].
    destruct (String.eqb_spec k' k) as [|_]; [contradiction|].
    f_equal. apply IH; [exact Hrest|].
    destruct Hin as [Hin|Hin]; [congruence|exact Hin].
Qed.

Lemma step_by_absent (acc : list (string * list V)) (v : V) :
  ~ In (key v) (map fst acc) ->
  step_by key acc v = (acc ++ [(key v, [v])])%list.
Proof.
  unfold step_by. set (k := key v).
  induction acc as [|[k' v'] rest IH]; intros Hin; [reflexivity|].
  cbn [map fst] in Hin. cbn [map_get map_set].
  destruct (String.eqb_spec k' k) as [E|N].
  - exfalso. apply Hin. now left.
  - assert (Hr : ~ In k (map fst rest)) by (intros H; apply Hin; now right).
    specialize (IH Hr).
    assert (G : map_get k rest = None).
    { clear -Hr. induction rest as [|[k2 v2] r IH2]; [reflexivity|].
      cbn [map_get]. cbn [map fst] in Hr.
      destruct (String.eqb_spec k2 k) as [E|_]; [exfalso; apply Hr; now left|].
      apply IH2. intros H. apply Hr. now right. }
    rewrite G in IH |- *. cbn [map_set app].
    destruct (String.eqb_spec k' k) as [|_]; [contradiction|].
    cbn [app]. f_equal. exact IH.
Qed.

Lemma fold_step_by (vs : list V) (acc : list (string * list V)) :
  NoDup (map fst acc) ->
  fold_left (step_by key) vs acc =
  (map (fun e => (fst e, (snd e ++ filter (with_key key (fst e)) vs)%list)) acc
   ++ map (fun k => (k, filter (with_key key k) vs))
        (first_occurrences_from (map fst acc) (map key vs)))%list.
Proof.
  revert acc. induction vs as [|b bs IH]; intros acc Hnd.
  - cbn [fold_left map filter first_occurrences_from]. rewrite app_nil_r.
    rewrite <- (map_id acc) at 1. apply map_ext. intros [k v]. cbn [fst snd].
    now rewrite app_nil_r.
  - cbn [fold_left map first_occurrences_from].
    destruct (existsb (String.eqb (key b)) (map fst acc)) eqn:E.
    + apply existsb_eqb_In in E.
      rewrite (step_by_present acc b Hnd E).
      assert (Hk : map fst (map (fun e => (fst e,
                     if with_key key (fst e) b
                     then (snd e ++ [b])%list else snd e)) acc)
                   = map fst acc)
        by (rewrite map_map; apply map_ext; reflexivity).
      rewrite IH by (rewrite Hk; exact Hnd). rewrite Hk. f_equal.
      * rewrite map_map. apply map_ext. intros [k v]. cbn [fst snd filter].
        destruct (with_key key k b); [|reflexivity].
        now rewrite <- app_assoc.
      * apply map_ext_in. intros k Hin. cbn [filter].
        apply first_occurrences_from_fresh in Hin as [_ Hin].
        unfold with_key at 2.
        destruct (String.eqb_spec (key b) k) as [<-|]; [contradiction|].
        reflexivity.
    + assert (Hn : ~ In (key b) (map fst acc))
        by (rewrite <- existsb_eqb_In; now rewrite E).
      rewrite (step_by_absent acc b Hn).
      rewrite IH.
      2:{ rewrite map_app. cbn [map fst]. apply NoDup_app.
          - exact Hnd.
          - constructor; [intros []|constructor].
          - intros x Hx [<-|[]]. contradiction. }
      rewrite !map_app. cbn [map fst snd app]. rewrite <- app_assoc.
      cbn [app]. f_equal.
      * apply map_ext_in. intros [k v] Hin. cbn [fst snd filter].
        unfold with_key at 2.
        destruct (String.eqb_spec (key b) k) as [<-|]; [|reflexivity].
        exfalso. apply Hn. apply in_map_iff. now exists (key b, v).
      * f_equal.
        -- cbn [filter]. unfold with_key at 2. now rewrite String.eqb_refl.
        -- apply map_ext_in. intros k Hin. cbn [filter].
           apply first_occurrences_from_fresh in Hin as [_ Hin].
           unfold with_key at 2.
           destruct (String.eqb_spec (key b) k) as [<-|]; [|reflexivity].
           exfalso. apply Hin. apply in_or_app. right. now left.
Qed.

Lemma filter_split (p : V -> bool) (vs : list V) :
  Permutation (filter p vs ++ filter (fun v => negb (p v)) vs) vs.
Proof.
  induction vs as [|v vs IH]; [constructor|].
  cbn [filter]. destruct (p v); cbn [negb app].
  - now constructor.
  - apply Permutation_sym. apply Permutation_cons_app. now apply Permutation_sym.
Qed.

Lemma filter_other_key (k k' : string) (vs : list V) :
  k' <> k ->
  filter (with_key key k') (filter (fun v => negb (with_key key k v)) vs)
  = filter (with_key key k') vs.
Proof.
  intros N. induction vs as [|v vs IH]; [reflexivity|].
  cbn [filter]. destruct (with_key key k v) eqn:E1; cbn [negb filter].
  - destruct (with_key key k' v) eqn:E2; [|exact IH].
    unfold with_key in E1, E2. apply String.eqb_eq in E1, E2. congruence.
  - now rewrite IH.
Qed.

(** The groups of the keys [ks], when these are distinct and every value
    has its key among them, hold every value once. *)
Lemma groups_partition (ks : list string) (vs : list V) :
  NoDup ks -> (forall v, In v vs -> In (key v) ks) ->
  Permutation (List.concat (map (fun k => filter (with_key key k) vs) ks)) vs.
Proof.
  revert vs. induction ks as [|k ks IH]; intros vs Hnd Hall.
  - destruct vs as [|v vs]; [constructor|]. destruct (Hall v (or_introl eq_refl)).
  - inversion Hnd as [|? ? Hk Hks]; subst. cbn [map List.concat].
    eapply Permutation_trans; [|apply (filter_split (with_key key k))].
    apply Permutation_app_head.
    assert (E : map (fun k' => filter (with_key key k') vs) ks
                = map (fun k' => filter (with_key key k')
                                   (filter (fun v => negb (with_key key k v)) vs)) ks).
    { apply map_ext_in. intros k' Hk'. symmetry. apply filter_other_key.
      intros ->. contradiction. }
    rewrite E. apply IH; [exact Hks|].
    intros v Hv. apply filter_In in Hv as [Hv Hn].
    destruct (Hall v Hv) as [E0|Hin]; [|exact Hin].
    exfalso. apply negb_true_iff in Hn. unfold with_key in Hn.
    apply String.eqb_neq in Hn. congruence.
Qed.

Lemma fold_step_by_groups (vs : list V) :
  fold_left (step_by key) vs [] =
  map (fun k => (k, filter (with_key key k) vs)) (first_occurrences (map key vs)).
Proof. rewrite fold_step_by by constructor. reflexivity. Qed.

End Grouping.

Lemma length_concat_sum {A} (ls : list (list A)) :
  List.length (List.concat ls) = list_sum (map (@List.length A) ls).
Proof.
  induction ls as [|l ls IH]; [reflexivity|].
  cbn [List.concat map list_sum]. now rewrite length_app, IH.
Qed.

Lemma group_by_type_groups (resources : list Resource) :
  group_by_type resources =
  map (fun k => (k, filter (with_key type_key k) resources))
    (first_occurrences (map type_key resources)).
Proof. apply (fold_step_by_groups type_key). Qed.

(** X18.  The loop that groups the resources by type, in [list] and in
    [resources], loses and repeats nothing: every resource is in exactly
    one group, that of its type, the groups keep the order of the answer,
    none is empty, each type has one group, in the order in which the
    types first occur, and the sizes of the groups add up to the number of
    resources.  There are at most four groups. *)
Theorem group_by_type_is_a_partition :
  forall resources : list Resource,
    let groups := group_by_type resources in
    Permutation (List.concat (map snd groups)) resources /\
    list_sum (map (fun g => List.length (snd g)) groups) = List.length resources /\
    NoDup (map fst groups) /\
    map fst groups = first_occurrences (map type_key resources) /\
    (forall t rs, In (t, rs) groups ->
       rs <> [] /\ rs = filter (with_key type_key t) resources) /\
    (List.length groups <= 4)%nat.
Proof.
  intros resources groups.
  assert (Hg : groups = map (fun k => (k, filter (with_key type_key k) resources))
                          (first_occurrences (map type_key resources)))
    by apply group_by_type_groups.
  assert (Hkeys : map fst groups = first_occurrences (map type_key resources)).
  { rewrite Hg, map_map. cbn [fst]. apply map_id. }
  assert (Hnd : NoDup (map fst groups)).
  { rewrite Hkeys. apply first_occurrences_from_NoDup. }
  assert (Hperm : Permutation (List.concat (map snd groups)) resources).
  { rewrite Hg, map_map. cbn [snd].
    apply (groups_partition type_key).
    - apply first_occurrences_from_NoDup.
    - intros r Hr. apply first_occurrences_from_complete; [|intros []].
      apply in_map_iff. now exists r. }
  repeat match goal with |- _ /\ _ => split end.
  - exact Hperm.
  - rewrite <- (Permutation_length Hperm), length_concat_sum, map_map.
    reflexivity.
  - exact Hnd.
  - exact Hkeys.
  - intros t rs Hin. rewrite Hg in Hin.
    apply in_map_iff in Hin as (k & E & Hk). inversion E; subst t rs; clear E.
    split; [|reflexivity].
    apply first_occurrences_from_fresh in Hk as [Hk _].
    apply in_map_iff in Hk as (r & Er & Hr).
    intros Hnil.
    assert (Hin : In r (filter (with_key type_key k) resources)).
    { apply filter_In. split; [exact Hr|].
      unfold with_key. rewrite Er. apply String.eqb_refl. }
    rewrite Hnil in Hin. destruct Hin.
  - rewrite <- (length_map fst groups).
    change 4%nat with (List.length ["flexDesk"; "meetingRoom"; "parking"; "other"]).
    apply NoDup_incl_length; [exact Hnd|].
    intros t Ht. rewrite Hkeys in Ht.
    apply first_occurrences_from_fresh in Ht as [Ht _].
    apply in_map_iff in Ht as (r & <- & _).
    unfold type_key. destruct (resource_type r); cbn; tauto.
Qed.

(** ** What [book] reports *)

(** X19.  [book] prints the confirmation only for a booking that the
    service accepted.  When the POST is answered with a booking, the run
    returns after the booking line, the confirmation and the id of the
    new booking.  When it is refused with an error status and a JSON
    body, the run prints the error of that status after the booking line
    and ends with status 1, with no confirmation and no further request. *)
Theorem book_confirms_only_an_accepted_booking :
  forall (h : Host) (resourceArg : string) (options : BookOptions)
         (cfg : Config) (date : string) (start finish : option string)
         (resource : Resource) (resources : PaginatedResponse Resource),
    loadConfig h = Ok cfg ->
    parseDate h (book_date options) = Ok date ->
    parseTime (book_start options) = Ok start ->
    parseTime (book_end options) = Ok finish ->
    let api := new_DeskbirdClient cfg in
    let officeId := or_else (book_office options) (defaultOfficeId cfg) in
    let listing := resources_request api (office_resources officeId) in
    answers h [] listing (JResources resources) ->
    find_resource h resourceArg (data resources) = Some resource ->
    let startTime := match start with Some t => t | None => "09:00" end in
    let endTime := match finish with Some t => t | None => "18:00" end in
    let post := api_request api "POST" "/bookings" []
                  (Some (CreateBody
                           {| create_userId := current_id (getCurrentUser h);
                              create_resourceId := resource_id resource;
                              create_startTime := instant date startTime;
                              create_endTime := instant date endTime;
                              create_isAnonymousBooking := None |})) in
    let line := BookingLine (resource_name resource) date startTime endTime in
    (forall booking,
        answers h [listing] post (JBooking booking) ->
        book h resourceArg options initial =
        (Ret tt,
         {| requests := [listing; post];
            console := [line;
                        BookingConfirmedLine (resource_name resource) date
                          startTime endTime;
                        BookingIdLine (booking_id booking)];
            config := Some cfg; client := Some api |})) /\
    (forall resp b j,
        service h [listing] post = Responded resp ->
        Response_ok resp = false ->
        body resp = Some b -> parsed b = Some j ->
        book h resourceArg options initial =
        (Exited 1,
         {| requests := [listing; post];
            console := [line; ErrorLine (classify resp (JsonBody j))];
            config := Some cfg; client := Some api |})).
Proof.
  intros h resourceArg options cfg date start finish resource resources
         Hcfg Hdate Hstart Hend api officeId listing Hlist Hfind startTime endTime
         post line.
  assert (Hrun : book h resourceArg options initial =
                 try_catch
                   (bind (createBooking h api
                            {| create_userId := current_id (getCurrentUser h);
                               create_resourceId := resource_id resource;
                               create_startTime := instant date startTime;
                               create_endTime := instant date endTime;
                               create_isAnonymousBooking := None |})
                      (fun booking =>
                         bind (print (BookingConfirmedLine (resource_name resource)
                                        date startTime endTime))
                           (fun _ => print (BookingIdLine (booking_id booking)))))
                   handleError
                   (printed (sent (loaded cfg initial) listing) line)).
  { unfold book, try_catch.
    rewrite (bind_run _ _ _ _ _ (lift_run _ _ initial Hdate)).
    unfold office_or_default. fold officeId.
    assert (Hoff : exists w0,
               (if truthy (book_office options) then ret (book_office options)
                else bind (getConfig h) (fun c => ret (defaultOfficeId c))) initial
               = (Ret officeId, w0) /\
               getClient h w0 = (Ret api, loaded cfg initial)).
    { unfold officeId, or_else. destruct (truthy (book_office options)).
      - exists initial. split; [reflexivity|].
        now apply getClient_fresh.
      - exists (loaded cfg initial). split.
        + unfold bind, getConfig. simpl. now rewrite Hcfg.
        + now apply getClient_cached. }
    destruct Hoff as (w0 & Hoff & Hcl).
    rewrite (bind_run _ _ _ _ _ Hoff).
    rewrite (bind_run _ _ _ _ _ (lift_run _ _ w0 Hstart)).
    rewrite (bind_run _ _ _ _ _ (lift_run _ _ w0 Hend)).
    rewrite (bind_run _ _ _ _ _ Hcl).
    rewrite (bind_run _ _ _ _ _
               (listResources_run h api (office_resources officeId) resources
                  (loaded cfg initial) eq_refl eq_refl Hlist)).
    fold listing. rewrite Hfind.
    rewrite (bind_run _ _ _ _ _ (print_run _ _)).
    rewrite (bind_run _ _ _ _ _
               (getClient_cached h api
                  (printed (sent (loaded cfg initial) listing)
                     (BookingLine (resource_name resource) date
                        (text_of (or_else start (Some "09:00")))
                        (text_of (or_else finish (Some "18:00"))))) eq_refl)).
    rewrite (parseTime_default _ _ "09:00" Hstart).
    rewrite (parseTime_default _ _ "18:00" Hend).
    reflexivity. }
  split.
  - intros booking Hans. rewrite Hrun. unfold try_catch, createBooking.
    unfold bind at 1. unfold bind at 1.
    match goal with
    | |- context [request h api "POST" "/bookings" [] ?b ?w] =>
        rewrite (request_success h api "POST" "/bookings" [] b w
                   (JBooking booking) Hans)
    end.
    reflexivity.
  - intros resp b j Hs Hok Hb Hp. rewrite Hrun. unfold try_catch, createBooking.
    unfold bind at 1. unfold bind at 1.
    match goal with
    | |- context [request h api "POST" "/bookings" [] ?rb ?w] =>
        rewrite (request_error_with_json_body h api "POST" "/bookings" [] rb w
                   resp b j Hs Hok Hb Hp)
    end.
    reflexivity.
Qed.

(** A run of [book "Desk 1"] against a service that refuses the POST with
    409 Conflict. *)
Lemma book_confirms_only_an_accepted_booking_example :
  let h := example_host (conflict_on_post two_desks two_bookings) in
  console (snd (book h "Desk 1"
                  {| book_date := None; book_start := None; book_end := None;
                     book_office := None |} initial)) =
  [BookingLine "Desk 1" "2024-03-15" "09:00" "18:00";
   ErrorLine (RequestFailed 409 "Conflict" (JsonBody (JOther "{}")))].
Proof.
  cbv zeta.
  pose proof (proj2 (book_confirms_only_an_accepted_booking
            (example_host (conflict_on_post two_desks two_bookings)) "Desk 1"
            {| book_date := None; book_start := None; book_end := None;
               book_office := None |} example_config
            "2024-03-15" None None (desk "a1" "Desk 1") (page two_desks)
            eq_refl ltac:(vm_compute; reflexivity) eq_refl eq_refl
            ltac:(eexists; eexists; repeat split) eq_refl)
            {| status := 409; statusText := "Conflict";
               body := Some {| raw := "{}"; parsed := Some (JOther "{}") |} |}
            {| raw := "{}"; parsed := Some (JOther "{}") |} (JOther "{}")
            eq_refl eq_refl eq_refl eq_refl) as H.
  rewrite H. reflexivity.
Defined.

(** ** How many requests a run sends *)

Lemma sends_weaken {A} (n k : nat) (m : M A) :
  (n <= k)%nat -> sends_at_most n m -> sends_at_most k m.
Proof.
  intros Hle Hm w. destruct (Hm w) as (rs & E & L). exists rs. split; [exact E|lia].
Qed.

Lemma sends_bind {A B} (n k : nat) (m : M A) (f : A -> M B) :
  sends_at_most n m -> (forall a, sends_at_most k (f a)) ->
  sends_at_most (n + k) (bind m f).
Proof.
  intros Hm Hf w. unfold bind. destruct (Hm w) as (rs & E & L).
  destruct (m w) as [[a|e|c|] w1]; cbn [snd] in *;
    try (exists rs; split; [exact E|lia]).
  destruct (Hf a w1) as (rs2 & E2 & L2).
  exists (rs ++ rs2)%list. split.
  - now rewrite E2, E, app_assoc.
  - rewrite length_app. lia.
Qed.

Lemma sends_bind0 {A B} (k : nat) (m : M A) (f : A -> M B) :
  sends_at_most 0 m -> (forall a, sends_at_most k (f a)) ->
  sends_at_most k (bind m f).
Proof. intros Hm Hf. exact (sends_bind 0 k m f Hm Hf). Qed.

Lemma sends_bind1 {A B} (k : nat) (m : M A) (f : A -> M B) :
  sends_at_most 1 m -> (forall a, sends_at_most k (f a)) ->
  sends_at_most (S k) (bind m f).
Proof. intros Hm Hf. exact (sends_bind 1 k m f Hm Hf). Qed.

Lemma sends_nothing {A} (n : nat) (m : M A) :
  (forall w, requests (snd (m w)) = requests w) -> sends_at_most n m.
Proof.
  intros H w. exists []. rewrite H, app_nil_r. split; [reflexivity|cbn; lia].
Qed.

Lemma sends_ret {A} (n : nat) (a : A) : sends_at_most n (ret a).
Proof. now apply sends_nothing. Qed.

Lemma sends_throw {A} (n : nat) (e : Exn) : sends_at_most n (@throw A e).
Proof. now apply sends_nothing. Qed.

Lemma sends_lift {A} (n : nat) (r : Result A) : sends_at_most n (lift r).
Proof. apply sends_nothing. now destruct r. Qed.

Lemma sends_print (n : nat) (l : Line) : sends_at_most n (print l).
Proof. now apply sends_nothing. Qed.

Lemma sends_exit {A} (n : nat) (c : Z) : sends_at_most n (@exit A c).
Proof. now apply sends_nothing. Qed.

Lemma sends_outside {A} (n : nat) : sends_at_most n (@outside_contract A).
Proof. now apply sends_nothing. Qed.

Lemma sends_getClient (n : nat) (h : Host) : sends_at_most n (getClient h).
Proof.
  apply sends_nothing. intros w. unfold getClient.
  destruct (client w); [reflexivity|]. destruct (loadConfig h); reflexivity.
Qed.

Lemma sends_getConfig (n : nat) (h : Host) : sends_at_most n (getConfig h).
Proof.
  apply sends_nothing. intros w. unfold getConfig.
  destruct (config w); [reflexivity|]. destruct (loadConfig h); reflexivity.
Qed.

Lemma sends_request (h : Host) (this : DeskbirdClient) (method path : string)
  (params : list (string * option string)) (rb : option RequestBody) :
  sends_at_most 1 (request h this method path params rb).
Proof.
  intros w. rewrite request_requests. cbv zeta.
  destruct (service h (requests w) _).
  - eexists. split; [reflexivity|]. cbn. lia.
  - eexists. split; [reflexivity|]. cbn. lia.
  - exists []. split; [now rewrite app_nil_r|]. cbn. lia.
Qed.

Lemma sends_handleError {A} (n : nat) (e : Exn) : sends_at_most n (@handleError A e).
Proof. now apply sends_nothing. Qed.

Lemma sends_try_catch (n : nat) (m : M unit) :
  sends_at_most n m -> sends_at_most n (try_catch m handleError).
Proof.
  intros Hm w. unfold try_catch. destruct (Hm w) as (rs & E & L).
  destruct (m w) as [[a|e|c|] w1]; cbn [snd] in *; exists rs; (split; [exact E|lia]).
Qed.

Ltac sends0 :=
  repeat first
    [ apply sends_ret | apply sends_throw | apply sends_lift | apply sends_print
    | apply sends_exit | apply sends_outside | apply sends_getClient
    | apply sends_getConfig
    | apply sends_bind0; [|intros ?]
    | match goal with
      | |- sends_at_most _ (match ?x with _ => _ end) => destruct x
      end ].

Ltac one_method :=
  apply (sends_bind 1 0); [apply sends_request|intros ?; sends0].

Lemma sends_listResources (h : Host) (this : DeskbirdClient)
  (params : ListResourcesParams) :
  sends_at_most 1 (listResources h this params).
Proof. unfold listResources. one_method. Qed.

Lemma sends_listBookings (h : Host) (this : DeskbirdClient)
  (params : ListBookingsParams) :
  sends_at_most 1 (listBookings h this params).
Proof. unfold listBookings. one_method. Qed.

Lemma sends_createBooking (h : Host) (this : DeskbirdClient)
  (data : CreateBookingRequest) :
  sends_at_most 1 (createBooking h this data).
Proof. unfold createBooking. one_method. Qed.

Lemma sends_cancelBooking (h : Host) (this : DeskbirdClient) (bookingId : string) :
  sends_at_most 1 (cancelBooking h this bookingId).
Proof. unfold cancelBooking. one_method. Qed.

Lemma sends_checkIn (h : Host) (this : DeskbirdClient) (bookingId : string) :
  sends_at_most 1 (checkIn h this bookingId).
Proof. unfold checkIn. one_method. Qed.

Ltac sends :=
  repeat first
    [ apply sends_ret | apply sends_throw | apply sends_lift | apply sends_print
    | apply sends_exit | apply sends_outside | apply sends_getClient
    | apply sends_getConfig
    | apply sends_bind0;
      [first [ apply sends_lift | apply sends_print | apply sends_getClient
             | apply sends_getConfig | apply sends_ret ]
      | intros ?]
    | apply sends_bind1;
      [first [ apply sends_listResources | apply sends_listBookings
             | apply sends_createBooking | apply sends_cancelBooking
             | apply sends_checkIn ]
      | intros ?]
    | match goal with
      | |- sends_at_most _ (match ?x with _ => _ end) => destruct x
      end ].

Lemma sends_print_all (n : nat) (ls : list Line) : sends_at_most n (print_all ls).
Proof. induction ls; cbn [print_all]; sends0. exact IHls. Qed.

Lemma sends_print_groups (n : nat) (h : Host)
  (groups : list (string * list Booking)) :
  sends_at_most n (print_groups h groups).
Proof.
  induction groups as [|[d bs] rest IH]; cbn [print_groups]; sends0.
  - apply sends_print_all.
  - exact IH.
Qed.

Lemma sends_office_or_default (n : nat) (h : Host) (office : option string) :
  sends_at_most n (office_or_default h office).
Proof. unfold office_or_default. sends0. Qed.

(** X20.  However the service answers, a run of [book] sends at most two
    requests, [cancel] at most three, [my] at most one and [checkin] at
    most three, and none of them takes a request back: the requests after
    the run are those before it followed by the new ones. *)
Theorem actions_send_few_requests :
  forall h : Host,
    (forall resourceArg options, sends_at_most 2 (book h resourceArg options)) /\
    (forall resourceArg options, sends_at_most 3 (cancel h resourceArg options)) /\
    (forall days, sends_at_most 1 (my h days)) /\
    (forall resourceArg options, sends_at_most 3 (checkin h resourceArg options)).
Proof.
  intros h. repeat split; intros.
  - unfold book. apply sends_try_catch.
    apply sends_bind0; [apply sends_lift|intros date].
    apply sends_bind0; [apply sends_office_or_default|intros officeId].
    cbv zeta. sends.
  - unfold cancel. apply sends_try_catch.
    apply sends_bind0; [apply sends_lift|intros date].
    apply sends_bind0; [apply sends_office_or_default|intros officeId].
    cbv zeta. sends.
  - unfold my. cbv zeta. apply sends_try_catch. sends.
    apply sends_bind0; [apply sends_print_groups|intros _]. sends.
  - unfold checkin. apply sends_try_catch.
    apply sends_bind0; [apply sends_lift|intros date].
    apply sends_bind0; [apply sends_office_or_default|intros officeId].
    cbv zeta.
    apply sends_bind0; [apply sends_getClient|intros api].
    apply sends_bind1; [apply sends_listBookings|intros mine].
    apply (sends_bind 1 1).
    { destruct (truthy resourceArg); [|apply sends_ret]. sends. }
    intros bookings. sends.
Qed.

(** ** The empty token *)

Lemma includes_empty (s : string) : includes s EmptyString = true.
Proof. destruct s; reflexivity. Qed.

(** X21.  An empty token matches every resource, since every name
    contains the empty text: with a [toLowerCase] that maps the empty text
    to itself, resolution of the empty token gives the first listed
    resource, and fails only on an empty listing. *)
Theorem empty_token_resolves_to_first_resource :
  forall (h : Host) (resources : list Resource),
    toLowerCase h EmptyString = EmptyString ->
    find_resource h EmptyString resources = hd_error resources.
Proof.
  intros h resources Hl. destruct resources as [|r rest]; [reflexivity|].
  unfold find_resource. cbn [find hd_error].
  unfold resource_matches. rewrite Hl, includes_empty.
  now rewrite !orb_true_r.
Qed.

Lemma empty_token_example :
  find_resource (example_host offline) EmptyString two_desks
  = Some (desk "a1" "Desk 1").
Proof.
  exact (empty_token_resolves_to_first_resource (example_host offline) two_desks
           eq_refl).
Defined.

(** ** A check-in with a token that resolves *)

(** X22.  [checkin] with a token that resolves to a resource makes two
    reads: GET /bookings with the date as startDate and as endDate, the id
    of the current user as userId, the office when there is one, limit 100
    and offset 0, and then GET /resources with the office when there is
    one, limit 100 and offset 0.  Of the bookings of the first answer it
    keeps those of the resource, in the order returned, and checks in to
    the first of them with one PATCH; when none is left it ends with the
    no-booking line and status 1 after the two reads, having checked in to
    nothing. *)
Theorem checkin_with_token_takes_first_booking_of_resource :
  forall (h : Host) (token : string) (options : CheckinOptions)
         (cfg : Config) (date : string) (resource : Resource)
         (bookings : PaginatedResponse Booking)
         (resources : PaginatedResponse Resource),
    nonempty token = true ->
    loadConfig h = Ok cfg ->
    parseDate h (checkin_date options) = Ok date ->
    let api := new_DeskbirdClient cfg in
    let officeId := or_else (checkin_office options) (defaultOfficeId cfg) in
    let lookup := api_request api "GET" "/bookings"
                    ([("startDate", date); ("endDate", date);
                      ("userId", current_id (getCurrentUser h))]
                     ++ opt_param "officeId" officeId
                     ++ [("limit", "100"); ("offset", "0")])%list None in
    let listing := api_request api "GET" "/resources"
                     (opt_param "officeId" officeId
                      ++ [("limit", "100"); ("offset", "0")])%list None in
    answers h [] lookup (JBookings bookings) ->
    answers h [lookup] listing (JResources resources) ->
    find_resource h token (data resources) = Some resource ->
    match filter (fun b => String.eqb (booking_resourceId b) (resource_id resource))
            (data bookings) with
    | [] =>
        checkin h (Some token) options initial =
        (Exited 1,
         {| requests := [lookup; listing]; console := [NoBookingTodayLine];
            config := Some cfg; client := Some api |})
    | first :: _ =>
        let patch := api_request api "PATCH"
                       ("/bookings/" ++ booking_id first ++ "/check-in") [] None in
        url_parses h [lookup; listing] patch ->
        let w := snd (checkin h (Some token) options initial) in
        booking_resourceId first = resource_id resource /\
        requests w = [lookup; listing; patch] /\
        exists rest,
          console w = CheckingInLine (checkin_name first) :: rest /\
          forall l, In l rest -> l = CheckedInLine \/ exists e, l = ErrorLine e
    end.
Proof.
  intros h token options cfg date resource bookings resources
         Htok Hcfg Hdate api officeId lookup listing.
  assert (Ek : lookup = bookings_request api
                          (day_bookings date (Some (current_id (getCurrentUser h)))
                             officeId None))
    by reflexivity.
  assert (El : listing = resources_request api (office_resources officeId))
    by reflexivity.
  clearbody listing lookup. subst listing lookup.
  set (lookup := bookings_request api _).
  set (listing := resources_request api (office_resources officeId)).
  intros Hlook Hlist Hfind.
  unfold checkin, try_catch.
  rewrite (bind_run _ _ _ _ _ (lift_run _ _ initial Hdate)).
  rewrite (office_then_client h cfg _ _ initial Hcfg eq_refl eq_refl).
  fold api officeId.
  rewrite (bind_run _ _ _ _ _
             (listBookings_run h api
                (day_bookings date (Some (current_id (getCurrentUser h)))
                   officeId None)
                bookings (loaded cfg initial) eq_refl eq_refl Hlook)).
  fold lookup. simpl truthy. rewrite Htok.
  rewrite (bind_run _ _ _ (sent (sent (loaded cfg initial) lookup) listing)
             (filter (fun b => String.eqb (booking_resourceId b)
                                 (resource_id resource)) (data bookings))).
  2:{ rewrite (bind_run _ _ _ _ _
                 (getClient_cached h api (sent (loaded cfg initial) lookup) eq_refl)).
      rewrite (bind_run _ _ _ _ _
                 (listResources_run h api (office_resources officeId) resources
                    (sent (loaded cfg initial) lookup) eq_refl eq_refl Hlist)).
      fold listing. change (text_of (Some token)) with token.
      rewrite Hfind. reflexivity. }
  destruct (filter _ (data bookings)) as [|first rest] eqn:Ef.
  - reflexivity.
  - intros Hu.
    assert (Hfirst : booking_resourceId first = resource_id resource).
    { assert (Hin : In first (filter (fun b => String.eqb (booking_resourceId b)
                                                 (resource_id resource))
                                (data bookings)))
        by (rewrite Ef; now left).
      apply filter_In in Hin as [_ Hin]. now apply String.eqb_eq in Hin. }
    rewrite (bind_run _ _ _ _ _ (print_run _ _)).
    rewrite (bind_run _ _ _ _ _
               (getClient_cached h api
                  (printed (sent (sent (loaded cfg initial) lookup) listing)
                     (CheckingInLine (checkin_name first))) eq_refl)).
    destruct (checkIn_sends_once h api (booking_id first)
                (printed (sent (sent (loaded cfg initial) lookup) listing)
                   (CheckingInLine (checkin_name first))) Hu) as (o & Ho).
    cbv zeta. unfold bind. rewrite Ho.
    destruct o as [b|e|c|]; simpl; (split; [exact Hfirst|split; [reflexivity|]]).
    + exists [CheckedInLine]. split; [reflexivity|].
      intros l [<-|[]]. now left.
    + exists [ErrorLine e]. split; [reflexivity|].
      intros l [<-|[]]. right. now exists e.
    + exists []. split; [reflexivity|intros l []].
    + exists []. split; [reflexivity|intros l []].
Qed.

(** A check-in to "Desk 12", for which the user has no booking that
    day, and one to "Desk 1", for which there are two. *)
Lemma checkin_with_token_example :
  let h := example_host (example_service two_desks two_bookings) in
  let api := new_DeskbirdClient example_config in
  let lookup := api_request api "GET" "/bookings"
                  [("startDate", "2024-03-15"); ("endDate", "2024-03-15");
                   ("userId", "user-1"); ("officeId", "office-1");
                   ("limit", "100"); ("offset", "0")] None in
  let listing := api_request api "GET" "/resources"
                   [("officeId", "office-1"); ("limit", "100"); ("offset", "0")]
                   None in
  checkin h (Some "Desk 12")
    {| checkin_date := None; checkin_office := None |} initial =
  (Exited 1,
   {| requests := [lookup; listing];
      console := [NoBookingTodayLine];
      config := Some example_config; client := Some api |}) /\
  requests (snd (checkin h (Some "Desk 1")
                   {| checkin_date := None; checkin_office := None |} initial)) =
  [lookup; listing; api_request api "PATCH" "/bookings/b1/check-in" [] None].
Proof.
  cbv zeta. split.
  - refine (checkin_with_token_takes_first_booking_of_resource
              (example_host (example_service two_desks two_bookings)) "Desk 12"
              {| checkin_date := None; checkin_office := None |} example_config
              "2024-03-15" (desk "a2" "Desk 12") (page two_bookings)
              (page two_desks) _ _ _ _ _ _).
    + reflexivity.
    + reflexivity.
    + vm_compute. reflexivity.
    + eexists. eexists. repeat split.
    + eexists. eexists. repeat split.
    + reflexivity.
  - refine (proj1 (proj2 (checkin_with_token_takes_first_booking_of_resource
              (example_host (example_service two_desks two_bookings)) "Desk 1"
              {| checkin_date := None; checkin_office := None |} example_config
              "2024-03-15" (desk "a1" "Desk 1") (page two_bookings)
              (page two_desks) _ _ _ _ _ _ _))).
    + reflexivity.
    + reflexivity.
    + vm_compute. reflexivity.
    + eexists. eexists. repeat split.
    + eexists. eexists. repeat split.
    + reflexivity.
    + intros H. discriminate H.
Defined.

(** ** When the network fails *)

Lemma request_network_failure (h : Host) (this : DeskbirdClient)
  (method path : string) (params : list (string * option string))
  (rb : option RequestBody) (w : World) :
  let r := api_request this method path (searchParams params) rb in
  service h (requests w) r = NetworkFailure ->
  request h this method path params rb w =
  (Thrown (Native (TypeError "fetch failed")), sent w r).
Proof.
  intros r Hs. rewrite request_unfold. cbv zeta. fold r. now rewrite Hs.
Qed.

Lemma listResources_offline (h : Host) (this : DeskbirdClient)
  (params : ListResourcesParams) (w : World) :
  lr_limit params = None -> lr_offset params = None ->
  service h (requests w) (resources_request this params) = NetworkFailure ->
  listResources h this params w =
  (Thrown (Native (TypeError "fetch failed")),
   sent w (resources_request this params)).
Proof.
  intros Hl Ho H. unfold listResources, bind.
  assert (Eq : searchParams
                 [("officeId", lr_officeId params); ("zoneId", lr_zoneId params);
                  ("type", option_map ResourceType_text (lr_type params));
                  ("limit", number_param (or_number (lr_limit params) 100));
                  ("offset", number_param (or_number (lr_offset params) 0))]
               = req_query (resources_request this params)).
  { rewrite Hl, Ho. unfold resources_request. cbn [api_request req_query].
    destruct (lr_officeId params), (lr_zoneId params), (lr_type params);
      reflexivity. }
  rewrite (request_network_failure h this "GET" "/resources" _ None w).
  - rewrite Eq. reflexivity.
  - rewrite Eq. exact H.
Qed.

Lemma listBookings_offline (h : Host) (this : DeskbirdClient)
  (params : ListBookingsParams) (w : World) :
  lb_limit params = None -> lb_offset params = None ->
  service h (requests w) (bookings_request this params) = NetworkFailure ->
  listBookings h this params w =
  (Thrown (Native (TypeError "fetch failed")),
   sent w (bookings_request this params)).
Proof.
  intros Hl Ho H. unfold listBookings, bind.
  assert (Eq : searchParams
                 [("startDate", Some (lb_startDate params));
                  ("endDate", Some (lb_endDate params));
                  ("userId", lb_userId params);
                  ("officeId", lb_officeId params);
                  ("resourceId", lb_resourceId params);
                  ("zoneId", lb_zoneId params);
                  ("status", option_map BookingStatus_text (lb_status params));
                  ("limit", number_param (or_number (lb_limit params) 100));
                  ("offset", number_param (or_number (lb_offset params) 0))]
               = req_query (bookings_request this params)).
  { rewrite Hl, Ho. unfold bookings_request. cbn [api_request req_query].
    destruct (lb_userId params), (lb_officeId params), (lb_resourceId params),
      (lb_zoneId params), (lb_status params); reflexivity. }
  rewrite (request_network_failure h this "GET" "/bookings" _ None w).
  - rewrite Eq. reflexivity.
  - rewrite Eq. exact H.
Qed.

(** X23.  When the URL of the first request parses and the network fails
    on it, [book], [cancel] and [checkin] stop there: the one request is on
    record, the only line printed is the error of [fetch], and the process
    ends with status 1.  Nothing is retried.  The first request of [book]
    and of [cancel] is GET /resources with the office when there is one,
    limit 100 and offset 0; the one of [checkin] is GET /bookings with the
    date as startDate and as endDate, the id of the current user, the
    office when there is one, limit 100 and offset 0. *)
Theorem network_failure_stops_the_run :
  forall (h : Host) (cfg : Config),
    loadConfig h = Ok cfg ->
    let api := new_DeskbirdClient cfg in
    let stopped first :=
      (@Exited unit 1,
       {| requests := [first];
          console := [ErrorLine (Native (TypeError "fetch failed"))];
          config := Some cfg; client := Some api |}) in
    (forall resourceArg options date start finish,
        parseDate h (book_date options) = Ok date ->
        parseTime (book_start options) = Ok start ->
        parseTime (book_end options) = Ok finish ->
        let listing := api_request api "GET" "/resources"
                         (opt_param "officeId"
                            (or_else (book_office options) (defaultOfficeId cfg))
                          ++ [("limit", "100"); ("offset", "0")])%list None in
        service h [] listing = NetworkFailure ->
        book h resourceArg options initial = stopped listing) /\
    (forall resourceArg options date,
        parseDate h (cancel_date options) = Ok date ->
        let listing := api_request api "GET" "/resources"
                         (opt_param "officeId"
                            (or_else (cancel_office options) (defaultOfficeId cfg))
                          ++ [("limit", "100"); ("offset", "0")])%list None in
        service h [] listing = NetworkFailure ->
        cancel h resourceArg options initial = stopped listing) /\
    (forall resourceArg options date,
        parseDate h (checkin_date options) = Ok date ->
        let lookup := api_request api "GET" "/bookings"
                        ([("startDate", date); ("endDate", date);
                          ("userId", current_id (getCurrentUser h))]
                         ++ opt_param "officeId"
                              (or_else (checkin_office options) (defaultOfficeId cfg))
                         ++ [("limit", "100"); ("offset", "0")])%list None in
        service h [] lookup = NetworkFailure ->
        checkin h resourceArg options initial = stopped lookup).
Proof.
  intros h cfg Hcfg api stopped. repeat split.
  - intros resourceArg options date start finish Hdate Hstart Hend listing Hnet.
    unfold book, try_catch.
    rewrite (bind_run _ _ _ _ _ (lift_run _ _ initial Hdate)).
    unfold office_or_default.
    assert (Hoff : exists w0,
               (if truthy (book_office options) then ret (book_office options)
                else bind (getConfig h) (fun c => ret (defaultOfficeId c))) initial
               = (Ret (or_else (book_office options) (defaultOfficeId cfg)), w0) /\
               getClient h w0 = (Ret api, loaded cfg initial)).
    { unfold or_else. destruct (truthy (book_office options)).
      - exists initial. split; [reflexivity|].
        now apply getClient_fresh.
      - exists (loaded cfg initial). split.
        + unfold bind, getConfig. simpl. now rewrite Hcfg.
        + now apply getClient_cached. }
    destruct Hoff as (w0 & Hoff & Hcl).
    rewrite (bind_run _ _ _ _ _ Hoff).
    rewrite (bind_run _ _ _ _ _ (lift_run _ _ w0 Hstart)).
    rewrite (bind_run _ _ _ _ _ (lift_run _ _ w0 Hend)).
    rewrite (bind_run _ _ _ _ _ Hcl).
    unfold bind at 1.
    rewrite (listResources_offline h api
               (office_resources
                  (or_else (book_office options) (defaultOfficeId cfg)))
               (loaded cfg initial) eq_refl eq_refl Hnet).
    reflexivity.
  - intros resourceArg options date Hdate listing Hnet.
    unfold cancel, try_catch.
    rewrite (bind_run _ _ _ _ _ (lift_run _ _ initial Hdate)).
    rewrite (office_then_client h cfg _ _ initial Hcfg eq_refl eq_refl).
    fold api. unfold bind at 1.
    rewrite (listResources_offline h api
               (office_resources
                  (or_else (cancel_office options) (defaultOfficeId cfg)))
               (loaded cfg initial) eq_refl eq_refl Hnet).
    reflexivity.
  - intros resourceArg options date Hdate lookup Hnet.
    unfold checkin, try_catch.
    rewrite (bind_run _ _ _ _ _ (lift_run _ _ initial Hdate)).
    rewrite (office_then_client h cfg _ _ initial Hcfg eq_refl eq_refl).
    fold api. unfold bind at 1.
    rewrite (listBookings_offline h api
               (day_bookings date (Some (current_id (getCurrentUser h)))
                  (or_else (checkin_office options) (defaultOfficeId cfg)) None)
               (loaded cfg initial) eq_refl eq_refl Hnet).
    reflexivity.
Qed.

(** A run of [cancel] with no network. *)
Lemma network_failure_example :
  cancel (example_host offline) "Desk 1"
    {| cancel_date := None; cancel_office := None |} initial =
  (Exited 1,
   {| requests := [api_request (new_DeskbirdClient example_config) "GET"
                     "/resources"
                     [("officeId", "office-1"); ("limit", "100"); ("offset", "0")]
                     None];
      console := [ErrorLine (Native (TypeError "fetch failed"))];
      config := Some example_config;
      client := Some (new_DeskbirdClient example_config) |}).
Proof.
  refine (proj1 (proj2 (network_failure_stops_the_run (example_host offline)
                          example_config eq_refl))
            "Desk 1" {| cancel_date := None; cancel_office := None |}
            "2024-03-15" _ eq_refl).
  vm_compute. reflexivity.
Defined.

(** ** When the URL does not parse *)

Lemma listResources_invalid_url (h : Host) (this : DeskbirdClient)
  (params : ListResourcesParams) (w : World) :
  lr_limit params = None -> lr_offset params = None ->
  service h (requests w) (resources_request this params) = InvalidURL ->
  listResources h this params w =
  (Thrown (Native (TypeError "Invalid URL")), w).
Proof.
  intros Hl Ho H. unfold listResources, bind.
  assert (Eq : searchParams
                 [("officeId", lr_officeId params); ("zoneId", lr_zoneId params);
                  ("type", option_map ResourceType_text (lr_type params));
                  ("limit", number_param (or_number (lr_limit params) 100));
                  ("offset", number_param (or_number (lr_offset params) 0))]
               = req_query (resources_request this params)).
  { rewrite Hl, Ho. unfold resources_request. cbn [api_request req_query].
    destruct (lr_officeId params), (lr_zoneId params), (lr_type params);
      reflexivity. }
  rewrite (request_invalid_url h this "GET" "/resources" _ None w).
  - reflexivity.
  - rewrite Eq. exact H.
Qed.

Lemma listBookings_invalid_url (h : Host) (this : DeskbirdClient)
  (params : ListBookingsParams) (w : World) :
  lb_limit params = None -> lb_offset params = None ->
  service h (requests w) (bookings_request this params) = InvalidURL ->
  listBookings h this params w =
  (Thrown (Native (TypeError "Invalid URL")), w).
Proof.
  intros Hl Ho H. unfold listBookings, bind.
  assert (Eq : searchParams
                 [("startDate", Some (lb_startDate params));
                  ("endDate", Some (lb_endDate params));
                  ("userId", lb_userId params);
                  ("officeId", lb_officeId params);
                  ("resourceId", lb_resourceId params);
                  ("zoneId", lb_zoneId params);
                  ("status", option_map BookingStatus_text (lb_status params));
                  ("limit", number_param (or_number (lb_limit params) 100));
                  ("offset", number_param (or_number (lb_offset params) 0))]
               = req_query (bookings_request this params)).
  { rewrite Hl, Ho. unfold bookings_request. cbn [api_request req_query].
    destruct (lb_userId params), (lb_officeId params), (lb_resourceId params),
      (lb_zoneId params), (lb_status params); reflexivity. }
  rewrite (request_invalid_url h this "GET" "/bookings" _ None w).
  - reflexivity.
  - rewrite Eq. exact H.
Qed.

(** X24.  When [new URL] rejects the URL of the first request, as it does
    for a base URL without a scheme, [book], [cancel] and [checkin] send
    nothing: [fetch] is not called, the only line printed is the
    TypeError of the URL, and the process ends with status 1. *)
Theorem invalid_url_sends_nothing :
  forall (h : Host) (cfg : Config),
    loadConfig h = Ok cfg ->
    let api := new_DeskbirdClient cfg in
    let stopped :=
      (@Exited unit 1,
       {| requests := [];
          console := [ErrorLine (Native (TypeError "Invalid URL"))];
          config := Some cfg; client := Some api |}) in
    (forall resourceArg options date start finish,
        parseDate h (book_date options) = Ok date ->
        parseTime (book_start options) = Ok start ->
        parseTime (book_end options) = Ok finish ->
        let listing := api_request api "GET" "/resources"
                         (opt_param "officeId"
                            (or_else (book_office options) (defaultOfficeId cfg))
                          ++ [("limit", "100"); ("offset", "0")])%list None in
        service h [] listing = InvalidURL ->
        book h resourceArg options initial = stopped) /\
    (forall resourceArg options date,
        parseDate h (cancel_date options) = Ok date ->
        let listing := api_request api "GET" "/resources"
                         (opt_param "officeId"
                            (or_else (cancel_office options) (defaultOfficeId cfg))
                          ++ [("limit", "100"); ("offset", "0")])%list None in
        service h [] listing = InvalidURL ->
        cancel h resourceArg options initial = stopped) /\
    (forall resourceArg options date,
        parseDate h (checkin_date options) = Ok date ->
        let lookup := api_request api "GET" "/bookings"
                        ([("startDate", date); ("endDate", date);
                          ("userId", current_id (getCurrentUser h))]
                         ++ opt_param "officeId"
                              (or_else (checkin_office options) (defaultOfficeId cfg))
                         ++ [("limit", "100"); ("offset", "0")])%list None in
        service h [] lookup = InvalidURL ->
        checkin h resourceArg options initial = stopped).
Proof.
  intros h cfg Hcfg api stopped. repeat split.
  - intros resourceArg options date start finish Hdate Hstart Hend listing Hnet.
    unfold book, try_catch.
    rewrite (bind_run _ _ _ _ _ (lift_run _ _ initial Hdate)).
    unfold office_or_default.
    assert (Hoff : exists w0,
               (if truthy (book_office options) then ret (book_office options)
                else bind (getConfig h) (fun c => ret (defaultOfficeId c))) initial
               = (Ret (or_else (book_office options) (defaultOfficeId cfg)), w0) /\
               getClient h w0 = (Ret api, loaded cfg initial)).
    { unfold or_else. destruct (truthy (book_office options)).
      - exists initial. split; [reflexivity|].
        now apply getClient_fresh.
      - exists (loaded cfg initial). split.
        + unfold bind, getConfig. simpl. now rewrite Hcfg.
        + now apply getClient_cached. }
    destruct Hoff as (w0 & Hoff & Hcl).
    rewrite (bind_run _ _ _ _ _ Hoff).
    rewrite (bind_run _ _ _ _ _ (lift_run _ _ w0 Hstart)).
    rewrite (bind_run _ _ _ _ _ (lift_run _ _ w0 Hend)).
    rewrite (bind_run _ _ _ _ _ Hcl).
    unfold bind at 1.
    rewrite (listResources_invalid_url h api
               (office_resources
                  (or_else (book_office options) (defaultOfficeId cfg)))
               (loaded cfg initial) eq_refl eq_refl Hnet).
    reflexivity.
  - intros resourceArg options date Hdate listing Hnet.
    unfold cancel, try_catch.
    rewrite (bind_run _ _ _ _ _ (lift_run _ _ initial Hdate)).
    rewrite (office_then_client h cfg _ _ initial Hcfg eq_refl eq_refl).
    fold api. unfold bind at 1.
    rewrite (listResources_invalid_url h api
               (office_resources
                  (or_else (cancel_office options) (defaultOfficeId cfg)))
               (loaded cfg initial) eq_refl eq_refl Hnet).
    reflexivity.
  - intros resourceArg options date Hdate lookup Hnet.
    unfold checkin, try_catch.
    rewrite (bind_run _ _ _ _ _ (lift_run _ _ initial Hdate)).
    rewrite (office_then_client h cfg _ _ initial Hcfg eq_refl eq_refl).
    fold api. unfold bind at 1.
    rewrite (listBookings_invalid_url h api
               (day_bookings date (Some (current_id (getCurrentUser h)))
                  (or_else (checkin_office options) (defaultOfficeId cfg)) None)
               (loaded cfg initial) eq_refl eq_refl Hnet).
    reflexivity.
Qed.

(** A run of [book] on a host where no URL parses. *)
Lemma invalid_url_example :
  book (example_host unparseable) "Desk 1"
    {| book_date := None; book_start := None; book_end := None;
       book_office := None |} initial =
  (Exited 1,
   {| requests := [];
      console := [ErrorLine (Native (TypeError "Invalid URL"))];
      config := Some example_config;
      client := Some (new_DeskbirdClient example_config) |}).
Proof.
  refine (proj1 (invalid_url_sends_nothing (example_host unparseable)
                   example_config eq_refl)
            "Desk 1" {| book_date := None; book_start := None; book_end := None;
                        book_office := None |}
            "2024-03-15" None None _ eq_refl eq_refl eq_refl).
  vm_compute. reflexivity.
Defined.
